(** * Hotel reservation forecasting: reservation expansion, occupancy
      aggregation and forecast evaluation

    A shallow embedding of [src/data_transformer.py] and
    [src/forecasting.py].  The two Python modules are thin layers over
    pandas, numpy, statsmodels, pmdarima and scikit-learn; the part of each
    library call the functions rely on is written out below next to the
    function that calls it, with the library routine it follows named in the
    comment.

    Conventions
    - a Python call either returns a value or raises: [Result];
    - a [pd.Timestamp] is its count of nanoseconds since the epoch ([Z]),
      [NaT] is the missing timestamp;
    - a DataFrame is a column list and a list of labelled rows; the caller's
      DataFrame is a mutable object, so a function that assigns into it
      returns the frame it leaves behind next to its own result;
    - a float is an IEEE 754 binary64 number ([PrimFloat.float]). *)

From Stdlib Require Import ZArith String Bool Lia List Sorted Permutation.
From Stdlib Require Import Floats.
From Stdlib Require Uint63.
Import ListNotations.
Local Open Scope Z_scope.

(** ** Python results *)

Module Py.

(** An exception, by the name of its class. *)
Inductive Exception : Type :=
| Exc (cls : string).

Definition KeyError : Exception := Exc "KeyError"%string.
Definition ValueError : Exception := Exc "ValueError"%string.

Inductive Result (A : Type) : Type :=
| Ok (a : A)
| Raise (e : Exception).

Arguments Ok {A} a.
Arguments Raise {A} e.

Definition bind {A B : Type} (r : Result A) (k : A -> Result B) : Result B :=
  match r with
  | Ok a => k a
  | Raise e => Raise e
  end.

(** [for x in xs: ...] where the body may raise: the first exception ends
    the loop. *)
Fixpoint mapM {A B : Type} (f : A -> Result B) (xs : list A) : Result (list B) :=
  match xs with
  | [] => Ok []
  | x :: rest =>
      bind (f x) (fun y => bind (mapM f rest) (fun ys => Ok (y :: ys)))
  end.

End Py.

Import Py.

Notation "x <- c1 ;; c2" := (Py.bind c1 (fun x => c2))
  (at level 61, c1 at next level, right associativity).

(** ** The part of pandas the transformer uses *)

Module Pandas.

Inductive Datetime : Type :=
| NaT
| Timestamp (ns : Z).

(** A cell of a DataFrame: a missing value, an integer, a string, or a
    datetime. *)
Inductive Cell : Type :=
| CNone
| CInt (n : Z)
| CStr (s : string)
| CDatetime (d : Datetime).

(** A labelled row ([pd.Series] whose index is the column names). *)
Definition Series : Type := list (string * Cell).

Record DataFrame : Type := mkDataFrame {
  columns : list string;
  rows : list (Z * Series)        (* index label, row *)
}.

Definition mem (col : string) (cols : list string) : bool :=
  existsb (String.eqb col) cols.

Fixpoint series_lookup (col : string) (s : Series) : option Cell :=
  match s with
  | [] => None
  | (c, v) :: rest => if String.eqb col c then Some v else series_lookup col rest
  end.

(** [s[col]] on a row. *)
Definition series_getitem (s : Series) (col : string) : Result Cell :=
  match series_lookup col s with
  | Some v => Ok v
  | None => Raise KeyError
  end.

(** [s[col] = v] on a row: overwrites the cell under an existing label,
    appends a new label otherwise. *)
Fixpoint series_setitem (s : Series) (col : string) (v : Cell) : Series :=
  match s with
  | [] => [(col, v)]
  | (c, w) :: rest =>
      if String.eqb col c then (c, v) :: rest
      else (c, w) :: series_setitem rest col v
  end.

(** A label a row does not carry reads as a missing value in the frame. *)
Definition cell_at (col : string) (s : Series) : Cell :=
  match series_lookup col s with
  | Some v => v
  | None => CNone
  end.

(** [df[col]]: the column's cells in row order, [KeyError] for an unknown
    column. *)
Definition getitem (df : DataFrame) (col : string) : Result (list Cell) :=
  if mem col (columns df)
  then Ok (map (fun r => cell_at col (snd r)) (rows df))
  else Raise KeyError.

Fixpoint set_cells (rs : list (Z * Series)) (col : string) (vals : list Cell)
  : list (Z * Series) :=
  match rs, vals with
  | (i, s) :: rs', v :: vals' => (i, series_setitem s col v) :: set_cells rs' col vals'
  | _, _ => rs
  end.

(** [df[col] = vals], [vals] in row order: the frame after the assignment. *)
Definition setitem (df : DataFrame) (col : string) (vals : list Cell) : DataFrame :=
  {| columns := if mem col (columns df) then columns df else (columns df ++ [col])%list;
     rows := set_cells (rows df) col vals |}.

(** [df.iterrows()]: (index, row) pairs in row order. *)
Definition iterrows (df : DataFrame) : list (Z * Series) := rows df.

Definition labels (s : Series) : list string := map fst s.

Definition add_labels (acc ls : list string) : list string :=
  fold_left (fun a l => if mem l a then a else (a ++ [l])%list) ls acc.

(** [pd.DataFrame(records)] for a list of rows: the columns are the labels
    of the records in order of first appearance; no record, no column. *)
Definition DataFrame_of_records (records : list (Z * Series)) : DataFrame :=
  {| columns := fold_left (fun a r => add_labels a (labels (snd r))) records [];
     rows := records |}.

Section ToDatetime.

(** How pandas reads a string as a datetime is left open: [Some d] is the
    datetime read ([NaT] for the strings pandas takes as missing), [None] is
    a string it refuses. *)
Variable parse_str : string -> option Datetime.

(** [pd.to_datetime] on one cell with the default arguments
    ([errors='raise'], [unit='ns']): datetimes are kept, a missing value is
    [NaT], an integer counts nanoseconds since the epoch, a string is
    parsed. *)
Definition to_datetime_cell (c : Cell) : Result Datetime :=
  match c with
  | CNone => Ok NaT
  | CInt n => Ok (Timestamp n)
  | CDatetime d => Ok d
  | CStr s =>
      match parse_str s with
      | Some d => Ok d
      | None => Raise ValueError
      end
  end.

(** [pd.to_datetime(column)]. *)
Definition to_datetime (cells : list Cell) : Result (list Cell) :=
  mapM (fun c => d <- to_datetime_cell c ;; Ok (CDatetime d)) cells.

End ToDatetime.

(** Nanoseconds in the default frequency ['D'] of [pd.date_range]. *)
Definition day_ns : Z := 86400000000000.

(** [np.arange(start, stop, step)] for a positive step. *)
Definition arange (start stop step : Z) : list Z :=
  map (fun k => start + Z.of_nat k * step)
      (seq 0 (Z.to_nat ((stop - start + step - 1) / step))).

(** pandas' [generate_regular_range] for given start and end:
    [e = b + (iend - b) // stride * stride + stride // 2 + 1] and
    [np.arange(b, e, stride)]. *)
Definition generate_regular_range (istart iend stride : Z) : list Z :=
  let b := istart in
  let e := b + (iend - b) / stride * stride + stride / 2 + 1 in
  arange b e stride.

Inductive Inclusive : Type :=
| incl_both
| incl_neither
| incl_left
| incl_right.

Definition left_inclusive (i : Inclusive) : bool :=
  match i with incl_both | incl_left => true | _ => false end.

Definition right_inclusive (i : Inclusive) : bool :=
  match i with incl_both | incl_right => true | _ => false end.

(** [values[1:]] when the first value is [start]. *)
Definition drop_start (start : Z) (values : list Z) : list Z :=
  match values with
  | v :: rest => if v =? start then rest else values
  | [] => []
  end.

(** [values[:-1]] when the last value is [end]. *)
Definition drop_end (end_ : Z) (values : list Z) : list Z :=
  match rev values with
  | v :: _ => if v =? end_ then removelast values else values
  | [] => []
  end.

(** The end of pandas' [DatetimeArray._generate_range]: a bound that is
    not inclusive is cut off,
    [if not left_inclusive and len(values) and values[0] == start: values = values[1:]]
    [if not right_inclusive and len(values) and values[-1] == end: values = values[:-1]]
    also when start and end coincide: the left-inclusive range from a
    timestamp to itself is empty.  This is pandas 3.1, and the repository
    pins no version of pandas; releases 1.4 to 3.0 kept the single point of
    a range whose start and end coincide unless neither side was inclusive.
    The source passes [inclusive='left'] only. *)
Definition apply_inclusive (start end_ : Z) (i : Inclusive) (values : list Z) : list Z :=
  let values := if negb (left_inclusive i) then drop_start start values else values in
  if negb (right_inclusive i) then drop_end end_ values else values.

(** [pd.date_range(start=..., end=..., inclusive=...)] at the default daily
    frequency; a missing bound raises [ValueError].  The bounds are cells of
    a column that [to_datetime] produced, so they are datetimes. *)
Definition date_range (start end_ : Cell) (i : Inclusive) : Result (list Datetime) :=
  match start, end_ with
  | CDatetime (Timestamp s), CDatetime (Timestamp e) =>
      Ok (map Timestamp (apply_inclusive s e i (generate_regular_range s e day_ns)))
  | _, _ => Raise ValueError
  end.

End Pandas.

Import Pandas.

(** ** src/data_transformer.py *)

Module DataTransformer.

Section Expand.

Variable parse_str : string -> option Datetime.

(** The inner loop of [expand_reservations_to_daily]: one copy of the row
    per date of the range, with the date stored under ['date']. *)
Definition daily_records_of_row (idx : Z) (row : Series) (date_range : list Datetime)
  : list (Z * Series) :=
  map (fun date => (idx, series_setitem row "date"%string (CDatetime date))) date_range.

(** The body of the outer loop for one [(idx, row)] of [df.iterrows()]. *)
Definition expand_row (arrival_col departure_col : string) (r : Z * Series)
  : Result (list (Z * Series)) :=
  let '(idx, row) := r in
  start <- series_getitem row arrival_col ;;
  end_ <- series_getitem row departure_col ;;
  date_range <- date_range start end_ incl_left ;;
  Ok (daily_records_of_row idx row date_range).

(** [expand_reservations_to_daily(df, arrival_col, departure_col)].
    The first component is the caller's [df] as the call leaves it (the two
    assignments [df[col] = pd.to_datetime(df[col])] write into it), the
    second the returned frame or the exception raised. *)
Definition expand_reservations_to_daily
  (df : DataFrame) (arrival_col departure_col : string)
  : DataFrame * Result DataFrame :=
  match (c <- getitem df arrival_col ;; to_datetime parse_str c) with
  | Raise e => (df, Raise e)
  | Ok arrivals =>
      let df := setitem df arrival_col arrivals in
      match (c <- getitem df departure_col ;; to_datetime parse_str c) with
      | Raise e => (df, Raise e)
      | Ok departures =>
          let df := setitem df departure_col departures in
          (df,
           daily_records <- mapM (expand_row arrival_col departure_col) (iterrows df) ;;
           Ok (DataFrame_of_records (concat daily_records)))
      end
  end.

End Expand.

Definition default_arrival_col : string := "arrival_date"%string.
Definition default_departure_col : string := "departure_date"%string.

(** One row of the frame [aggregate_daily_occupancy] returns. *)
Record OccupancyRow : Type := mkOccupancyRow {
  occ_index : Z;
  date : Z;            (* the Timestamp of column 'date' *)
  occupancy : Z
}.

(** The group key of a cell of the 'date' column.  The column is a
    datetime column, as [expand_reservations_to_daily] builds it
    ([daily_record['date'] = date] stores a Timestamp in every record): a
    timestamp is a key, and [groupby] leaves out the rows whose key is
    missing ([dropna=True]).  Columns of another dtype, where [groupby]
    would take the integers or strings themselves as keys, are not
    described: the embedding gives such cells no key, and the statements
    that count records are made for datetime columns. *)
Definition date_key (c : Cell) : option Z :=
  match c with
  | CDatetime (Timestamp t) => Some t
  | _ => None
  end.

(** One more row with key [k] in the group sizes, which are kept in key
    order ([groupby] sorts the group keys, [sort=True]). *)
Fixpoint count_key (k : Z) (sizes : list (Z * Z)) : list (Z * Z) :=
  match sizes with
  | [] => [(k, 1)]
  | (k', n) :: rest =>
      match k ?= k' with
      | Lt => (k, 1) :: sizes
      | Eq => (k', n + 1) :: rest
      | Gt => (k', n) :: count_key k rest
      end
  end.

(** [groupby('date').size()] over the cells of the 'date' column. *)
Definition groupby_size (keys : list Cell) : list (Z * Z) :=
  fold_left (fun sizes c =>
               match date_key c with
               | Some k => count_key k sizes
               | None => sizes
               end) keys [].

(** [.reset_index(name='occupancy')]: a fresh index 0, 1, ... *)
Definition reset_index (sizes : list (Z * Z)) : list OccupancyRow :=
  map (fun p => {| occ_index := Z.of_nat (fst p);
                   date := fst (snd p);
                   occupancy := snd (snd p) |})
      (combine (seq 0 (length sizes)) sizes).

Fixpoint insert_by_date (r : OccupancyRow) (sorted : list OccupancyRow) : list OccupancyRow :=
  match sorted with
  | [] => [r]
  | r' :: rest =>
      if date r <=? date r' then r :: sorted else r' :: insert_by_date r rest
  end.

(** [.sort_values('date')]: ascending by insertion, each row keeps its
    index label. *)
Definition sort_values_date (occ : list OccupancyRow) : list OccupancyRow :=
  fold_right insert_by_date [] occ.

(** [aggregate_daily_occupancy(daily_df)]. *)
Definition aggregate_daily_occupancy (daily_df : DataFrame) : Result (list OccupancyRow) :=
  keys <- getitem daily_df "date"%string ;;
  let occupancy := reset_index (groupby_size keys) in
  let occupancy := sort_values_date occupancy in
  Ok occupancy.

End DataTransformer.

Import DataTransformer.

(** ** src/forecasting.py *)

Module Forecasting.

Local Open Scope float_scope.

(** A numeric series or array: its values in index order.  Two series an
    operation combines carry the same index, so pandas pairs them by
    position. *)
Definition FloatSeries : Type := list float.

(** *** decompose_time_series *)

(** What [seasonal_decompose] returns. *)
Record DecomposeResult : Type := mkDecomposeResult {
  trend : FloatSeries;
  seasonal : FloatSeries;
  resid : FloatSeries;
  observed : FloatSeries
}.

Section Decompose.

(** [statsmodels.tsa.seasonal.seasonal_decompose(series, model=, period=)]. *)
Variable seasonal_decompose : FloatSeries -> string -> Z -> Result DecomposeResult.

(** [decompose_time_series(series, freq, model)]: the dict of the four
    components, in the order the source builds it. *)
Definition decompose_time_series (series : FloatSeries) (freq : Z) (model : string)
  : Result (list (string * FloatSeries)) :=
  decomposition <- seasonal_decompose series model freq ;;
  Ok [ ("trend"%string, trend decomposition);
       ("seasonal"%string, seasonal decomposition);
       ("residual"%string, resid decomposition);
       ("observed"%string, observed decomposition) ].

End Decompose.

Definition default_freq : Z := 7%Z.
Definition default_model : string := "additive"%string.

(** The input checks of statsmodels' [seasonal_decompose], in its order:
    missing or infinite values, non-positive values under a multiplicative
    model, then fewer than two complete cycles; each raises [ValueError].
    The decomposition itself is [core]. *)
Definition statsmodels_seasonal_decompose
  (core : FloatSeries -> string -> Z -> DecomposeResult)
  (x : FloatSeries) (model : string) (period : Z) : Result DecomposeResult :=
  if negb (forallb is_finite x) then Raise ValueError
  else if String.prefix "m" model && existsb (fun v => v <=? 0) x then Raise ValueError
  else if (Z.of_nat (length x) <? 2 * period)%Z then Raise ValueError
  else Ok (core x model period).

(** *** forecast_future *)

(** A fitted model, as [forecast_future] uses it: the method
    [predict(n_periods=, return_conf_int=True)], which returns the forecast
    and one (lower, upper) pair per step, or raises. *)
Record FittedModel : Type := mkFittedModel {
  predict : Z -> Result (FloatSeries * list (float * float))
}.

(** [forecast_future(model, n_periods)]. *)
Definition forecast_future (model : FittedModel) (n_periods : Z)
  : Result (FloatSeries * list (float * float)) :=
  predict model n_periods.

Definition default_n_periods : Z := 30%Z.

(** pmdarima's [ARIMA.predict] asks statsmodels for the steps [nobs] to
    [nobs + n_periods - 1]; statsmodels refuses an end before the start with
    [ValueError].  The forecast itself is [forecast]. *)
Definition pmdarima_model (forecast : Z -> FloatSeries * list (float * float))
  : FittedModel :=
  {| predict := fun n_periods =>
       if (n_periods <=? 0)%Z then Raise ValueError else Ok (forecast n_periods) |}.

(** *** fit_auto_arima *)

(** The keyword arguments [fit_auto_arima] passes to [pmdarima.auto_arima]. *)
Record AutoArimaOptions : Type := mkAutoArimaOptions {
  opt_seasonal : bool;
  opt_m : Z;
  opt_stepwise : bool;
  opt_suppress_warnings : bool;
  opt_error_action : string;
  opt_trace : bool
}.

Section FitAutoArima.

(** [pmdarima.auto_arima(series, **options)]: the fitted model, or the
    exception of the search. *)
Variable auto_arima : FloatSeries -> AutoArimaOptions -> Result FittedModel.

(** [fit_auto_arima(series, seasonal, m)]. *)
Definition fit_auto_arima (series : FloatSeries) (seasonal : bool) (m : Z)
  : Result FittedModel :=
  auto_arima series
             {| opt_seasonal := seasonal;
                opt_m := m;
                opt_stepwise := true;
                opt_suppress_warnings := true;
                opt_error_action := "ignore"%string;
                opt_trace := true |}.

End FitAutoArima.

Definition default_seasonal : bool := true.
Definition default_m : Z := 7%Z.

(** *** evaluate_model *)

Record EvaluationMetrics : Type := mkEvaluationMetrics {
  MAE : float;
  RMSE : float;
  MAPE : float
}.

(** A count as a float64 (a length is below 2^63). *)
Definition float_of_nat (n : nat) : float := of_uint63 (Uint63.of_Z (Z.of_nat n)).

(** The sum of an array, added up from the left.  (numpy adds in blocks;
    the order only shows in the rounding of a sum of three or more inexact
    terms.) *)
Definition np_sum (xs : FloatSeries) : float := fold_left PrimFloat.add xs 0.

(** [np.average(a)] = [a.mean()] of an array: sum over count. *)
Definition np_average (xs : FloatSeries) : float := np_sum xs / float_of_nat (length xs).

(** scikit-learn's check of regression targets: equal lengths, at least
    one sample, no NaN and no infinity; [ValueError] otherwise. *)
Definition check_reg_targets (y_true y_pred : FloatSeries) : Result unit :=
  if negb (Nat.eqb (length y_true) (length y_pred)) then Raise ValueError
  else if Nat.eqb (length y_true) 0 then Raise ValueError
  else if negb (forallb is_finite y_true && forallb is_finite y_pred) then Raise ValueError
  else Ok tt.

(** Elementwise operation on two series of the same index. *)
Definition map2 (f : float -> float -> float) (xs ys : FloatSeries) : FloatSeries :=
  map (fun p => f (fst p) (snd p)) (combine xs ys).

(** [sklearn.metrics.mean_absolute_error]: the input check, then
    [np.average(np.abs(y_pred - y_true))]. *)
Definition mean_absolute_error (y_true y_pred : FloatSeries) : Result float :=
  _ <- check_reg_targets y_true y_pred ;;
  Ok (np_average (map PrimFloat.abs (map2 PrimFloat.sub y_pred y_true))).

(** [sklearn.metrics.mean_squared_error]: the input check, then
    [np.average((y_true - y_pred) ** 2)]. *)
Definition mean_squared_error (y_true y_pred : FloatSeries) : Result float :=
  _ <- check_reg_targets y_true y_pred ;;
  Ok (np_average (map (fun d => d * d) (map2 PrimFloat.sub y_true y_pred))).

(** [np.mean(series)] on a pandas Series is [series.mean()], which leaves
    the NaN entries out ([skipna=True]): they count as 0 in the sum and
    are not counted; no entry left gives NaN. *)
Definition series_mean (xs : FloatSeries) : float :=
  let count := length (filter (fun x => negb (is_nan x)) xs) in
  if Nat.eqb count 0 then nan
  else np_sum (map (fun x => if is_nan x then 0 else x) xs) / float_of_nat count.

(** [evaluate_model(actual, predicted)]. *)
Definition evaluate_model (actual predicted : FloatSeries) : Result EvaluationMetrics :=
  mae <- mean_absolute_error actual predicted ;;
  mse <- mean_squared_error actual predicted ;;
  let rmse := PrimFloat.sqrt mse in
  let ape := map PrimFloat.abs (map2 PrimFloat.div (map2 PrimFloat.sub actual predicted) actual) in
  let mape := series_mean ape * 100 in
  Ok {| MAE := mae; RMSE := rmse; MAPE := mape |}.

End Forecasting.

Import Forecasting.

(** * Vocabulary of the statements *)

(** The timestamps of [n] consecutive midnights from day [a] on. *)
Definition midnights (a : Z) (n : nat) : list Z :=
  map (fun k => (a + Z.of_nat k) * day_ns) (seq 0 n).

(** The total of a list of counts. *)
Definition total (ns : list Z) : Z := fold_right Z.add 0 ns.


(** The dates of the rows of a frame of DailyRecords, in row order. *)
Definition record_dates (daily_df : DataFrame) : list Z :=
  flat_map (fun r => match date_key (cell_at "date" (snd r)) with
                     | Some t => [t]
                     | None => []
                     end) (rows daily_df).

(** The keys of the cells that have one, in order. *)
Definition keyed (keys : list Cell) : list Z :=
  flat_map (fun c => match date_key c with Some t => [t] | None => [] end) keys.

(** The size recorded for key [t] in a list of group sizes. *)
Definition size_at (t : Z) (sizes : list (Z * Z)) : Z :=
  fold_right (fun p acc => if fst p =? t then snd p + acc else acc) 0 sizes.

(** A column that already holds datetimes in every row. *)
Definition datetime_column (df : DataFrame) (col : string) : Prop :=
  mem col (columns df) = true /\
  Forall (fun r => exists d, series_lookup col (snd r) = Some (CDatetime d)) (rows df).

(** 2024-01-01 and 2024-01-03, in days since the epoch. *)
Definition day_2024_01_01 : Z := 19723.
Definition day_2024_01_03 : Z := 19725.

Definition midnight_cell (day : Z) : Cell := CDatetime (Timestamp (day * day_ns)).

(** One reservation that arrives and leaves on 2024-01-01. *)
Definition same_day_reservation : DataFrame :=
  {| columns := [default_arrival_col; default_departure_col];
     rows := [(0, [(default_arrival_col, midnight_cell day_2024_01_01);
                   (default_departure_col, midnight_cell day_2024_01_01)])] |}.

(** One reservation from 2024-01-01 to 2024-01-03, the dates as strings. *)
Definition string_reservation : DataFrame :=
  {| columns := [default_arrival_col; default_departure_col];
     rows := [(0, [(default_arrival_col, CStr "2024-01-01");
                   (default_departure_col, CStr "2024-01-03")])] |}.

(** A reader of the two date strings above. *)
Definition parse_two_dates (s : string) : option Datetime :=
  if String.eqb s "2024-01-01" then Some (Timestamp (day_2024_01_01 * day_ns))
  else if String.eqb s "2024-01-03" then Some (Timestamp (day_2024_01_03 * day_ns))
  else None.

(** A frame with the two date columns and no reservation. *)
Definition no_reservation : DataFrame :=
  {| columns := [default_arrival_col; default_departure_col]; rows := [] |}.

(** The dates [expand_reservations_to_daily] gives a reservation that
    arrives on day [a] and leaves on day [d]: the days of the half-open
    interval from [a] to [d], that is the nights from [a] up to the day
    before [d]; none when [d <= a]. *)
Definition stay_dates (a d : Z) : list Z := midnights a (Z.to_nat (d - a)).

(** A row whose arrival and departure cells read as the midnights of days
    [fst stay] and [snd stay]. *)
Definition reads_as_stay (parse_str : string -> option Datetime)
           (arrival_col departure_col : string) (r : Z * Series) (stay : Z * Z) : Prop :=
  to_datetime_cell parse_str (cell_at arrival_col (snd r))
  = Ok (Timestamp (fst stay * day_ns)) /\
  to_datetime_cell parse_str (cell_at departure_col (snd r))
  = Ok (Timestamp (snd stay * day_ns)).

(** A row whose arrival and departure cells read as the timestamps
    [fst span] and [snd span], times of day included. *)
Definition reads_as_span (parse_str : string -> option Datetime)
           (arrival_col departure_col : string) (r : Z * Series) (span : Z * Z) : Prop :=
  to_datetime_cell parse_str (cell_at arrival_col (snd r)) = Ok (Timestamp (fst span)) /\
  to_datetime_cell parse_str (cell_at departure_col (snd r)) = Ok (Timestamp (snd span)).

(** The timestamps of a stay between two days. *)
Definition span_of_stay (stay : Z * Z) : Z * Z := (fst stay * day_ns, snd stay * day_ns).

(** The number of days begun between two timestamps: the difference in
    days rounded up, zero when the second is not after the first. *)
Definition days_begun (s e : Z) : Z := Z.max 0 ((e - s + day_ns - 1) / day_ns).

(** Index label and date of each record of a list of records. *)
Definition indexed_dates (records : list (Z * Series)) : list (Z * option Cell) :=
  map (fun rec => (fst rec, series_lookup "date" (snd rec))) records.

(** Index label and date of each record of a daily frame. *)
Definition index_and_date (daily_df : DataFrame) : list (Z * option Cell) :=
  map (fun rec => (fst rec, series_lookup "date" (snd rec))) (rows daily_df).

(** The same for the outcome of a call. *)
Definition index_and_date_of (outcome : DataFrame * Result DataFrame)
  : Result (list (Z * option Cell)) :=
  daily_df <- snd outcome ;; Ok (index_and_date daily_df).

(** Nanoseconds in an hour. *)
Definition hour_ns : Z := 3600000000000.

(** Two reservations that arrive on 2024-01-01: one leaves the same day,
    one on 2024-01-03. *)
Definition same_day_and_overnight : DataFrame :=
  {| columns := [default_arrival_col; default_departure_col];
     rows := [(0, [(default_arrival_col, midnight_cell day_2024_01_01);
                   (default_departure_col, midnight_cell day_2024_01_01)]);
              (1, [(default_arrival_col, midnight_cell day_2024_01_01);
                   (default_departure_col, midnight_cell day_2024_01_03)])] |}.

(** Their stays, in days since the epoch. *)
Definition same_day_and_overnight_stays : list (Z * Z) :=
  [(day_2024_01_01, day_2024_01_01); (day_2024_01_01, day_2024_01_03)].

(** One reservation that arrives on 2024-01-01 at 11:00 and leaves on
    2024-01-03 at 14:00. *)
Definition late_checkout_reservation : DataFrame :=
  {| columns := [default_arrival_col; default_departure_col];
     rows := [(0, [(default_arrival_col,
                    CDatetime (Timestamp (19723 * day_ns + 11 * hour_ns)));
                   (default_departure_col,
                    CDatetime (Timestamp (19725 * day_ns + 14 * hour_ns)))])] |}.

(** The scenario of the specification: two reservations, 2024-01-01 to
    2024-01-03 and 2024-01-02 to 2024-01-04. *)
Definition scenario_reservations : DataFrame :=
  {| columns := [default_arrival_col; default_departure_col];
     rows := [(0, [(default_arrival_col, midnight_cell 19723);
                   (default_departure_col, midnight_cell 19725)]);
              (1, [(default_arrival_col, midnight_cell 19724);
                   (default_departure_col, midnight_cell 19726)])] |}.

(** Its four daily records. *)
Definition scenario_daily : DataFrame :=
  DataFrame_of_records
    [(0, [(default_arrival_col, midnight_cell 19723);
          (default_departure_col, midnight_cell 19725);
          ("date"%string, midnight_cell 19723)]);
     (0, [(default_arrival_col, midnight_cell 19723);
          (default_departure_col, midnight_cell 19725);
          ("date"%string, midnight_cell 19724)]);
     (1, [(default_arrival_col, midnight_cell 19724);
          (default_departure_col, midnight_cell 19726);
          ("date"%string, midnight_cell 19724)]);
     (1, [(default_arrival_col, midnight_cell 19724);
          (default_departure_col, midnight_cell 19726);
          ("date"%string, midnight_cell 19725)])].

(** Its occupancy: one, two and one reservation on 1, 2 and 3 January. *)
Definition scenario_occupancy : list OccupancyRow :=
  [ {| occ_index := 0; date := 19723 * day_ns; occupancy := 1 |};
    {| occ_index := 1; date := 19724 * day_ns; occupancy := 2 |};
    {| occ_index := 2; date := 19725 * day_ns; occupancy := 1 |} ].

(** A float that is zero, positive or plus infinity, as SpecFloat reads
    it. *)
Definition nonneg_sf (x : spec_float) : Prop :=
  match x with
  | S754_zero false | S754_infinity false | S754_finite false _ _ => True
  | _ => False
  end.

(** The term of one (actual, predicted) point in the mean of
    [evaluate_model]'s MAPE. *)
Definition mape_term (ap : float * float) : float :=
  PrimFloat.abs ((fst ap - snd ap) / fst ap)%float.

(** A value of a series that is a number other than zero. *)
Definition finite_nonzero (v : float) : Prop :=
  is_finite v = true /\ is_zero v = false.

(** A point whose actual value is zero and whose predicted value is not. *)
Definition zero_actual_point (ap : float * float) : Prop :=
  is_zero (fst ap) = true /\ is_zero (snd ap) = false.

(** A decomposition that returns the series as each component; it stands
    for the numerical core of statsmodels where only the input checks
    matter. *)
Definition echo_decomposition (x : FloatSeries) (model : string) (period : Z)
  : DecomposeResult :=
  {| trend := x; seasonal := x; resid := x; observed := x |}.

(** A forecaster that returns nothing; it stands for the numerical core
    of pmdarima where only the horizon check matters. *)
Definition empty_forecast (n_periods : Z) : FloatSeries * list (float * float) :=
  ([], []).

(** A row whose arrival and departure cells [pd.to_datetime] accepts. *)
Definition converts (parse_str : string -> option Datetime)
           (arrival_col departure_col : string) (r : Z * Series) : Prop :=
  exists da dd,
    to_datetime_cell parse_str (cell_at arrival_col (snd r)) = Ok da /\
    to_datetime_cell parse_str (cell_at departure_col (snd r)) = Ok dd.

(** The row [r] after the two assignments [df[col] = pd.to_datetime(df[col])]. *)
Definition converted_row (parse_str : string -> option Datetime)
           (arrival_col departure_col : string) (r r2 : Z * Series) : Prop :=
  exists da dd,
    to_datetime_cell parse_str (cell_at arrival_col (snd r)) = Ok da /\
    to_datetime_cell parse_str (cell_at departure_col (snd r)) = Ok dd /\
    r2 = (fst r, series_setitem (series_setitem (snd r) arrival_col (CDatetime da))
                                departure_col (CDatetime dd)).

(** The dates of the records of a daily frame that carry the index label
    [i], in row order. *)
Definition dates_of_index (i : Z) (daily_df : DataFrame) : list (option Cell) :=
  map snd (filter (fun p => fst p =? i) (index_and_date daily_df)).

(** The columns of a list of columns after a 'date' label was set on its
    rows: the list itself when 'date' is among them, 'date' appended
    otherwise. *)
Definition date_column_after (cols : list string) : list string :=
  if mem "date" cols then cols else (cols ++ ["date"%string])%list.

(** The number of stays (arrival day, departure day) that cover the night
    of [day]: arrival <= day < departure. *)
Definition staying (stays : list (Z * Z)) (day : Z) : nat :=
  length (filter (fun st => (fst st <=? day) && (day <? snd st)) stays).

(** A float that is zero or an ordinary number, as SpecFloat reads it. *)
Definition plain_sf (x : spec_float) : Prop :=
  match x with
  | S754_zero _ | S754_finite _ _ _ => True
  | _ => False
  end.

(** The stays of the scenario, in days since the epoch. *)
Definition scenario_stays : list (Z * Z) := [(19723, 19725); (19724, 19726)].

(** The daily records of the scenario with the first two rows exchanged. *)
Definition scenario_daily_swapped : DataFrame :=
  {| columns := columns scenario_daily;
     rows := match rows scenario_daily with
             | r1 :: r2 :: rest => r2 :: r1 :: rest
             | rs => rs
             end |}.

(** One reservation that departs two days before it arrives. *)
Definition reversed_reservation : DataFrame :=
  {| columns := [default_arrival_col; default_departure_col];
     rows := [(0, [(default_arrival_col, midnight_cell day_2024_01_03);
                   (default_departure_col, midnight_cell day_2024_01_01)])] |}.

(** One reservation whose arrival is not a date. *)
Definition unparseable_reservation : DataFrame :=
  {| columns := [default_arrival_col; default_departure_col];
     rows := [(0, [(default_arrival_col, CStr "soon");
                   (default_departure_col, CStr "2024-01-03")])] |}.

(** One reservation without a departure. *)
Definition missing_date_reservation : DataFrame :=
  {| columns := [default_arrival_col; default_departure_col];
     rows := [(0, [(default_arrival_col, CStr "2024-01-01");
                   (default_departure_col, CNone)])] |}.

(** A frame with the arrival column only. *)
Definition arrival_only : DataFrame :=
  {| columns := [default_arrival_col];
     rows := [(0, [(default_arrival_col, CStr "2024-01-01")])] |}.

(** A missing value of a datetime column: [None] or [NaT]. *)
Definition isna (c : Cell) : bool :=
  match c with
  | CNone | CDatetime NaT => true
  | _ => false
  end.

(** A 'date' column of datetimes: every row holds a datetime, possibly
    [NaT], or nothing there. *)
Definition datetime_or_missing (daily_df : DataFrame) : Prop :=
  Forall (fun r => match cell_at "date" (snd r) with
                   | CNone | CDatetime _ => True
                   | _ => False
                   end) (rows daily_df).

(** The records of a daily frame that have a date. *)
Definition dated_records (daily_df : DataFrame) : list (Z * Series) :=
  filter (fun r => negb (isna (cell_at "date" (snd r)))) (rows daily_df).

(** Three daily rows, the date of the second one missing. *)
Definition daily_with_missing_date : DataFrame :=
  {| columns := ["date"%string];
     rows := [(0, [("date"%string, midnight_cell 19723)]);
              (1, [("date"%string, CDatetime NaT)]);
              (2, [("date"%string, midnight_cell 19723)])] |}.

(** * Properties *)

(** ** Results *)

Lemma bind_Ok_inv {A B : Type} (r : Result A) (k : A -> Result B) (b : B) :
  Py.bind r k = Ok b -> exists a, r = Ok a /\ k a = Ok b.
Proof.
  destruct r as [a | e]; simpl; intros H.
  - exists a. split; [reflexivity | exact H].
  - discriminate H.
Qed.

Lemma mapM_length {A B : Type} (f : A -> Result B) (xs : list A) (ys : list B) :
  mapM f xs = Ok ys -> length ys = length xs.
Proof.
  revert ys. induction xs as [| x rest IH]; simpl; intros ys H.
  - inversion H. reflexivity.
  - apply bind_Ok_inv in H. destruct H as [y [_ H]].
    apply bind_Ok_inv in H. destruct H as [ys' [Hrest H]].
    inversion H. simpl. f_equal. apply IH. exact Hrest.
Qed.

Lemma mapM_Forall2 {A B : Type} (f : A -> Result B) (xs : list A) (ys : list B) :
  mapM f xs = Ok ys -> Forall2 (fun x y => f x = Ok y) xs ys.
Proof.
  revert ys. induction xs as [| x rest IH]; simpl; intros ys H.
  - inversion H. constructor.
  - apply bind_Ok_inv in H. destruct H as [y [Hy H]].
    apply bind_Ok_inv in H. destruct H as [ys' [Hrest H]].
    inversion H. constructor; [exact Hy | apply IH; exact Hrest].
Qed.

(** ** Daily ranges *)

Lemma midnights_length a n : length (midnights a n) = n.
Proof. unfold midnights. rewrite length_map, length_seq. reflexivity. Qed.

Lemma midnights_snoc a n :
  midnights a (S n) = (midnights a n ++ [(a + Z.of_nat n) * day_ns])%list.
Proof.
  unfold midnights. rewrite seq_S, map_app. reflexivity.
Qed.

Lemma drop_end_snoc (e : Z) (l : list Z) :
  drop_end e (l ++ [e]) = l.
Proof.
  unfold drop_end. rewrite rev_app_distr. simpl.
  rewrite Z.eqb_refl. apply removelast_last.
Qed.

Lemma drop_end_keep (e x : Z) (l : list Z) :
  x <> e -> drop_end e (l ++ [x]) = (l ++ [x])%list.
Proof.
  intros Hne. unfold drop_end. rewrite rev_app_distr. simpl.
  destruct (Z.eqb_spec x e) as [Heq | _]; [contradiction | reflexivity].
Qed.

(** The points pandas generates between two timestamps: the start and
    every whole day after it up to the end. *)
Lemma generate_regular_range_points (s e : Z) :
  generate_regular_range s e day_ns
  = map (fun k => s + Z.of_nat k * day_ns) (seq 0 (Z.to_nat ((e - s) / day_ns + 1))).
Proof.
  unfold generate_regular_range, arange.
  replace (s + (e - s) / day_ns * day_ns + day_ns / 2 + 1 - s + day_ns - 1)
    with (day_ns / 2 + ((e - s) / day_ns + 1) * day_ns) by ring.
  rewrite Z.div_add by (unfold day_ns; lia).
  replace (day_ns / 2 / day_ns) with 0 by reflexivity.
  reflexivity.
Qed.

(** [pd.date_range(start, end, inclusive='left')]: the start and every
    whole day after it, as long as that is before the end.  A time of day
    in the bounds counts: the points keep the time of day of the start. *)
Lemma date_range_left (s e : Z) :
  date_range (CDatetime (Timestamp s)) (CDatetime (Timestamp e)) incl_left
  = Ok (map Timestamp (arange s e day_ns)).
Proof.
  unfold date_range, apply_inclusive. cbn [left_inclusive right_inclusive negb].
  do 2 f_equal. rewrite generate_regular_range_points. unfold arange.
  assert (Hday : 0 < day_ns) by (unfold day_ns; lia).
  pose proof (Z.div_mod (e - s) day_ns ltac:(lia)) as Hdm.
  pose proof (Z.mod_pos_bound (e - s) day_ns Hday) as Hr.
  set (q := (e - s) / day_ns) in *. set (r := (e - s) mod day_ns) in *.
  destruct (Z_lt_ge_dec q 0) as [Hneg | Hpos].
  - replace (Z.to_nat (q + 1)) with 0%nat by lia.
    assert (Hup : (e - s + day_ns - 1) / day_ns <= 0).
    { assert ((e - s + day_ns - 1) / day_ns < 1); [| lia].
      apply Z.div_lt_upper_bound; nia. }
    replace (Z.to_nat ((e - s + day_ns - 1) / day_ns)) with 0%nat by lia.
    reflexivity.
  - replace (Z.to_nat (q + 1)) with (S (Z.to_nat q)) by lia.
    rewrite seq_S, map_app. cbn [map Nat.add].
    rewrite Z2Nat.id by lia.
    destruct (Z.eq_dec r 0) as [Hz | Hnz].
    + replace (s + q * day_ns) with e by lia.
      rewrite drop_end_snoc.
      replace ((e - s + day_ns - 1) / day_ns) with q; [reflexivity |].
      apply (Z.div_unique _ _ q (day_ns - 1)); lia.
    + rewrite drop_end_keep by lia.
      replace ((e - s + day_ns - 1) / day_ns) with (q + 1).
      * replace (Z.to_nat (q + 1)) with (S (Z.to_nat q)) by lia.
        rewrite seq_S, map_app. cbn [map Nat.add].
        rewrite Z2Nat.id by lia. reflexivity.
      * apply (Z.div_unique _ _ (q + 1) (r - 1)); lia.
Qed.

(** Between two midnights the points are the midnights of the days from
    the first up to the day before the second. *)
Lemma arange_midnights (a d : Z) :
  arange (a * day_ns) (d * day_ns) day_ns = midnights a (Z.to_nat (d - a)).
Proof.
  unfold arange, midnights.
  replace (d * day_ns - a * day_ns + day_ns - 1) with ((day_ns - 1) + (d - a) * day_ns) by ring.
  rewrite Z.div_add by (unfold day_ns; lia).
  replace ((day_ns - 1) / day_ns) with 0 by reflexivity.
  cbn [Z.add]. apply map_ext. intros k. ring.
Qed.

(** Overnight stay: the nights from arrival up to the day before
    departure. *)
Lemma date_range_left_overnight (a d : Z) :
  a < d ->
  date_range (CDatetime (Timestamp (a * day_ns))) (CDatetime (Timestamp (d * day_ns)))
             incl_left
  = Ok (map Timestamp (midnights a (Z.to_nat (d - a)))).
Proof.
  intros _. rewrite date_range_left, arange_midnights. reflexivity.
Qed.

(** Same-day stay: the range from a day to itself excludes its end, which
    is its start, and is empty. *)
Lemma date_range_left_same_day (s : Z) :
  date_range (CDatetime (Timestamp s)) (CDatetime (Timestamp s)) incl_left = Ok [].
Proof.
  rewrite date_range_left. unfold arange.
  replace (s - s + day_ns - 1) with (day_ns - 1) by ring.
  reflexivity.
Qed.

(** Departure before arrival: nothing. *)
Lemma date_range_left_reversed (s e : Z) :
  e < s ->
  date_range (CDatetime (Timestamp s)) (CDatetime (Timestamp e)) incl_left = Ok [].
Proof.
  intros Hlt. rewrite date_range_left. unfold arange.
  assert (Hup : (e - s + day_ns - 1) / day_ns <= 0).
  { assert ((e - s + day_ns - 1) / day_ns < 1); [| lia].
    apply Z.div_lt_upper_bound; unfold day_ns; lia. }
  replace (Z.to_nat ((e - s + day_ns - 1) / day_ns)) with 0%nat by lia.
  reflexivity.
Qed.

(** ** Rows and frames *)

Lemma series_lookup_setitem_same (s : Series) (col : string) (v : Cell) :
  series_lookup col (series_setitem s col v) = Some v.
Proof.
  induction s as [| [c w] rest IH]; simpl.
  - rewrite String.eqb_refl. reflexivity.
  - destruct (String.eqb col c) eqn:E; simpl; rewrite E; [reflexivity | exact IH].
Qed.

Lemma series_lookup_setitem_other (s : Series) (col c : string) (v : Cell) :
  c <> col ->
  series_lookup c (series_setitem s col v) = series_lookup c s.
Proof.
  intros Hne. induction s as [| [c' w] rest IH]; simpl.
  - destruct (String.eqb_spec c col); [contradiction | reflexivity].
  - destruct (String.eqb_spec col c') as [-> | Hc]; simpl.
    + destruct (String.eqb_spec c c'); [contradiction | reflexivity].
    + destruct (String.eqb_spec c c'); [reflexivity | exact IH].
Qed.

Lemma series_setitem_same_value (s : Series) (col : string) (v : Cell) :
  series_lookup col s = Some v -> series_setitem s col v = s.
Proof.
  induction s as [| [c w] rest IH]; simpl; intros H.
  - discriminate H.
  - destruct (String.eqb_spec col c) as [-> | Hc].
    + inversion H. reflexivity.
    + f_equal. apply IH. exact H.
Qed.

Lemma set_cells_index (rs : list (Z * Series)) (col : string) (vals : list Cell) :
  map fst (set_cells rs col vals) = map fst rs.
Proof.
  revert vals. induction rs as [| [i s] rest IH]; intros [| v vals]; simpl;
    try reflexivity.
  f_equal. apply IH.
Qed.

Lemma set_cells_other (rs : list (Z * Series)) (col c : string) (vals : list Cell) :
  c <> col ->
  map (fun r => series_lookup c (snd r)) (set_cells rs col vals)
  = map (fun r => series_lookup c (snd r)) rs.
Proof.
  intros Hne. revert vals.
  induction rs as [| [i s] rest IH]; intros [| v vals]; simpl; try reflexivity.
  rewrite series_lookup_setitem_other by exact Hne. f_equal. apply IH.
Qed.

Lemma set_cells_same (rs : list (Z * Series)) (col : string) (vals : list Cell) :
  length vals = length rs ->
  map (fun r => series_lookup col (snd r)) (set_cells rs col vals) = map Some vals.
Proof.
  revert vals. induction rs as [| [i s] rest IH]; intros [| v vals]; simpl;
    intros Hlen; try discriminate; try reflexivity.
  rewrite series_lookup_setitem_same. f_equal. apply IH. lia.
Qed.

Lemma set_cells_unchanged (rs : list (Z * Series)) (col : string) (vals : list Cell) :
  Forall2 (fun r v => series_lookup col (snd r) = Some v) rs vals ->
  set_cells rs col vals = rs.
Proof.
  intros H. induction H as [| [i s] v rs' vals' Hv _ IH]; simpl.
  - reflexivity.
  - simpl in Hv. rewrite (series_setitem_same_value _ _ _ Hv). f_equal. exact IH.
Qed.

Lemma mem_In (col : string) (cols : list string) :
  mem col cols = true <-> In col cols.
Proof.
  unfold mem. rewrite existsb_exists. split.
  - intros [c [Hin Heq]]. apply String.eqb_eq in Heq. subst c. exact Hin.
  - intros Hin. exists col. split; [exact Hin | apply String.eqb_refl].
Qed.

Lemma getitem_Ok_inv (df : DataFrame) (col : string) (cells : list Cell) :
  getitem df col = Ok cells ->
  mem col (columns df) = true /\ cells = map (fun r => cell_at col (snd r)) (rows df).
Proof.
  unfold getitem. destruct (mem col (columns df)); intros H.
  - inversion H. split; reflexivity.
  - discriminate H.
Qed.

Lemma setitem_columns (df : DataFrame) (col : string) (vals : list Cell) :
  mem col (columns df) = true -> columns (setitem df col vals) = columns df.
Proof. intros H. unfold setitem. simpl. rewrite H. reflexivity. Qed.

Lemma add_labels_prefix (acc ls : list string) :
  exists more, add_labels acc ls = (acc ++ more)%list.
Proof.
  unfold add_labels. revert acc. induction ls as [| l rest IH]; intros acc; simpl.
  - exists []. rewrite app_nil_r. reflexivity.
  - destruct (mem l acc).
    + apply IH.
    + destruct (IH (acc ++ [l])%list) as [more Hmore].
      exists (l :: more). rewrite Hmore, <- app_assoc. reflexivity.
Qed.

Lemma add_labels_In (acc ls : list string) (l : string) :
  In l ls -> In l (add_labels acc ls).
Proof.
  unfold add_labels. revert acc. induction ls as [| l' rest IH]; intros acc Hin.
  - destruct Hin.
  - simpl. destruct Hin as [-> | Hin].
    + set (acc' := if mem l acc then acc else (acc ++ [l])%list).
      assert (Hacc : In l acc').
      { unfold acc'. destruct (mem l acc) eqn:E.
        - apply mem_In. exact E.
        - apply in_or_app. right. left. reflexivity. }
      destruct (add_labels_prefix acc' rest) as [more Hmore].
      unfold add_labels in Hmore. rewrite Hmore. apply in_or_app. left. exact Hacc.
    + apply IH. exact Hin.
Qed.

Lemma records_columns_prefix (records : list (Z * Series)) (acc : list string) :
  exists more,
    fold_left (fun a r => add_labels a (labels (snd r))) records acc = (acc ++ more)%list.
Proof.
  revert acc. induction records as [| r rest IH]; intros acc; simpl.
  - exists []. rewrite app_nil_r. reflexivity.
  - destruct (add_labels_prefix acc (labels (snd r))) as [m1 H1].
    destruct (IH (add_labels acc (labels (snd r)))) as [m2 H2].
    exists (m1 ++ m2)%list. rewrite H2, H1, <- app_assoc. reflexivity.
Qed.

(** A frame built from at least one record has every label of the first
    record among its columns. *)
Lemma DataFrame_of_records_columns (r : Z * Series) (rest : list (Z * Series)) (l : string) :
  In l (labels (snd r)) -> In l (columns (DataFrame_of_records (r :: rest))).
Proof.
  intros Hin. unfold DataFrame_of_records. simpl.
  destruct (records_columns_prefix rest (add_labels [] (labels (snd r)))) as [more H].
  rewrite H. apply in_or_app. left. apply add_labels_In. exact Hin.
Qed.

Lemma series_setitem_label (s : Series) (col : string) (v : Cell) :
  In col (labels (series_setitem s col v)).
Proof.
  unfold labels. induction s as [| [c w] rest IH]; simpl.
  - left. reflexivity.
  - destruct (String.eqb_spec col c) as [-> | Hc]; simpl.
    + left. reflexivity.
    + right. exact IH.
Qed.

(** ** Group sizes *)

Lemma count_key_In (k t : Z) (sizes : list (Z * Z)) :
  In t (map fst (count_key k sizes)) <-> t = k \/ In t (map fst sizes).
Proof.
  induction sizes as [| [k' n] rest IH]; simpl.
  - intuition.
  - destruct (Z.compare_spec k k') as [Heq | Hlt | Hgt]; simpl.
    + subst k'. intuition.
    + intuition.
    + rewrite IH. intuition.
Qed.

Lemma total_cons (n : Z) (ns : list Z) : total (n :: ns) = n + total ns.
Proof. reflexivity. Qed.

Lemma count_key_total (k : Z) (sizes : list (Z * Z)) :
  total (map snd (count_key k sizes)) = 1 + total (map snd sizes).
Proof.
  induction sizes as [| [k' n] rest IH]; cbn [count_key].
  - reflexivity.
  - destruct (k ?= k'); cbn [map snd]; rewrite ?total_cons; try rewrite IH;
      cbn [map snd]; rewrite ?total_cons; lia.
Qed.

Lemma count_key_HdRel (k a : Z) (sizes : list (Z * Z)) :
  a < k -> HdRel Z.lt a (map fst sizes) -> HdRel Z.lt a (map fst (count_key k sizes)).
Proof.
  intros Hak Hhd. destruct sizes as [| [k' n] rest]; simpl.
  - constructor. exact Hak.
  - inversion Hhd; subst.
    destruct (Z.compare_spec k k'); simpl; constructor; lia.
Qed.

Lemma count_key_Sorted (k : Z) (sizes : list (Z * Z)) :
  Sorted Z.lt (map fst sizes) -> Sorted Z.lt (map fst (count_key k sizes)).
Proof.
  induction sizes as [| [k' n] rest IH]; simpl; intros Hs.
  - repeat constructor.
  - inversion Hs as [| ? ? Hrest Hhd]; subst.
    destruct (Z.compare_spec k k') as [Heq | Hlt | Hgt]; simpl.
    + constructor; assumption.
    + constructor; [exact Hs | constructor; exact Hlt].
    + constructor; [apply IH; exact Hrest | apply count_key_HdRel; assumption].
Qed.

Lemma keyed_cons_Some (c : Cell) (rest : list Cell) (k : Z) :
  date_key c = Some k -> keyed (c :: rest) = k :: keyed rest.
Proof. intros H. unfold keyed. simpl. rewrite H. reflexivity. Qed.

Lemma keyed_cons_None (c : Cell) (rest : list Cell) :
  date_key c = None -> keyed (c :: rest) = keyed rest.
Proof. intros H. unfold keyed. simpl. rewrite H. reflexivity. Qed.

(** The group sizes after counting the cells [keys] into [sizes]. *)
Lemma fold_count_key_spec (keys : list Cell) (sizes : list (Z * Z)) :
  let sizes' := fold_left (fun sizes c =>
                             match date_key c with
                             | Some k => count_key k sizes
                             | None => sizes
                             end) keys sizes in
  (Sorted Z.lt (map fst sizes) -> Sorted Z.lt (map fst sizes')) /\
  (forall t, In t (map fst sizes') <-> In t (keyed keys) \/ In t (map fst sizes)) /\
  total (map snd sizes') = Z.of_nat (length (keyed keys)) + total (map snd sizes).
Proof.
  revert sizes. induction keys as [| c rest IH]; intros sizes; cbn [fold_left].
  - cbn. split; [tauto | split; [tauto | reflexivity]].
  - destruct (date_key c) as [k |] eqn:Ek.
    + rewrite (keyed_cons_Some _ _ _ Ek).
      specialize (IH (count_key k sizes)). cbv zeta in IH.
      destruct IH as [IHs [IHin IHtot]].
      split; [| split].
      * intros Hs. apply IHs, count_key_Sorted, Hs.
      * intros t. rewrite IHin, count_key_In. simpl. intuition congruence.
      * rewrite IHtot, count_key_total. cbn [length]. lia.
    + rewrite (keyed_cons_None _ _ Ek). apply IH.
Qed.

Lemma groupby_size_Sorted (keys : list Cell) :
  Sorted Z.lt (map fst (groupby_size keys)).
Proof.
  apply (proj1 (fold_count_key_spec keys [])). constructor.
Qed.

Lemma groupby_size_In (keys : list Cell) (t : Z) :
  In t (map fst (groupby_size keys)) <-> In t (keyed keys).
Proof.
  unfold groupby_size.
  rewrite (proj1 (proj2 (fold_count_key_spec keys [])) t). simpl. tauto.
Qed.

Lemma groupby_size_total (keys : list Cell) :
  total (map snd (groupby_size keys)) = Z.of_nat (length (keyed keys)).
Proof.
  unfold groupby_size.
  rewrite (proj2 (proj2 (fold_count_key_spec keys []))). simpl. lia.
Qed.

Lemma reset_index_date (sizes : list (Z * Z)) :
  map date (reset_index sizes) = map fst sizes.
Proof.
  unfold reset_index. rewrite map_map. simpl.
  generalize 0%nat. induction sizes as [| p rest IH]; intros n; simpl.
  - reflexivity.
  - f_equal. apply IH.
Qed.

Lemma reset_index_occupancy (sizes : list (Z * Z)) :
  map occupancy (reset_index sizes) = map snd sizes.
Proof.
  unfold reset_index. rewrite map_map. simpl.
  generalize 0%nat. induction sizes as [| p rest IH]; intros n; simpl.
  - reflexivity.
  - f_equal. apply IH.
Qed.

(** Sorting rows that are already in strictly ascending date order leaves
    them as they are. *)
Lemma sort_values_date_sorted (occ : list OccupancyRow) :
  Sorted Z.lt (map date occ) -> sort_values_date occ = occ.
Proof.
  induction occ as [| r rest IH]; simpl; intros Hs.
  - reflexivity.
  - inversion Hs as [| ? ? Hrest Hhd]; subst.
    rewrite IH by exact Hrest.
    destruct rest as [| r' rest']; simpl.
    + reflexivity.
    + inversion Hhd; subst.
      destruct (Z.leb_spec (date r) (date r')); [reflexivity | lia].
Qed.

Lemma Sorted_lt_NoDup (l : list Z) : Sorted Z.lt l -> NoDup l.
Proof.
  intros Hs. apply Sorted_StronglySorted in Hs; [| intros x y z; apply Z.lt_trans].
  induction Hs as [| a l _ IH Hall].
  - constructor.
  - constructor; [| exact IH].
    intros Hin. rewrite Forall_forall in Hall. specialize (Hall a Hin). lia.
Qed.

Lemma aggregate_Ok_inv (daily_df : DataFrame) (occ : list OccupancyRow) :
  aggregate_daily_occupancy daily_df = Ok occ ->
  mem "date" (columns daily_df) = true /\
  occ = reset_index (groupby_size (map (fun r => cell_at "date" (snd r)) (rows daily_df))).
Proof.
  unfold aggregate_daily_occupancy. intros H.
  apply bind_Ok_inv in H. destruct H as [keys [Hkeys H]].
  apply getitem_Ok_inv in Hkeys. destruct Hkeys as [Hmem ->].
  split; [exact Hmem |].
  inversion H. apply sort_values_date_sorted.
  rewrite reset_index_date. apply groupby_size_Sorted.
Qed.

Lemma keyed_column (daily_df : DataFrame) :
  keyed (map (fun r => cell_at "date" (snd r)) (rows daily_df)) = record_dates daily_df.
Proof.
  unfold keyed, record_dates. rewrite flat_map_concat_map, map_map.
  rewrite <- flat_map_concat_map. reflexivity.
Qed.


(** ** aggregate_daily_occupancy *)


(** C3: every occupancy frame [aggregate_daily_occupancy] returns is in
    strictly ascending date order, so no date occurs twice. *)
Theorem aggregate_strictly_sorted (daily_df : DataFrame) (occ : list OccupancyRow) :
  aggregate_daily_occupancy daily_df = Ok occ ->
  StronglySorted Z.lt (map date occ) /\ NoDup (map date occ).
Proof.
  intros H. apply aggregate_Ok_inv in H. destruct H as [_ ->].
  rewrite reset_index_date.
  pose proof (groupby_size_Sorted
                (map (fun r => cell_at "date" (snd r)) (rows daily_df))) as Hs.
  split.
  - apply Sorted_StronglySorted; [intros x y z; apply Z.lt_trans | exact Hs].
  - apply Sorted_lt_NoDup. exact Hs.
Qed.

(** The scenario of the specification, end to end. *)
Lemma scenario_expand (parse_str : string -> option Datetime) :
  expand_reservations_to_daily parse_str scenario_reservations
                               default_arrival_col default_departure_col
  = (scenario_reservations, Ok scenario_daily).
Proof. reflexivity. Qed.

Lemma scenario_aggregate :
  aggregate_daily_occupancy scenario_daily = Ok scenario_occupancy.
Proof. reflexivity. Qed.



Lemma aggregate_strictly_sorted_witness :
  StronglySorted Z.lt (map date scenario_occupancy) /\
  NoDup (map date scenario_occupancy).
Proof.
  apply (aggregate_strictly_sorted scenario_daily scenario_occupancy). reflexivity.
Defined.

(** Each entry counts the records that share its date. *)
Lemma size_at_count_key (k t : Z) (sizes : list (Z * Z)) :
  size_at t (count_key k sizes) = (if k =? t then 1 else 0) + size_at t sizes.
Proof.
  induction sizes as [| [k' n] rest IH]; cbn [count_key].
  - cbn. destruct (k =? t); lia.
  - destruct (Z.compare_spec k k') as [Heq | Hlt | Hgt]; cbn [size_at fold_right fst snd].
    + subst k'. destruct (k =? t); lia.
    + fold (size_at t rest). destruct (k =? t), (k' =? t); lia.
    + fold (size_at t (count_key k rest)). fold (size_at t rest). rewrite IH.
      destruct (k =? t), (k' =? t); lia.
Qed.

Lemma size_at_groupby_size (keys : list Cell) (t : Z) :
  size_at t (groupby_size keys) = Z.of_nat (count_occ Z.eq_dec (keyed keys) t).
Proof.
  unfold groupby_size.
  enough (H : forall sizes,
             size_at t (fold_left (fun sizes c =>
                                     match date_key c with
                                     | Some k => count_key k sizes
                                     | None => sizes
                                     end) keys sizes)
             = Z.of_nat (count_occ Z.eq_dec (keyed keys) t) + size_at t sizes).
  { rewrite H. cbn. lia. }
  induction keys as [| c rest IH]; intros sizes; cbn [fold_left].
  - cbn. lia.
  - destruct (date_key c) as [k |] eqn:Ek.
    + rewrite (keyed_cons_Some _ _ _ Ek), IH, size_at_count_key. cbn [count_occ].
      destruct (Z.eq_dec k t) as [-> | Hne].
      * rewrite Z.eqb_refl. lia.
      * destruct (Z.eqb_spec k t); [contradiction | lia].
    + rewrite (keyed_cons_None _ _ Ek). apply IH.
Qed.

Lemma size_at_entry (sizes : list (Z * Z)) (t n : Z) :
  NoDup (map fst sizes) -> In (t, n) sizes -> size_at t sizes = n.
Proof.
  induction sizes as [| [k' n'] rest IH]; cbn [map fst]; intros Hnd Hin.
  - destruct Hin.
  - inversion Hnd as [| ? ? Hnotin Hrest]; subst.
    cbn [size_at fold_right fst snd]. fold (size_at t rest).
    destruct Hin as [Heq | Hin].
    + inversion Heq; subst. rewrite Z.eqb_refl.
      assert (Hz : size_at t rest = 0).
      { clear -Hnotin. induction rest as [| [k m] rest IH]; [reflexivity |].
        cbn [size_at fold_right fst snd]. fold (size_at t rest).
        destruct (Z.eqb_spec k t) as [-> | _].
        - exfalso. apply Hnotin. left. reflexivity.
        - apply IH. intros H. apply Hnotin. right. exact H. }
      lia.
    + destruct (Z.eqb_spec k' t) as [-> | _].
      * exfalso. apply Hnotin. apply (in_map fst _ _ Hin).
      * apply IH; assumption.
Qed.

(** X10: the occupancy of a date is the number of input records on that
    date. *)
Lemma aggregate_counts_records (daily_df : DataFrame) (occ : list OccupancyRow)
      (r : OccupancyRow) :
  aggregate_daily_occupancy daily_df = Ok occ ->
  In r occ ->
  occupancy r = Z.of_nat (count_occ Z.eq_dec (record_dates daily_df) (date r)).
Proof.
  intros H Hin. apply aggregate_Ok_inv in H. destruct H as [_ ->].
  set (keys := map (fun r => cell_at "date" (snd r)) (rows daily_df)) in *.
  rewrite <- keyed_column. fold keys.
  rewrite <- size_at_groupby_size.
  symmetry. apply size_at_entry.
  - apply Sorted_lt_NoDup, groupby_size_Sorted.
  - unfold reset_index in Hin. apply in_map_iff in Hin.
    destruct Hin as [[i [t n]] [<- Hin]]. simpl.
    apply in_combine_r in Hin. exact Hin.
Qed.

(** ** expand_reservations_to_daily *)

Lemma to_datetime_datetimes (parse_str : string -> option Datetime) (cells : list Cell) :
  Forall (fun c => exists d, c = CDatetime d) cells ->
  to_datetime parse_str cells = Ok cells.
Proof.
  intros H. unfold to_datetime. induction H as [| c rest [d ->] _ IH]; simpl.
  - reflexivity.
  - rewrite IH. reflexivity.
Qed.

Lemma to_datetime_cells (parse_str : string -> option Datetime) (cells out : list Cell) :
  to_datetime parse_str cells = Ok out ->
  Forall2 (fun c o => exists d, to_datetime_cell parse_str c = Ok d /\ o = CDatetime d)
          cells out.
Proof.
  intros H. apply mapM_Forall2 in H.
  induction H as [| c o cells' out' Hc _ IH]; constructor; [| exact IH].
  apply bind_Ok_inv in Hc. destruct Hc as [d [Hd Ho]].
  exists d. split; [exact Hd | inversion Ho; reflexivity].
Qed.

(** Assigning to a column the datetimes it already holds changes nothing. *)
Lemma setitem_datetime_column (df : DataFrame) (col : string) :
  datetime_column df col ->
  setitem df col (map (fun r => cell_at col (snd r)) (rows df)) = df.
Proof.
  intros [Hmem Hrows]. unfold setitem. rewrite Hmem.
  destruct df as [cols rs]. simpl in *. f_equal.
  apply set_cells_unchanged.
  induction Hrows as [| r rest [d Hd] _ IH]; simpl; constructor; [| exact IH].
  unfold cell_at. rewrite Hd. reflexivity.
Qed.

Lemma datetime_column_cells (df : DataFrame) (col : string) :
  datetime_column df col ->
  Forall (fun c => exists d, c = CDatetime d) (map (fun r => cell_at col (snd r)) (rows df)).
Proof.
  intros [_ Hrows]. induction Hrows as [| r rest [d Hd] _ IH]; simpl; constructor.
  - exists d. unfold cell_at. rewrite Hd. reflexivity.
  - exact IH.
Qed.

(** What one assignment [df[col] = pd.to_datetime(df[col])] leaves of the
    frame when it goes through. *)
Lemma setitem_to_datetime_effect (parse_str : string -> option Datetime)
      (df : DataFrame) (col : string) (cells : list Cell) :
  (c <- getitem df col ;; to_datetime parse_str c) = Ok cells ->
  columns (setitem df col cells) = columns df /\
  map fst (rows (setitem df col cells)) = map fst (rows df) /\
  (forall c, c <> col ->
     map (fun r => series_lookup c (snd r)) (rows (setitem df col cells))
     = map (fun r => series_lookup c (snd r)) (rows df)) /\
  map (fun r => series_lookup col (snd r)) (rows (setitem df col cells)) = map Some cells /\
  Forall2 (fun r o => exists d, to_datetime_cell parse_str (cell_at col (snd r)) = Ok d
                                /\ o = CDatetime d) (rows df) cells /\
  (datetime_column df col -> setitem df col cells = df).
Proof.
  intros H. apply bind_Ok_inv in H. destruct H as [raw [Hget Hconv]].
  apply getitem_Ok_inv in Hget. destruct Hget as [Hmem ->].
  pose proof (mapM_length _ _ _ Hconv) as Hlen. rewrite length_map in Hlen.
  split; [apply setitem_columns; exact Hmem |].
  split; [apply set_cells_index |].
  split; [intros c Hc; apply set_cells_other; exact Hc |].
  split; [apply set_cells_same; exact Hlen |].
  split.
  - apply to_datetime_cells in Hconv.
    clear -Hconv. remember (map (fun r => cell_at col (snd r)) (rows df)) as raw eqn:E.
    revert E. generalize (rows df) as rs.
    induction Hconv as [| c o raw' cells' Hc _ IH]; intros rs E;
      destruct rs as [| r rs']; simpl in E; try discriminate; constructor.
    + inversion E; subst. exact Hc.
    + apply IH. inversion E. reflexivity.
  - intros Hdt.
    rewrite (to_datetime_datetimes _ _ (datetime_column_cells _ _ Hdt)) in Hconv.
    inversion Hconv. apply setitem_datetime_column. exact Hdt.
Qed.

(** What [expand_reservations_to_daily] returns when it returns. *)
Lemma expand_Ok_inv (parse_str : string -> option Datetime) (df : DataFrame)
      (arrival_col departure_col : string) (out : DataFrame) :
  snd (expand_reservations_to_daily parse_str df arrival_col departure_col) = Ok out ->
  exists daily_records,
    mapM (expand_row arrival_col departure_col)
         (rows (fst (expand_reservations_to_daily parse_str df arrival_col departure_col)))
    = Ok daily_records /\
    out = DataFrame_of_records (concat daily_records).
Proof.
  unfold expand_reservations_to_daily.
  destruct (c <- getitem df arrival_col ;; to_datetime parse_str c) as [arrivals | e];
    [| discriminate].
  destruct (c <- getitem (setitem df arrival_col arrivals) departure_col ;;
            to_datetime parse_str c) as [departures | e]; [| discriminate].
  cbn [fst snd]. intros H. apply bind_Ok_inv in H. destruct H as [recs [Hrecs Hout]].
  exists recs. split; [exact Hrecs | inversion Hout; reflexivity].
Qed.

(** Every record of a reservation carries the label 'date'. *)
Lemma expand_row_records_have_date (arrival_col departure_col : string)
      (r : Z * Series) (records : list (Z * Series)) :
  expand_row arrival_col departure_col r = Ok records ->
  Forall (fun rec => In "date"%string (labels (snd rec))) records.
Proof.
  destruct r as [idx row]. unfold expand_row. intros H.
  apply bind_Ok_inv in H. destruct H as [start [_ H]].
  apply bind_Ok_inv in H. destruct H as [end_ [_ H]].
  apply bind_Ok_inv in H. destruct H as [dates [_ H]].
  inversion H. unfold daily_records_of_row. apply Forall_map, Forall_forall.
  intros t _. apply series_setitem_label.
Qed.

(** X14: a returned frame with at least one record has a 'date' column, so
    [aggregate_daily_occupancy] does not fail on it. *)
Lemma aggregate_succeeds_on_nonempty_expansion
      (parse_str : string -> option Datetime) (df : DataFrame)
      (arrival_col departure_col : string) (daily_df : DataFrame) :
  snd (expand_reservations_to_daily parse_str df arrival_col departure_col) = Ok daily_df ->
  rows daily_df <> [] ->
  exists occ, aggregate_daily_occupancy daily_df = Ok occ.
Proof.
  intros Hrun Hne. apply expand_Ok_inv in Hrun.
  destruct Hrun as [recs [Hrecs ->]]. cbn [rows DataFrame_of_records] in Hne.
  assert (Hdate : Forall (fun rec => In "date"%string (labels (snd rec))) (concat recs)).
  { apply mapM_Forall2 in Hrecs. clear -Hrecs.
    induction Hrecs as [| r rs rows' recs' Hr _ IH]; cbn [concat].
    - constructor.
    - apply Forall_app. split; [| exact IH].
      apply (expand_row_records_have_date _ _ _ _ Hr). }
  destruct (concat recs) as [| rec rest] eqn:E; [contradiction |].
  inversion Hdate as [| ? ? Hrec _]; subst.
  pose proof (DataFrame_of_records_columns rec rest _ Hrec) as Hcol.
  apply mem_In in Hcol.
  unfold aggregate_daily_occupancy, getitem. rewrite Hcol. cbn [Py.bind].
  eexists. reflexivity.
Qed.

(** The example of C10: a frame whose only reservation arrives and leaves
    on the same day.  The range of the reservation is empty, so the returned
    frame has no record and no column, and [aggregate_daily_occupancy] on it
    raises [KeyError]. *)
Lemma same_day_expansion_is_empty :
  snd (expand_reservations_to_daily parse_two_dates same_day_reservation
                                    default_arrival_col default_departure_col)
  = Ok (DataFrame_of_records []) /\
  (daily_df <- snd (expand_reservations_to_daily
                      parse_two_dates same_day_reservation
                      default_arrival_col default_departure_col) ;;
   aggregate_daily_occupancy daily_df) = Raise KeyError.
Proof. split; reflexivity. Qed.

(** C10: when [expand_reservations_to_daily] returns a frame without any
    daily record, that frame has no column at all, in particular no 'date'
    column, and [aggregate_daily_occupancy] fails on it with [KeyError]
    instead of returning an empty occupancy frame. *)
Theorem aggregate_fails_on_empty_expansion
        (parse_str : string -> option Datetime) (df : DataFrame)
        (arrival_col departure_col : string) (daily_df : DataFrame) :
  snd (expand_reservations_to_daily parse_str df arrival_col departure_col) = Ok daily_df ->
  rows daily_df = [] ->
  columns daily_df = [] /\ aggregate_daily_occupancy daily_df = Raise KeyError.
Proof.
  intros Hrun Hempty. apply expand_Ok_inv in Hrun.
  destruct Hrun as [recs [_ ->]]. simpl in Hempty.
  rewrite Hempty. split; reflexivity.
Qed.

(** Reservations that depart before they arrive give no record either. *)
Lemma reversed_reservation_expands_to_nothing :
  snd (expand_reservations_to_daily parse_two_dates
         {| columns := [default_arrival_col; default_departure_col];
            rows := [(0, [(default_arrival_col, midnight_cell day_2024_01_03);
                          (default_departure_col, midnight_cell day_2024_01_01)])] |}
         default_arrival_col default_departure_col)
  = Ok (DataFrame_of_records []).
Proof. reflexivity. Qed.

Lemma aggregate_fails_on_empty_expansion_witness :
  columns (DataFrame_of_records []) = [] /\
  aggregate_daily_occupancy (DataFrame_of_records []) = Raise KeyError.
Proof.
  apply (aggregate_fails_on_empty_expansion
           parse_two_dates no_reservation default_arrival_col default_departure_col);
    reflexivity.
Defined.

(** The caller's frame after a call on a frame of date strings: both
    date columns now hold timestamps. *)
Lemma expand_string_reservation_frame :
  fst (expand_reservations_to_daily parse_two_dates string_reservation
                                    default_arrival_col default_departure_col)
  = {| columns := [default_arrival_col; default_departure_col];
       rows := [(0, [(default_arrival_col, midnight_cell day_2024_01_01);
                     (default_departure_col, midnight_cell day_2024_01_03)])] |}.
Proof. reflexivity. Qed.

(** *** The records of one reservation *)

Lemma expand_row_overnight (arrival_col departure_col : string) (idx : Z) (row : Series)
      (a d : Z) :
  series_lookup arrival_col row = Some (midnight_cell a) ->
  series_lookup departure_col row = Some (midnight_cell d) ->
  a < d ->
  expand_row arrival_col departure_col (idx, row)
  = Ok (daily_records_of_row idx row (map Timestamp (midnights a (Z.to_nat (d - a))))).
Proof.
  intros Ha Hd Hlt. unfold expand_row, series_getitem. rewrite Ha, Hd. cbn [Py.bind].
  unfold midnight_cell. rewrite date_range_left_overnight by exact Hlt. reflexivity.
Qed.

Lemma expand_row_same_day (arrival_col departure_col : string) (idx : Z) (row : Series)
      (s : Z) :
  series_lookup arrival_col row = Some (CDatetime (Timestamp s)) ->
  series_lookup departure_col row = Some (CDatetime (Timestamp s)) ->
  expand_row arrival_col departure_col (idx, row) = Ok [].
Proof.
  intros Ha Hd. unfold expand_row, series_getitem. rewrite Ha, Hd. cbn [Py.bind].
  rewrite date_range_left_same_day. reflexivity.
Qed.

Lemma expand_row_reversed (arrival_col departure_col : string) (idx : Z) (row : Series)
      (s e : Z) :
  series_lookup arrival_col row = Some (CDatetime (Timestamp s)) ->
  series_lookup departure_col row = Some (CDatetime (Timestamp e)) ->
  e < s ->
  expand_row arrival_col departure_col (idx, row) = Ok [].
Proof.
  intros Ha Hd Hlt. unfold expand_row, series_getitem. rewrite Ha, Hd. cbn [Py.bind].
  rewrite date_range_left_reversed by exact Hlt. reflexivity.
Qed.

(** An overnight reservation yields one record per night, [d - a] in all,
    dated from the arrival day to the day before departure. *)
Lemma expand_row_overnight_count (arrival_col departure_col : string) (idx : Z)
      (row : Series) (a d : Z) :
  series_lookup arrival_col row = Some (midnight_cell a) ->
  series_lookup departure_col row = Some (midnight_cell d) ->
  a < d ->
  exists records,
    expand_row arrival_col departure_col (idx, row) = Ok records /\
    Z.of_nat (length records) = d - a /\
    map (fun rec => series_lookup "date" (snd rec)) records
    = map (fun t => Some (CDatetime (Timestamp t))) (midnights a (Z.to_nat (d - a))).
Proof.
  intros Ha Hd Hlt. eexists. split; [apply expand_row_overnight; eassumption |].
  unfold daily_records_of_row. split.
  - rewrite !length_map, midnights_length. lia.
  - rewrite !map_map. apply map_ext. intros t. cbn [snd].
    apply series_lookup_setitem_same.
Qed.

(** *** The records of a frame of reservations *)

Lemma cell_at_setitem_same (s : Series) (col : string) (v : Cell) :
  cell_at col (series_setitem s col v) = v.
Proof. unfold cell_at. rewrite series_lookup_setitem_same. reflexivity. Qed.

Lemma cell_at_setitem_other (s : Series) (col c : string) (v : Cell) :
  c <> col -> cell_at c (series_setitem s col v) = cell_at c s.
Proof.
  intros H. unfold cell_at. rewrite series_lookup_setitem_other by exact H. reflexivity.
Qed.

(** The rows after [df[col] = pd.to_datetime(df[col])]. *)
Lemma set_cells_to_datetime (parse_str : string -> option Datetime)
      (rs : list (Z * Series)) (col : string) (cells : list Cell) :
  to_datetime parse_str (map (fun r => cell_at col (snd r)) rs) = Ok cells ->
  Forall2 (fun r r' => exists d,
               to_datetime_cell parse_str (cell_at col (snd r)) = Ok d /\
               r' = (fst r, series_setitem (snd r) col (CDatetime d)))
          rs (set_cells rs col cells).
Proof.
  unfold to_datetime. revert cells.
  induction rs as [| [i s] rest IH]; intros cells H; simpl in H.
  - inversion H. constructor.
  - apply bind_Ok_inv in H. destruct H as [c [Hc H]].
    apply bind_Ok_inv in H. destruct H as [cells' [Hrest H]].
    apply bind_Ok_inv in Hc. destruct Hc as [d [Hd Hc]].
    inversion H. inversion Hc. subst. simpl. constructor.
    + exists d. split; [exact Hd | reflexivity].
    + apply IH. exact Hrest.
Qed.

Lemma to_datetime_total (parse_str : string -> option Datetime) (cells : list Cell) :
  Forall (fun c => exists d, to_datetime_cell parse_str c = Ok d) cells ->
  exists out, to_datetime parse_str cells = Ok out.
Proof.
  unfold to_datetime. intros H. induction H as [| c rest [d Hd] _ [out IH]]; simpl.
  - eexists. reflexivity.
  - rewrite Hd, IH. simpl. eexists. reflexivity.
Qed.

(** Every reservation of the frame reads as a span between two
    timestamps: the call returns, and the returned frame holds, reservation
    after reservation, one block of records under the index label of the
    reservation: one record for the arrival and one for every whole day
    after it that is before the departure. *)
Lemma expand_spans_blocks (parse_str : string -> option Datetime) (df : DataFrame)
      (arrival_col departure_col : string) (spans : list (Z * Z)) :
  mem arrival_col (columns df) = true ->
  mem departure_col (columns df) = true ->
  Forall2 (reads_as_span parse_str arrival_col departure_col) (rows df) spans ->
  exists blocks,
    snd (expand_reservations_to_daily parse_str df arrival_col departure_col)
    = Ok (DataFrame_of_records (concat blocks)) /\
    Forall2 (fun block p =>
               indexed_dates block
               = map (fun t => (fst (fst p), Some (CDatetime (Timestamp t))))
                     (arange (fst (snd p)) (snd (snd p)) day_ns))
            blocks (combine (rows df) spans).
Proof.
  intros Hma Hmd Hstays. unfold expand_reservations_to_daily, getitem.
  rewrite Hma. cbn [Py.bind].
  destruct (to_datetime_total parse_str (map (fun r => cell_at arrival_col (snd r)) (rows df)))
    as [arrivals Harr].
  { clear -Hstays. induction Hstays as [| r st rs sts [Ha _] _ IH]; simpl; constructor.
    - eexists. exact Ha.
    - exact IH. }
  rewrite Harr.
  pose proof (set_cells_to_datetime _ _ _ _ Harr) as Hrows1.
  cbn [columns setitem rows]. rewrite Hma, Hmd. cbn [Py.bind].
  set (rows1 := set_cells (rows df) arrival_col arrivals) in *.
  assert (Hstays1 : Forall2 (fun r1 st =>
                      cell_at arrival_col (snd r1) = CDatetime (Timestamp (fst st)) /\
                      to_datetime_cell parse_str (cell_at departure_col (snd r1))
                      = Ok (Timestamp (snd st))) rows1 spans).
  { clearbody rows1. clear -Hrows1 Hstays. revert spans Hstays.
    induction Hrows1 as [| r r1 rs rs1 [d [Hd ->]] _ IH]; intros spans Hstays;
      inversion Hstays as [| ? st ? sts [Ha Hdep] Hrest]; subst; constructor.
    - cbn [snd]. rewrite Ha in Hd. inversion Hd; subst.
      rewrite cell_at_setitem_same. split; [reflexivity |].
      destruct (String.eqb_spec departure_col arrival_col) as [-> | Hne].
      + rewrite cell_at_setitem_same. cbn. rewrite Ha in Hdep. exact Hdep.
      + rewrite cell_at_setitem_other by exact Hne. exact Hdep.
    - apply IH. exact Hrest. }
  destruct (to_datetime_total parse_str (map (fun r => cell_at departure_col (snd r)) rows1))
    as [departures Hdep].
  { clearbody rows1. clear -Hstays1.
    induction Hstays1 as [| r st rs sts [_ Hd] _ IH]; simpl; constructor.
    - eexists. exact Hd.
    - exact IH. }
  rewrite Hdep. cbn [snd].
  pose proof (set_cells_to_datetime _ _ _ _ Hdep) as Hrows2.
  unfold iterrows. cbn [rows setitem]. fold rows1.
  set (rows2 := set_cells rows1 departure_col departures) in *.
  assert (Hfinal : Forall2 (fun r2 p =>
                      fst r2 = fst (fst p) /\
                      series_lookup arrival_col (snd r2)
                      = Some (CDatetime (Timestamp (fst (snd p)))) /\
                      series_lookup departure_col (snd r2)
                      = Some (CDatetime (Timestamp (snd (snd p)))))
                    rows2 (combine (rows df) spans)).
  { clearbody rows2 rows1. clear -Hrows1 Hrows2 Hstays1. revert rows2 Hrows2 spans Hstays1.
    induction Hrows1 as [| r r1 rs rs1 [d1 [_ Hr1]] _ IH]; intros rows2 Hrows2 spans Hstays1;
      inversion Hrows2 as [| ? r2 ? rs2 [d2 [Hd2 Hr2]] Hrest2]; subst;
      inversion Hstays1 as [| ? st ? sts [Ha Hd] Hrest1]; subst; cbn [combine];
      constructor.
    - cbn [fst snd] in *. rewrite Hd in Hd2. injection Hd2 as <-.
      split; [reflexivity |]. split.
      + destruct (String.eqb_spec arrival_col departure_col) as [-> | Hne].
        * rewrite series_lookup_setitem_same.
          rewrite cell_at_setitem_same in Ha, Hd. cbn [to_datetime_cell] in Hd.
          injection Hd as Hd. rewrite <- Ha, Hd. reflexivity.
        * rewrite series_lookup_setitem_other by exact Hne.
          rewrite cell_at_setitem_same in Ha. rewrite series_lookup_setitem_same.
          rewrite Ha. reflexivity.
      + rewrite series_lookup_setitem_same. reflexivity.
    - apply IH; assumption. }
  clearbody rows2. clear -Hfinal.
  enough (Hrun : exists blocks,
             mapM (expand_row arrival_col departure_col) rows2 = Ok blocks /\
             Forall2 (fun block p =>
                        indexed_dates block
                        = map (fun t => (fst (fst p), Some (CDatetime (Timestamp t))))
                              (arange (fst (snd p)) (snd (snd p)) day_ns))
                     blocks (combine (rows df) spans)).
  { destruct Hrun as [blocks [Hrecs Hblocks]]. rewrite Hrecs. cbn [Py.bind].
    exists blocks. split; [reflexivity | exact Hblocks]. }
  induction Hfinal as [| [i row] p rs2 ps [Hi [Ha Hd]] _ [blocks [IHrun IHblocks]]].
  - exists []. split; [reflexivity | constructor].
  - cbn [mapM]. cbn [fst snd] in Hi, Ha, Hd. subst i.
    unfold expand_row at 1, series_getitem. rewrite Ha, Hd. cbn [Py.bind].
    rewrite date_range_left. cbn [Py.bind]. rewrite IHrun. cbn [Py.bind].
    eexists. split; [reflexivity |].
    constructor; [| exact IHblocks].
    unfold indexed_dates, daily_records_of_row. rewrite !map_map. apply map_ext. intros t.
    cbn [fst snd]. rewrite series_lookup_setitem_same. reflexivity.
Qed.

(** The same, read off the returned frame record by record. *)
Lemma expand_spans (parse_str : string -> option Datetime) (df : DataFrame)
      (arrival_col departure_col : string) (spans : list (Z * Z)) :
  mem arrival_col (columns df) = true ->
  mem departure_col (columns df) = true ->
  Forall2 (reads_as_span parse_str arrival_col departure_col) (rows df) spans ->
  exists daily_df,
    snd (expand_reservations_to_daily parse_str df arrival_col departure_col) = Ok daily_df /\
    index_and_date daily_df
    = flat_map (fun p => map (fun t => (fst (fst p), Some (CDatetime (Timestamp t))))
                             (arange (fst (snd p)) (snd (snd p)) day_ns))
               (combine (rows df) spans).
Proof.
  intros Hma Hmd Hspans.
  destruct (expand_spans_blocks _ _ _ _ _ Hma Hmd Hspans) as [blocks [Hrun Hblocks]].
  eexists. split; [exact Hrun |].
  unfold index_and_date, DataFrame_of_records. cbn [rows].
  clear -Hblocks. induction Hblocks as [| block p blocks ps Hb _ IH].
  - reflexivity.
  - cbn [concat flat_map]. rewrite map_app. fold (indexed_dates block).
    rewrite Hb, IH. reflexivity.
Qed.

Lemma reads_as_stay_spans (parse_str : string -> option Datetime)
      (arrival_col departure_col : string) (rs : list (Z * Series)) (stays : list (Z * Z)) :
  Forall2 (reads_as_stay parse_str arrival_col departure_col) rs stays ->
  Forall2 (reads_as_span parse_str arrival_col departure_col) rs (map span_of_stay stays).
Proof.
  intros H. induction H as [| r st rs sts Hr _ IH]; cbn [map]; constructor.
  - exact Hr.
  - exact IH.
Qed.

Lemma flat_map_combine_spans {A B : Type} (f : A * (Z * Z) -> list B)
      (rs : list A) (stays : list (Z * Z)) :
  flat_map f (combine rs (map span_of_stay stays))
  = flat_map (fun p => f (fst p, span_of_stay (snd p))) (combine rs stays).
Proof.
  revert stays. induction rs as [| r rs IH]; intros [| st stays]; cbn [map combine flat_map];
    try reflexivity.
  rewrite IH. reflexivity.
Qed.

(** Every reservation of the frame reads as a stay between two calendar
    days: the call returns, and the returned frame holds, reservation after
    reservation, one record per date of [stay_dates], under the index label
    of the reservation. *)
Lemma expand_midnight_stays (parse_str : string -> option Datetime) (df : DataFrame)
      (arrival_col departure_col : string) (stays : list (Z * Z)) :
  mem arrival_col (columns df) = true ->
  mem departure_col (columns df) = true ->
  Forall2 (reads_as_stay parse_str arrival_col departure_col) (rows df) stays ->
  exists daily_df,
    snd (expand_reservations_to_daily parse_str df arrival_col departure_col) = Ok daily_df /\
    index_and_date daily_df
    = flat_map (fun p => map (fun t => (fst (fst p), Some (CDatetime (Timestamp t))))
                             (stay_dates (fst (snd p)) (snd (snd p))))
               (combine (rows df) stays).
Proof.
  intros Hma Hmd Hstays.
  destruct (expand_spans _ _ _ _ _ Hma Hmd (reads_as_stay_spans _ _ _ _ _ Hstays))
    as [daily_df [Hrun Hpairs]].
  exists daily_df. split; [exact Hrun |].
  rewrite Hpairs, flat_map_combine_spans. apply flat_map_ext. intros [r st].
  cbn [fst snd span_of_stay]. rewrite arange_midnights. reflexivity.
Qed.




(** The frame of the witness, evaluated: no record for the reservation
    that leaves on the day it arrives, two for the one that stays two
    nights. *)
Lemma same_day_and_overnight_records :
  index_and_date_of (expand_reservations_to_daily
                       parse_two_dates same_day_and_overnight
                       default_arrival_col default_departure_col)
  = Ok [(1, Some (midnight_cell 19723)); (1, Some (midnight_cell 19724))].
Proof. reflexivity. Qed.

(** X2: when every arrival and departure reads as a timestamp, the call
    returns, and the number of records is the number of days begun between
    arrival and departure, summed over the reservations: the difference in
    days rounded up, zero when the departure is not after the arrival.  A
    time of day counts: arrival at 11:00 and departure at 14:00 two days
    later give three records. *)
Theorem expand_record_count (parse_str : string -> option Datetime) (df : DataFrame)
        (arrival_col departure_col : string) (spans : list (Z * Z)) :
  mem arrival_col (columns df) = true ->
  mem departure_col (columns df) = true ->
  Forall2 (reads_as_span parse_str arrival_col departure_col) (rows df) spans ->
  exists daily_df,
    snd (expand_reservations_to_daily parse_str df arrival_col departure_col) = Ok daily_df /\
    Z.of_nat (length (rows daily_df))
    = total (map (fun sp => days_begun (fst sp) (snd sp)) spans).
Proof.
  intros Hma Hmd Hspans.
  destruct (expand_spans _ _ _ _ _ Hma Hmd Hspans) as [daily_df [Hrun Hpairs]].
  exists daily_df. split; [exact Hrun |].
  apply (f_equal (@length _)) in Hpairs.
  unfold index_and_date in Hpairs. rewrite length_map in Hpairs. rewrite Hpairs.
  apply Forall2_length in Hspans. revert Hspans. clear. generalize (rows df) as rs.
  intros rs. revert spans.
  induction rs as [| r rs IH]; intros [| sp spans] Hlen; cbn [length] in Hlen;
    try discriminate Hlen; cbn [combine flat_map map]; try reflexivity.
  rewrite length_app, Nat2Z.inj_add, total_cons, IH by (injection Hlen as Hlen; exact Hlen).
  f_equal.
  cbn [fst snd]. unfold arange, days_begun. rewrite !length_map, length_seq. lia.
Qed.

Lemma expand_record_count_witness :
  exists daily_df,
    snd (expand_reservations_to_daily parse_two_dates late_checkout_reservation
                                      default_arrival_col default_departure_col)
    = Ok daily_df /\
    Z.of_nat (length (rows daily_df))
    = total (map (fun sp => days_begun (fst sp) (snd sp))
                 [(19723 * day_ns + 11 * hour_ns, 19725 * day_ns + 14 * hour_ns)]).
Proof.
  apply (expand_record_count
           parse_two_dates late_checkout_reservation
           default_arrival_col default_departure_col
           [(19723 * day_ns + 11 * hour_ns, 19725 * day_ns + 14 * hour_ns)]).
  - reflexivity.
  - reflexivity.
  - repeat constructor.
Defined.

(** The three records of that reservation: two nights by the calendar,
    three days begun by the clock. *)
Lemma late_checkout_records :
  index_and_date_of (expand_reservations_to_daily
                       parse_two_dates late_checkout_reservation
                       default_arrival_col default_departure_col)
  = Ok [(0, Some (CDatetime (Timestamp (19723 * day_ns + 11 * hour_ns))));
        (0, Some (CDatetime (Timestamp (19724 * day_ns + 11 * hour_ns))));
        (0, Some (CDatetime (Timestamp (19725 * day_ns + 11 * hour_ns))))].
Proof. reflexivity. Qed.

(** ** IEEE 754 facts behind [evaluate_model] *)

Lemma Prim2SF_infinity : Prim2SF infinity = S754_infinity false.
Proof. reflexivity. Qed.
Lemma Prim2SF_zero : Prim2SF 0%float = S754_zero false.
Proof. reflexivity. Qed.

Lemma SFcompare_refl (x : spec_float) : x <> S754_nan -> SFcompare x x = Some Eq.
Proof.
  destruct x as [s | s | | s m e]; intros H; simpl; try reflexivity.
  - destruct s; reflexivity.
  - contradiction.
  - rewrite Z.compare_refl, Pos.compare_cont_refl. destruct s; reflexivity.
Qed.

Lemma is_nan_spec (x : float) : is_nan x = true <-> Prim2SF x = S754_nan.
Proof.
  unfold is_nan. rewrite FloatAxioms.eqb_spec. unfold SFeqb.
  destruct (Prim2SF x) eqn:E;
    try (rewrite <- E at 1 2; rewrite SFcompare_refl by (rewrite E; discriminate));
    simpl; split; intros H; try discriminate; reflexivity.
Qed.

Lemma is_finite_cases (x : float) :
  is_finite x = true ->
  (exists s, Prim2SF x = S754_zero s) \/ (exists s m e, Prim2SF x = S754_finite s m e).
Proof.
  unfold is_finite, is_infinity. intros H.
  apply negb_true_iff, orb_false_iff in H. destruct H as [Hnan Hinf].
  rewrite FloatAxioms.eqb_spec, abs_spec, Prim2SF_infinity in Hinf.
  destruct (Prim2SF x) as [s | s | | s m e] eqn:E.
  - left. eexists. reflexivity.
  - simpl in Hinf. discriminate.
  - apply not_true_iff_false in Hnan. exfalso. apply Hnan. apply is_nan_spec. exact E.
  - right. do 3 eexists. reflexivity.
Qed.

Lemma sub_self (x : float) : is_finite x = true -> (x - x)%float = 0%float.
Proof.
  intros H. apply Prim2SF_inj. rewrite sub_spec, Prim2SF_zero.
  destruct (is_finite_cases x H) as [[s E] | [s [m [e E]]]]; rewrite E.
  - destruct s; reflexivity.
  - unfold SF64sub, SFsub. cbv zeta. rewrite Z.sub_diag. reflexivity.
Qed.

(** digits *)
Lemma digits2_pos_succ (p : positive) :
  digits2_pos (Pos.succ p) = digits2_pos p \/
  digits2_pos (Pos.succ p) = Pos.succ (digits2_pos p).
Proof.
  induction p as [p IH | p IH |]; simpl.
  - destruct IH as [-> | ->]; [left | right]; reflexivity.
  - left. reflexivity.
  - right. reflexivity.
Qed.

Lemma digits2_pos_size (p : positive) : digits2_pos p = Pos.size p.
Proof. induction p; simpl; congruence. Qed.

Lemma digits2_pos_iter_xO (p k : positive) :
  digits2_pos (Pos.iter xO p k) = (digits2_pos p + k)%positive.
Proof.
  induction k as [| k IH] using Pos.peano_ind.
  - simpl. lia.
  - rewrite Pos.iter_succ. simpl. rewrite IH. lia.
Qed.

Lemma iter_pos_nat {A : Type} (f : A -> A) (k : positive) (x : A) :
  iter_pos f k x = Nat.iter (Pos.to_nat k) f x.
Proof.
  revert x. induction k as [k IH | k IH |]; intros x; cbn [iter_pos].
  - rewrite !IH. rewrite Pos2Nat.inj_xI.
    replace (S (2 * Pos.to_nat k)) with (Pos.to_nat k + Pos.to_nat k + 1)%nat by lia.
    rewrite !Nat.iter_add. reflexivity.
  - rewrite !IH. rewrite Pos2Nat.inj_xO.
    replace (2 * Pos.to_nat k)%nat with (Pos.to_nat k + Pos.to_nat k)%nat by lia.
    rewrite Nat.iter_add. reflexivity.
  - reflexivity.
Qed.

Lemma shr_1_digits (p : positive) (r s : bool) :
  1 < Z.pos (digits2_pos p) ->
  exists p' r' s',
    shr_1 {| shr_m := Z.pos p; shr_r := r; shr_s := s |}
    = {| shr_m := Z.pos p'; shr_r := r'; shr_s := s' |} /\
    Z.pos (digits2_pos p') = Z.pos (digits2_pos p) - 1.
Proof.
  intros H. destruct p as [p | p |]; cbn [shr_1 digits2_pos orb] in *.
  - do 3 eexists. split; [reflexivity | rewrite Pos2Z.inj_succ; lia].
  - do 3 eexists. split; [reflexivity | rewrite Pos2Z.inj_succ; lia].
  - lia.
Qed.

Lemma iter_shr_1_digits (k : nat) (p : positive) (r s : bool) :
  Z.of_nat k < Z.pos (digits2_pos p) ->
  exists p' r' s',
    Nat.iter k shr_1 {| shr_m := Z.pos p; shr_r := r; shr_s := s |}
    = {| shr_m := Z.pos p'; shr_r := r'; shr_s := s' |} /\
    Z.pos (digits2_pos p') = Z.pos (digits2_pos p) - Z.of_nat k.
Proof.
  induction k as [| k IH]; intros H.
  - do 3 eexists. split; [reflexivity | lia].
  - destruct IH as [p1 [r1 [s1 [E1 D1]]]]; [lia |].
    cbn [Nat.iter nat_rect]. unfold Nat.iter in E1. rewrite E1.
    destruct (shr_1_digits p1 r1 s1) as [p2 [r2 [s2 [E2 D2]]]]; [lia |].
    exists p2, r2, s2. split; [exact E2 | lia].
Qed.

Lemma round_nearest_even_pos (p : positive) (l : location) :
  exists q, round_nearest_even (Z.pos p) l = Z.pos q /\
            Z.pos (digits2_pos p) <= Z.pos (digits2_pos q) <= Z.pos (digits2_pos p) + 1.
Proof.
  assert (Hs : exists q, Z.pos p + 1 = Z.pos q /\
            Z.pos (digits2_pos p) <= Z.pos (digits2_pos q) <= Z.pos (digits2_pos p) + 1).
  { exists (Pos.succ p). split; [lia |].
    destruct (digits2_pos_succ p) as [-> | ->]; lia. }
  assert (Hk : exists q, Z.pos p = Z.pos q /\
            Z.pos (digits2_pos p) <= Z.pos (digits2_pos q) <= Z.pos (digits2_pos p) + 1).
  { exists p. split; [reflexivity | lia]. }
  destruct l as [| [ | | ]]; cbn [round_nearest_even]; try assumption.
  destruct (Z.even (Z.pos p)); assumption.
Qed.


Lemma shr_fexp_amount (p : positive) (e : Z) :
  fexp prec emax (Zdigits2 (Z.pos p) + e) - e
  = Z.max (Z.pos (digits2_pos p) - 53) (-1074 - e).
Proof. unfold fexp, SpecFloat.emin, prec, emax, Zdigits2. lia. Qed.

Lemma shr_fexp_pos (p : positive) (e : Z) (l : location) :
  -1074 <= e ->
  exists p' r' s' e',
    shr_fexp prec emax (Z.pos p) e l
    = ({| shr_m := Z.pos p'; shr_r := r'; shr_s := s' |}, e') /\
    Z.pos (digits2_pos p') = Z.min (Z.pos (digits2_pos p)) 53 /\
    e <= e' <= e + Z.max 0 (Z.pos (digits2_pos p) - 53).
Proof.
  intros He. unfold shr_fexp. rewrite shr_fexp_amount.
  assert (Hrec : exists r s, shr_record_of_loc (Z.pos p) l
                             = {| shr_m := Z.pos p; shr_r := r; shr_s := s |}).
  { destruct l as [| [ | | ]]; do 2 eexists; reflexivity. }
  destruct Hrec as [r [s ->]].
  destruct (Z.max (Z.pos (digits2_pos p) - 53) (-1074 - e)) as [| k | k] eqn:En;
    cbn [shr].
  - exists p, r, s, e. split; [reflexivity | lia].
  - rewrite iter_pos_nat.
    destruct (iter_shr_1_digits (Pos.to_nat k) p r s) as [p' [r' [s' [E D]]]]; [lia |].
    rewrite E. exists p', r', s', (e + Z.pos k). split; [reflexivity | lia].
  - exists p, r, s, e. split; [reflexivity | lia].
Qed.

(** Rounding a positive integer mantissa at an exponent in range gives a
    finite number of the same sign. *)
Lemma binary_round_aux_pos (sx : bool) (p : positive) (e : Z) (l : location) :
  -1074 <= e ->
  e + Z.max 0 (Z.pos (digits2_pos p) - 53) + 1 <= 971 ->
  exists m e', binary_round_aux prec emax sx (Z.pos p) e l = S754_finite sx m e'.
Proof.
  intros He Hmax. unfold binary_round_aux.
  destruct (shr_fexp_pos p e l He) as [p1 [r1 [s1 [e1 [E1 [D1 B1]]]]]].
  rewrite E1. cbn [shr_m].
  destruct (round_nearest_even_pos
              p1 (loc_of_shr_record {| shr_m := Z.pos p1; shr_r := r1; shr_s := s1 |}))
    as [q [Eq Dq]].
  rewrite Eq.
  destruct (shr_fexp_pos q e1 loc_Exact) as [p2 [r2 [s2 [e2 [E2 [D2 B2]]]]]]; [lia |].
  rewrite E2. cbn [shr_m].
  replace (e2 <=? emax - prec) with true.
  - do 2 eexists. reflexivity.
  - symmetry. apply Z.leb_le. unfold emax, prec. lia.
Qed.

Lemma binary_normalize_count (z : Z) :
  0 < z < 2 ^ 63 ->
  exists m e, binary_normalize prec emax z 0 false = S754_finite false m e.
Proof.
  intros [Hpos Hlt]. destruct z as [| p | p]; try lia.
  cbn [binary_normalize]. unfold binary_round.
  assert (Hd : Z.pos (digits2_pos p) <= 63).
  { rewrite digits2_pos_size.
    destruct (Z_le_gt_dec (Z.pos (Pos.size p)) 63) as [H | H]; [exact H | exfalso].
    pose proof (Pos.size_le p) as Hs.
    apply Pos2Z.pos_le_pos in Hs. rewrite Pos2Z.inj_pow in Hs.
    assert (H64 : 2 ^ 64 <= 2 ^ Z.pos (Pos.size p)) by (apply Z.pow_le_mono_r; lia).
    rewrite (Pos2Z.inj_xO p) in Hs. lia. }
  replace (fexp prec emax (Z.pos (digits2_pos p) + 0))
    with (Z.pos (digits2_pos p) - 53)
    by (unfold fexp, SpecFloat.emin, prec, emax; lia).
  unfold shl_align.
  destruct (Z.pos (digits2_pos p) - 53 - 0) as [| k | k] eqn:Ek.
  - apply binary_round_aux_pos; lia.
  - apply binary_round_aux_pos; lia.
  - apply binary_round_aux_pos; [lia |].
    rewrite digits2_pos_iter_xO. lia.
Qed.

Lemma float_of_nat_finite (n : nat) :
  (0 < n)%nat -> Z.of_nat n < 2 ^ 63 ->
  exists m e, Prim2SF (float_of_nat n) = S754_finite false m e.
Proof.
  intros Hpos Hlt. unfold float_of_nat.
  rewrite of_uint63_spec, Uint63.of_Z_spec.
  rewrite Z.mod_small by (change Uint63.wB with (2 ^ 63); lia).
  apply binary_normalize_count. lia.
Qed.

(** ** evaluate_model *)

Lemma finite_nonzero_cases (v : float) :
  is_finite v = true -> is_zero v = false ->
  exists s m e, Prim2SF v = S754_finite s m e.
Proof.
  intros Hf Hz. destruct (is_finite_cases v Hf) as [[s E] | H]; [| exact H].
  unfold is_zero in Hz. rewrite FloatAxioms.eqb_spec, E in Hz.
  destruct s; discriminate Hz.
Qed.

Lemma abs_zero_div (x : float) (s : bool) (m : positive) (e : Z) :
  Prim2SF x = S754_finite s m e -> abs (0 / x) = 0%float.
Proof.
  intros E. apply Prim2SF_inj. rewrite abs_spec, div_spec, E. reflexivity.
Qed.

Lemma zero_div_count (n : nat) :
  (0 < n)%nat -> Z.of_nat n < 2 ^ 63 -> (0 / float_of_nat n)%float = 0%float.
Proof.
  intros Hpos Hlt. destruct (float_of_nat_finite n Hpos Hlt) as [m [e E]].
  apply Prim2SF_inj. rewrite div_spec, E. reflexivity.
Qed.

Lemma np_sum_zeros (xs : FloatSeries) :
  Forall (fun v => v = 0%float) xs -> np_sum xs = 0%float.
Proof.
  unfold np_sum. intros H. induction H as [| v rest -> _ IH]; [reflexivity |].
  cbn [fold_left]. exact IH.
Qed.

Lemma np_average_zeros (xs : FloatSeries) :
  xs <> [] -> Z.of_nat (length xs) < 2 ^ 63 ->
  Forall (fun v => v = 0%float) xs -> np_average xs = 0%float.
Proof.
  intros Hne Hlen Hz. unfold np_average. rewrite (np_sum_zeros _ Hz).
  apply zero_div_count; [| exact Hlen].
  destruct xs; [contradiction | simpl; lia].
Qed.

Lemma series_mean_zeros (xs : FloatSeries) :
  xs <> [] -> Z.of_nat (length xs) < 2 ^ 63 ->
  Forall (fun v => v = 0%float) xs -> series_mean xs = 0%float.
Proof.
  intros Hne Hlen Hz. unfold series_mean.
  assert (Hkeep : filter (fun x => negb (is_nan x)) xs = xs).
  { clear -Hz. induction Hz as [| v rest -> _ IH]; [reflexivity |].
    cbn [filter]. change (negb (is_nan 0)) with true. cbn iota. f_equal. exact IH. }
  assert (Hmap : map (fun x => if is_nan x then 0%float else x) xs = xs).
  { clear -Hz. induction Hz as [| v rest -> _ IH]; [reflexivity |].
    cbn [map]. change (is_nan 0) with false. cbn iota. f_equal. exact IH. }
  rewrite Hkeep, Hmap.
  destruct xs as [| v rest]; [contradiction |].
  cbn [length Nat.eqb]. fold (np_average (v :: rest)).
  apply np_average_zeros; assumption.
Qed.

Lemma map2_self (f : float -> float -> float) (xs : FloatSeries) :
  map2 f xs xs = map (fun v => f v v) xs.
Proof.
  unfold map2. induction xs as [| v rest IH]; [reflexivity |].
  simpl. f_equal. exact IH.
Qed.

Lemma map2_map_l (f : float -> float -> float) (g : float -> float) (xs : FloatSeries) :
  map2 f (map g xs) xs = map (fun v => f (g v) v) xs.
Proof.
  unfold map2. induction xs as [| v rest IH]; [reflexivity |].
  simpl. f_equal. exact IH.
Qed.

Lemma check_reg_targets_self (x : FloatSeries) :
  x <> [] -> forallb is_finite x = true -> check_reg_targets x x = Ok tt.
Proof.
  intros Hne Hf. unfold check_reg_targets. rewrite Nat.eqb_refl. cbn [negb].
  destruct x as [| v rest]; [contradiction |]. cbn [length Nat.eqb].
  rewrite Hf. reflexivity.
Qed.

(** C9: for every non-empty series [x] of numbers other than zero,
    [evaluate_model(x, x)] returns MAE = 0, RMSE = 0 and MAPE = 0.  (A value
    of the series is a finite float; the length is one Python can hold,
    below 2^63.) *)
Theorem evaluate_model_self (x : FloatSeries) :
  x <> [] ->
  Z.of_nat (length x) < 2 ^ 63 ->
  Forall finite_nonzero x ->
  evaluate_model x x = Ok {| MAE := 0; RMSE := 0; MAPE := 0 |}.
Proof.
  intros Hne Hlen Hx.
  assert (Hfin : forallb is_finite x = true).
  { apply forallb_forall. rewrite Forall_forall in Hx. intros v Hv. apply Hx, Hv. }
  unfold evaluate_model, mean_absolute_error, mean_squared_error.
  rewrite (check_reg_targets_self x Hne Hfin). cbn [Py.bind].
  rewrite !map2_self, map2_map_l, !map_map.
  assert (Hmae : np_average (map (fun v => abs (v - v)) x) = 0%float).
  { apply np_average_zeros.
    - destruct x; [contradiction | discriminate].
    - rewrite length_map. exact Hlen.
    - apply Forall_map. eapply Forall_impl; [| exact Hx].
      intros v [Hf _]. cbv beta. rewrite (sub_self v Hf). reflexivity. }
  assert (Hmse : np_average (map (fun v => ((v - v) * (v - v))%float) x) = 0%float).
  { apply np_average_zeros.
    - destruct x; [contradiction | discriminate].
    - rewrite length_map. exact Hlen.
    - apply Forall_map. eapply Forall_impl; [| exact Hx].
      intros v [Hf _]. cbv beta. rewrite (sub_self v Hf). reflexivity. }
  assert (Hmape : series_mean (map (fun v => abs ((v - v) / v)) x) = 0%float).
  { apply series_mean_zeros.
    - destruct x; [contradiction | discriminate].
    - rewrite length_map. exact Hlen.
    - apply Forall_map. eapply Forall_impl; [| exact Hx].
      intros v [Hf Hz]. cbv beta. rewrite (sub_self v Hf).
      destruct (finite_nonzero_cases v Hf Hz) as [s [m [e E]]].
      apply (abs_zero_div v s m e E). }
  rewrite Hmae, Hmse, Hmape. reflexivity.
Qed.

Lemma evaluate_model_self_witness :
  evaluate_model [10; 20; 30]%float [10; 20; 30]%float
  = Ok {| MAE := 0; RMSE := 0; MAPE := 0 |}.
Proof.
  apply evaluate_model_self.
  - discriminate.
  - reflexivity.
  - repeat constructor.
Defined.

(** Zeros in [x]: the points are left out of the MAPE mean, which is NaN
    when no other point remains. *)
Lemma evaluate_model_self_with_zero :
  evaluate_model [0; 1]%float [0; 1]%float = Ok {| MAE := 0; RMSE := 0; MAPE := 0 |}.
Proof. reflexivity. Qed.

Lemma evaluate_model_self_all_zero :
  evaluate_model [0]%float [0]%float = Ok {| MAE := 0; RMSE := 0; MAPE := nan |}.
Proof. reflexivity. Qed.

(** Values that are not numbers are refused by scikit-learn's input
    check. *)
Lemma evaluate_model_self_infinite :
  evaluate_model [infinity] [infinity] = Raise ValueError.
Proof. reflexivity. Qed.

Lemma shr_1_nonneg (mrs : shr_record) : 0 <= shr_m mrs -> 0 <= shr_m (shr_1 mrs).
Proof.
  destruct mrs as [m r s]. cbn [shr_m]. intros H.
  destruct m as [| [p | p |] | p]; cbn; lia.
Qed.

Lemma iter_shr_1_nonneg (k : nat) (mrs : shr_record) :
  0 <= shr_m mrs -> 0 <= shr_m (Nat.iter k shr_1 mrs).
Proof.
  intros H. induction k as [| k IH]; [exact H |].
  cbn [Nat.iter nat_rect]. apply shr_1_nonneg. exact IH.
Qed.

Lemma shr_fexp_nonneg (m e : Z) (l : location) :
  0 <= m -> 0 <= shr_m (fst (shr_fexp prec emax m e l)).
Proof.
  intros H. unfold shr_fexp, shr.
  assert (Hrec : 0 <= shr_m (shr_record_of_loc m l)).
  { destruct l as [| [ | | ]]; exact H. }
  destruct (fexp prec emax (Zdigits2 m + e) - e) as [| k | k]; cbn [fst];
    try exact Hrec.
  rewrite iter_pos_nat. apply iter_shr_1_nonneg. exact Hrec.
Qed.

Lemma round_nearest_even_nonneg (m : Z) (l : location) :
  0 <= m -> 0 <= round_nearest_even m l.
Proof.
  intros H. destruct l as [| [ | | ]]; cbn [round_nearest_even]; try lia.
  destruct (Z.even m); lia.
Qed.

Lemma binary_round_aux_nonneg (m e : Z) (l : location) :
  0 <= m -> nonneg_sf (binary_round_aux prec emax false m e l).
Proof.
  intros H. unfold binary_round_aux.
  pose proof (shr_fexp_nonneg m e l H) as H1.
  destruct (shr_fexp prec emax m e l) as [mrs1 e1]. cbn [fst] in H1.
  pose proof (shr_fexp_nonneg _ e1 loc_Exact
                (round_nearest_even_nonneg _ (loc_of_shr_record mrs1) H1)) as H2.
  destruct (shr_fexp prec emax (round_nearest_even (shr_m mrs1) (loc_of_shr_record mrs1))
                     e1 loc_Exact) as [mrs2 e2].
  cbn [fst] in H2.
  destruct (shr_m mrs2) as [| p | p]; [exact I | | lia].
  destruct (e2 <=? emax - prec); exact I.
Qed.

Lemma SF64add_nonneg (x y : spec_float) :
  nonneg_sf x -> nonneg_sf y -> nonneg_sf (SF64add x y).
Proof.
  destruct x as [[|] | [|] | | [|] mx ex]; try contradiction;
    destruct y as [[|] | [|] | | [|] my ey]; try contradiction; intros _ _;
    try exact I.
  unfold SF64add, SFadd, binary_normalize, cond_Zopp. cbv zeta.
  cbn [Z.add]. unfold binary_round.
  destruct (shl_align _ _ _) as [mz ez].
  apply binary_round_aux_nonneg. lia.
Qed.

Lemma SF64add_infinity_l (y : spec_float) :
  nonneg_sf y -> SF64add (S754_infinity false) y = S754_infinity false.
Proof. destruct y as [[|] | [|] | | [|] my ey]; try contradiction; reflexivity. Qed.

Lemma SF64add_infinity_r (x : spec_float) :
  nonneg_sf x -> SF64add x (S754_infinity false) = S754_infinity false.
Proof. destruct x as [[|] | [|] | | [|] mx ex]; try contradiction; reflexivity. Qed.

Lemma fold_add_nonneg (xs : FloatSeries) (acc : float) :
  nonneg_sf (Prim2SF acc) ->
  Forall (fun v => nonneg_sf (Prim2SF v)) xs ->
  nonneg_sf (Prim2SF (fold_left PrimFloat.add xs acc)) /\
  (Prim2SF acc = S754_infinity false \/ Exists (fun v => v = infinity) xs ->
   fold_left PrimFloat.add xs acc = infinity).
Proof.
  intros Hacc Hxs. revert acc Hacc.
  induction Hxs as [| v rest Hv _ IH]; intros acc Hacc; cbn [fold_left].
  - split; [exact Hacc |]. intros [H | H]; [| inversion H].
    apply Prim2SF_inj. rewrite H. reflexivity.
  - assert (Hstep : nonneg_sf (Prim2SF (acc + v)%float)).
    { rewrite add_spec. apply SF64add_nonneg; assumption. }
    destruct (IH _ Hstep) as [IHnn IHinf]. split; [exact IHnn |].
    intros H. apply IHinf.
    destruct H as [H | H].
    + left. rewrite add_spec, H. apply SF64add_infinity_l. exact Hv.
    + inversion H as [? ? Hhd | ? ? Htl]; subst.
      * left. rewrite add_spec. change (Prim2SF infinity) with (S754_infinity false).
        apply SF64add_infinity_r. exact Hacc.
      * right. exact Htl.
Qed.

Lemma abs_nonneg_or_nan (v : float) :
  Prim2SF (abs v) = S754_nan \/ nonneg_sf (Prim2SF (abs v)).
Proof.
  rewrite abs_spec. destruct (Prim2SF v) as [s | s | | s m e]; cbn;
    [right | right | left | right]; try exact I; reflexivity.
Qed.

Lemma is_zero_spec (x : float) : is_zero x = true -> exists s, Prim2SF x = S754_zero s.
Proof.
  unfold is_zero. rewrite FloatAxioms.eqb_spec. change (Prim2SF zero) with (S754_zero false).
  destruct (Prim2SF x) as [s | s | | s m e]; cbn; intros H; try discriminate.
  - eexists. reflexivity.
  - destruct s; discriminate.
  - destruct s; discriminate.
Qed.

(** The MAPE term of a point whose actual value is zero and whose
    predicted value is not. *)
Lemma mape_term_zero_actual (a p : float) :
  is_zero a = true -> is_finite p = true -> is_zero p = false ->
  abs ((a - p) / a) = infinity.
Proof.
  intros Ha Hp Hpz.
  destruct (is_zero_spec a Ha) as [sa Ea].
  destruct (finite_nonzero_cases p Hp Hpz) as [sp [mp [ep Ep]]].
  apply Prim2SF_inj. rewrite abs_spec, div_spec, sub_spec, Ea, Ep.
  destruct sa; reflexivity.
Qed.

(** The MAPE term of a point whose actual and predicted values are both
    zero is NaN, which the mean of the series leaves out. *)
Lemma mape_term_zero_zero (a p : float) :
  is_zero a = true -> is_zero p = true -> is_nan (mape_term (a, p)) = true.
Proof.
  intros Ha Hp.
  destruct (is_zero_spec a Ha) as [sa Ea]. destruct (is_zero_spec p Hp) as [sp Ep].
  apply is_nan_spec. unfold mape_term. cbn [fst snd].
  rewrite abs_spec, div_spec, sub_spec, Ea, Ep.
  destruct sa, sp; reflexivity.
Qed.

Lemma mape_terms (actual predicted : FloatSeries) :
  map abs (map2 PrimFloat.div (map2 PrimFloat.sub actual predicted) actual)
  = map mape_term (combine actual predicted).
Proof.
  unfold map2. rewrite map_map.
  revert predicted. induction actual as [| a rest IH]; intros [| p predicted];
    try reflexivity.
  cbn [combine map fst snd]. f_equal. apply IH.
Qed.

Lemma infinity_div_count (n : nat) :
  (0 < n)%nat -> Z.of_nat n < 2 ^ 63 -> (infinity / float_of_nat n)%float = infinity.
Proof.
  intros Hpos Hlt. destruct (float_of_nat_finite n Hpos Hlt) as [m [e E]].
  apply Prim2SF_inj. rewrite div_spec, E. reflexivity.
Qed.

Lemma check_reg_targets_Ok_inv (y_true y_pred : FloatSeries) :
  check_reg_targets y_true y_pred = Ok tt ->
  length y_true = length y_pred /\ y_true <> [] /\
  forallb is_finite y_true = true /\ forallb is_finite y_pred = true.
Proof.
  unfold check_reg_targets.
  destruct (Nat.eqb_spec (length y_true) (length y_pred)) as [Hlen | _];
    cbn [negb]; [| discriminate].
  destruct y_true as [| v rest]; cbn [length Nat.eqb]; [discriminate |].
  destruct (forallb is_finite (v :: rest) && forallb is_finite y_pred) eqn:E;
    cbn [negb]; [| discriminate].
  apply andb_true_iff in E. intros _.
  split; [exact Hlen |]. split; [discriminate | exact E].
Qed.

(** A series of non-negative or NaN terms, one of them infinite, has
    an infinite mean. *)
Lemma series_mean_infinite (ts : FloatSeries) :
  Z.of_nat (length ts) < 2 ^ 63 ->
  Forall (fun t => Prim2SF t = S754_nan \/ nonneg_sf (Prim2SF t)) ts ->
  In infinity ts ->
  series_mean ts = infinity.
Proof.
  intros Hlen Hts Hin. unfold series_mean.
  set (kept := filter (fun x => negb (is_nan x)) ts).
  assert (Hkept : In infinity kept).
  { apply filter_In. split; [exact Hin | reflexivity]. }
  assert (Hcount : (0 < length kept)%nat).
  { destruct kept; [destruct Hkept | simpl; lia]. }
  assert (Hbound : (length kept <= length ts)%nat) by apply filter_length_le.
  destruct (Nat.eqb_spec (length kept) 0) as [H0 | _]; [lia |].
  assert (Hsum : np_sum (map (fun x => if is_nan x then 0%float else x) ts) = infinity).
  { unfold np_sum. apply fold_add_nonneg.
    - exact I.
    - apply Forall_map. eapply Forall_impl; [| exact Hts].
      intros t [Hnan | Hnn]; cbv beta.
      + apply is_nan_spec in Hnan. rewrite Hnan. exact I.
      + destruct (is_nan t); [exact I | exact Hnn].
    - right. apply Exists_exists. exists infinity. split; [| reflexivity].
      apply in_map_iff. exists infinity. split; [reflexivity | exact Hin]. }
  rewrite Hsum. apply infinity_div_count; lia.
Qed.

(** C6, as stated, fails: with actual = [0, 1] and predicted = [1, 1] the
    call raises nothing and skips nothing; it returns MAPE = infinity. *)
Lemma evaluate_model_zero_actual_returns_infinity :
  evaluate_model [0; 1]%float [1; 1]%float
  = Ok {| MAE := 0.5; RMSE := 0x1.6a09e667f3bcdp-1; MAPE := infinity |}.
Proof. reflexivity. Qed.

(** C6, amended: for aligned sequences of equal length that pass
    scikit-learn's input check, with some point whose actual value is 0 and
    whose predicted value is not, [evaluate_model] raises no error and does
    not skip the point: it returns, and the MAPE it returns is infinity. *)
Theorem evaluate_model_zero_actual (actual predicted : FloatSeries) :
  check_reg_targets actual predicted = Ok tt ->
  Z.of_nat (length actual) < 2 ^ 63 ->
  Exists zero_actual_point (combine actual predicted) ->
  exists mae rmse,
    evaluate_model actual predicted = Ok {| MAE := mae; RMSE := rmse; MAPE := infinity |}.
Proof.
  intros Hcheck Hlen Hzero.
  destruct (check_reg_targets_Ok_inv _ _ Hcheck) as [Hlens [_ [_ Hfin]]].
  unfold evaluate_model, mean_absolute_error, mean_squared_error.
  rewrite Hcheck. cbn [Py.bind]. do 2 eexists. do 2 f_equal.
  rewrite mape_terms.
  rewrite series_mean_infinite; [reflexivity | | |].
  - rewrite length_map, length_combine. lia.
  - apply Forall_map, Forall_forall. intros ap _. apply abs_nonneg_or_nan.
  - apply Exists_exists in Hzero. destruct Hzero as [[a p] [Hin [Ha Hp]]].
    apply in_map_iff. exists (a, p). split; [| exact Hin].
    apply mape_term_zero_actual; [exact Ha | | exact Hp].
    rewrite forallb_forall in Hfin. apply Hfin. apply (in_combine_r _ _ _ _ Hin).
Qed.

Lemma evaluate_model_zero_actual_witness :
  exists mae rmse,
    evaluate_model [0; 1]%float [1; 1]%float
    = Ok {| MAE := mae; RMSE := rmse; MAPE := infinity |}.
Proof.
  apply evaluate_model_zero_actual.
  - reflexivity.
  - reflexivity.
  - constructor. split; reflexivity.
Defined.

(** ** forecast_future *)

(** C5, as stated, fails: a model whose [predict] refuses a horizon of 0
    with [ValueError], as pmdarima's does, makes [forecast_future] fail with
    that [ValueError]. *)
Lemma forecast_future_not_InvalidHorizonError :
  ~ (forall (model : FittedModel) (n_periods : Z),
        n_periods <= 0 ->
        forecast_future model n_periods = Raise (Exc "InvalidHorizonError")).
Proof.
  intros H. specialize (H (pmdarima_model empty_forecast) 0 (Z.le_refl 0)).
  discriminate H.
Qed.

(** C5, amended: [forecast_future] does not check the horizon.  For every
    model and every [n_periods] its outcome is the outcome of the model's
    [predict], value or exception; for a pmdarima model and
    [n_periods <= 0] that is the [ValueError] statsmodels raises. *)
Theorem forecast_future_horizon_unchecked :
  (forall (model : FittedModel) (n_periods : Z),
      forecast_future model n_periods = predict model n_periods) /\
  (forall (forecast : Z -> FloatSeries * list (float * float)) (n_periods : Z),
      n_periods <= 0 ->
      forecast_future (pmdarima_model forecast) n_periods = Raise ValueError).
Proof.
  split.
  - intros model n_periods. reflexivity.
  - intros forecast n_periods Hn. unfold forecast_future, pmdarima_model. cbn [predict].
    destruct (Z.leb_spec n_periods 0); [reflexivity | lia].
Qed.

Lemma forecast_future_horizon_unchecked_witness :
  forecast_future (pmdarima_model empty_forecast) 0 = Raise ValueError.
Proof.
  apply (proj2 forecast_future_horizon_unchecked). apply Z.le_refl.
Defined.

(** Whatever intervals the model's [predict] returns, [forecast_future]
    returns them as they are. *)
Lemma forecast_future_returns_prediction (model : FittedModel) (n_periods : Z)
      (forecast : FloatSeries) (conf_int : list (float * float)) :
  predict model n_periods = Ok (forecast, conf_int) <->
  forecast_future model n_periods = Ok (forecast, conf_int).
Proof. unfold forecast_future. tauto. Qed.

(** ** decompose_time_series *)

Lemma decompose_time_series_Raise
      (seasonal_decompose : FloatSeries -> string -> Z -> Result DecomposeResult)
      (series : FloatSeries) (freq : Z) (model : string) (e : Exception) :
  decompose_time_series seasonal_decompose series freq model = Raise e <->
  seasonal_decompose series model freq = Raise e.
Proof.
  unfold decompose_time_series.
  destruct (seasonal_decompose series model freq) as [d | e']; cbn [Py.bind].
  - split; discriminate.
  - split; intros H; inversion H; reflexivity.
Qed.

(** C7, as stated, fails: on three values and the weekly period the call
    fails with the [ValueError] of statsmodels. *)
Lemma decompose_time_series_not_InsufficientDataError :
  ~ (forall (seasonal_decompose : FloatSeries -> string -> Z -> Result DecomposeResult)
            (series : FloatSeries) (freq : Z) (model : string),
        Z.of_nat (length series) <= 2 * freq ->
        decompose_time_series seasonal_decompose series freq model
        = Raise (Exc "InsufficientDataError")).
Proof.
  intros H.
  specialize (H (statsmodels_seasonal_decompose echo_decomposition)
                [1; 2; 3]%float default_freq default_model).
  cbv in H. specialize (H (fun E => match E with eq_refl => I end)).
  discriminate H.
Qed.

(** C7, amended: [decompose_time_series] has no length check of its own;
    it fails exactly when [seasonal_decompose] fails, with the same
    exception.  With statsmodels, a series shorter than 2 x freq fails with
    [ValueError]. *)
Theorem decompose_time_series_short_series :
  (forall (seasonal_decompose : FloatSeries -> string -> Z -> Result DecomposeResult)
          (series : FloatSeries) (freq : Z) (model : string) (e : Exception),
      decompose_time_series seasonal_decompose series freq model = Raise e <->
      seasonal_decompose series model freq = Raise e) /\
  (forall (core : FloatSeries -> string -> Z -> DecomposeResult)
          (series : FloatSeries) (freq : Z) (model : string),
      Z.of_nat (length series) < 2 * freq ->
      decompose_time_series (statsmodels_seasonal_decompose core) series freq model
      = Raise ValueError).
Proof.
  split.
  - intros sd series freq model e. apply decompose_time_series_Raise.
  - intros core series freq model Hshort.
    apply decompose_time_series_Raise. unfold statsmodels_seasonal_decompose.
    destruct (negb (forallb is_finite series)); [reflexivity |].
    destruct (String.prefix "m" model && existsb (fun v => (v <=? 0)%float) series);
      [reflexivity |].
    destruct (Z.ltb_spec (Z.of_nat (length series)) (2 * freq)); [reflexivity | lia].
Qed.

Lemma decompose_time_series_short_series_witness :
  decompose_time_series (statsmodels_seasonal_decompose echo_decomposition)
                        [1; 2; 3]%float default_freq default_model
  = Raise ValueError.
Proof.
  apply (proj2 decompose_time_series_short_series). reflexivity.
Defined.

(** A series of exactly 2 x freq values passes the length check of
    statsmodels. *)
Lemma decompose_time_series_two_cycles :
  decompose_time_series (statsmodels_seasonal_decompose echo_decomposition)
                        (repeat 1%float 14) default_freq default_model
  = Ok [ ("trend"%string, repeat 1%float 14);
         ("seasonal"%string, repeat 1%float 14);
         ("residual"%string, repeat 1%float 14);
         ("observed"%string, repeat 1%float 14) ].
Proof. reflexivity. Qed.

(** * Further properties of the code *)

(** ** The two conversions of [expand_reservations_to_daily] *)

Lemma expand_conversion (parse_str : string -> option Datetime) (df : DataFrame)
      (arrival_col departure_col : string) :
  mem arrival_col (columns df) = true ->
  mem departure_col (columns df) = true ->
  Forall (converts parse_str arrival_col departure_col) (rows df) ->
  exists rows2,
    Forall2 (converted_row parse_str arrival_col departure_col) (rows df) rows2 /\
    expand_reservations_to_daily parse_str df arrival_col departure_col
    = ({| columns := columns df; rows := rows2 |},
       daily_records <- mapM (expand_row arrival_col departure_col) rows2 ;;
       Ok (DataFrame_of_records (concat daily_records))).
Proof.
  intros Hma Hmd Hconv. unfold expand_reservations_to_daily, getitem.
  rewrite Hma. cbn [Py.bind].
  destruct (to_datetime_total parse_str (map (fun r => cell_at arrival_col (snd r)) (rows df)))
    as [arrivals Harr].
  { clear -Hconv. induction Hconv as [| r rs [da [dd [Ha _]]] _ IH]; simpl; constructor.
    - eexists. exact Ha.
    - exact IH. }
  rewrite Harr.
  pose proof (set_cells_to_datetime _ _ _ _ Harr) as Hrows1.
  cbn [columns setitem rows]. rewrite Hma, Hmd. cbn [Py.bind].
  set (rows1 := set_cells (rows df) arrival_col arrivals) in *.
  assert (Hstep : Forall2 (fun r r1 => exists da dd,
                     to_datetime_cell parse_str (cell_at arrival_col (snd r)) = Ok da /\
                     to_datetime_cell parse_str (cell_at departure_col (snd r)) = Ok dd /\
                     r1 = (fst r, series_setitem (snd r) arrival_col (CDatetime da)) /\
                     to_datetime_cell parse_str (cell_at departure_col (snd r1)) = Ok dd)
                  (rows df) rows1).
  { clearbody rows1. clear -Hrows1 Hconv.
    induction Hrows1 as [| r r1 rs rs1 [d [Hd ->]] _ IH];
      inversion Hconv as [| ? ? [da [dd [Ha Hdep]]] Hrest]; subst; constructor.
    - rewrite Ha in Hd. injection Hd as <-.
      exists da, dd. repeat split; try assumption. cbn [snd].
      destruct (String.eqb_spec departure_col arrival_col) as [-> | Hne].
      + rewrite cell_at_setitem_same. cbn. rewrite Ha in Hdep. exact Hdep.
      + rewrite cell_at_setitem_other by exact Hne. exact Hdep.
    - apply IH. exact Hrest. }
  destruct (to_datetime_total parse_str (map (fun r => cell_at departure_col (snd r)) rows1))
    as [departures Hdep].
  { clearbody rows1. clear -Hstep.
    induction Hstep as [| r r1 rs rs1 [da [dd [_ [_ [_ Hd]]]]] _ IH]; simpl; constructor.
    - eexists. exact Hd.
    - exact IH. }
  rewrite Hdep. unfold iterrows. cbn [rows setitem columns]. fold rows1.
  pose proof (set_cells_to_datetime _ _ _ _ Hdep) as Hrows2.
  set (rows2 := set_cells rows1 departure_col departures) in *.
  exists rows2. split.
  2: { f_equal. unfold setitem. cbn [columns rows]. rewrite Hma, Hmd. reflexivity. }
  clearbody rows2 rows1. clear -Hstep Hrows2. revert rows2 Hrows2.
  induction Hstep as [| r r1 rs rs1 [da [dd [Ha [Hd [-> Hd1]]]]] _ IH]; intros rows2 Hrows2;
    inversion Hrows2 as [| ? r2 ? rs2 [d2 [Hd2 ->]] Hrest2]; subst; constructor.
  - rewrite Hd1 in Hd2. injection Hd2 as <-. exists da, dd. repeat split; assumption.
  - apply IH. exact Hrest2.
Qed.

Lemma converted_row_lookup (parse_str : string -> option Datetime)
      (arrival_col departure_col : string) (r r2 : Z * Series) :
  converted_row parse_str arrival_col departure_col r r2 ->
  exists da dd,
    to_datetime_cell parse_str (cell_at arrival_col (snd r)) = Ok da /\
    to_datetime_cell parse_str (cell_at departure_col (snd r)) = Ok dd /\
    fst r2 = fst r /\
    series_lookup arrival_col (snd r2) = Some (CDatetime da) /\
    series_lookup departure_col (snd r2) = Some (CDatetime dd) /\
    (forall c, c <> arrival_col -> c <> departure_col ->
               series_lookup c (snd r2) = series_lookup c (snd r)).
Proof.
  intros [da [dd [Ha [Hd ->]]]]. exists da, dd. cbn [fst snd].
  split; [exact Ha |]. split; [exact Hd |]. split; [reflexivity |].
  split; [| split].
  - destruct (String.eqb_spec arrival_col departure_col) as [Heq | Hne].
    + subst departure_col. rewrite series_lookup_setitem_same.
      rewrite Ha in Hd. injection Hd as ->. reflexivity.
    + rewrite series_lookup_setitem_other by exact Hne.
      apply series_lookup_setitem_same.
  - apply series_lookup_setitem_same.
  - intros c Hca Hcd. rewrite !series_lookup_setitem_other by assumption. reflexivity.
Qed.

(** C4, as stated, fails: the call does not leave every caller's frame
    unchanged. *)
Lemma expand_overwrites_caller_columns :
  ~ (forall (parse_str : string -> option Datetime) (df : DataFrame)
            (arrival_col departure_col : string),
        fst (expand_reservations_to_daily parse_str df arrival_col departure_col) = df).
Proof.
  intros H.
  specialize (H parse_two_dates string_reservation default_arrival_col default_departure_col).
  rewrite expand_string_reservation_frame in H. discriminate H.
Qed.

(** What the call keeps of the caller's frame: the column list, the index
    and the cells of every column but the two date columns; everything, when
    the two date columns already hold datetimes. *)
Lemma expand_frame_kept (parse_str : string -> option Datetime) (df : DataFrame)
      (arrival_col departure_col : string) :
  let df' := fst (expand_reservations_to_daily parse_str df arrival_col departure_col) in
  columns df' = columns df /\
  map fst (rows df') = map fst (rows df) /\
  (forall c, c <> arrival_col -> c <> departure_col ->
     map (fun r => series_lookup c (snd r)) (rows df')
     = map (fun r => series_lookup c (snd r)) (rows df)) /\
  (datetime_column df arrival_col -> datetime_column df departure_col -> df' = df).
Proof.
  unfold expand_reservations_to_daily.
  destruct (c <- getitem df arrival_col ;; to_datetime parse_str c)
    as [arrivals | e] eqn:E1; cbn [fst].
  2: { repeat split; reflexivity. }
  destruct (setitem_to_datetime_effect _ _ _ _ E1) as [Hc1 [Hi1 [Ho1 [_ [_ Hd1]]]]].
  destruct (c <- getitem (setitem df arrival_col arrivals) departure_col ;;
            to_datetime parse_str c) as [departures | e] eqn:E2; cbn [fst].
  2: { split; [exact Hc1 |]. split; [exact Hi1 |]. split.
       - intros c Ha _. apply Ho1. exact Ha.
       - intros Ha _. apply Hd1. exact Ha. }
  destruct (setitem_to_datetime_effect _ _ _ _ E2) as [Hc2 [Hi2 [Ho2 [_ [_ Hd2]]]]].
  split; [rewrite Hc2; exact Hc1 |].
  split; [rewrite Hi2; exact Hi1 |].
  split.
  - intros c Ha Hd. rewrite (Ho2 c Hd). apply Ho1. exact Ha.
  - intros Ha Hd. specialize (Hd1 Ha). rewrite Hd1 in Hd2 |- *. apply Hd2. exact Hd.
Qed.

(** C4, amended: the only effect of [expand_reservations_to_daily] on the
    caller's frame is on the arrival and departure columns, which it
    overwrites with their [pd.to_datetime] values.  The column list, the
    index and the cells of every other column are as before; a frame whose
    two date columns already hold datetimes is left exactly as it was; and
    when both columns exist and convert, every row of the frame left behind
    is the row it was with the arrival and the departure cell replaced by
    the datetimes [pd.to_datetime] reads from them. *)
Theorem expand_frame_effect (parse_str : string -> option Datetime) (df : DataFrame)
        (arrival_col departure_col : string) :
  let df' := fst (expand_reservations_to_daily parse_str df arrival_col departure_col) in
  columns df' = columns df /\
  map fst (rows df') = map fst (rows df) /\
  (forall c, c <> arrival_col -> c <> departure_col ->
     map (fun r => series_lookup c (snd r)) (rows df')
     = map (fun r => series_lookup c (snd r)) (rows df)) /\
  (datetime_column df arrival_col -> datetime_column df departure_col -> df' = df) /\
  (mem arrival_col (columns df) = true ->
   mem departure_col (columns df) = true ->
   Forall (converts parse_str arrival_col departure_col) (rows df) ->
   Forall2 (converted_row parse_str arrival_col departure_col) (rows df) (rows df')).
Proof.
  pose proof (expand_frame_kept parse_str df arrival_col departure_col) as Hkept.
  cbv zeta in Hkept |- *. destruct Hkept as [Hcols [Hindex [Hother Hsame]]].
  split; [exact Hcols |]. split; [exact Hindex |]. split; [exact Hother |].
  split; [exact Hsame |].
  intros Hma Hmd Hconv.
  destruct (expand_conversion _ _ _ _ Hma Hmd Hconv) as [rows2 [Hrows2 Hrun]].
  rewrite Hrun. exact Hrows2.
Qed.

(** On the frame of date strings: both cells of the row are replaced by the
    timestamps read from the strings. *)
Lemma expand_frame_effect_witness :
  Forall2 (converted_row parse_two_dates default_arrival_col default_departure_col)
          (rows string_reservation)
          (rows (fst (expand_reservations_to_daily
                        parse_two_dates string_reservation
                        default_arrival_col default_departure_col))).
Proof.
  apply (proj2 (proj2 (proj2 (proj2
           (expand_frame_effect parse_two_dates string_reservation
                                default_arrival_col default_departure_col))))).
  - reflexivity.
  - reflexivity.
  - repeat constructor. eexists. eexists. split; reflexivity.
Defined.

(** ** Failures of [expand_reservations_to_daily] *)

Lemma mapM_Raise {A B : Type} (f : A -> Result B) (e : Exception) (xs : list A) :
  Forall (fun x => (exists y, f x = Ok y) \/ f x = Raise e) xs ->
  Exists (fun x => f x = Raise e) xs ->
  mapM f xs = Raise e.
Proof.
  intros Hall Hex. induction Hall as [| x rest Hx _ IH]; [inversion Hex |].
  cbn [mapM]. destruct Hx as [[y Hy] | Hx].
  - rewrite Hy. cbn [Py.bind]. rewrite IH; [reflexivity |].
    inversion Hex as [? ? Hhd | ? ? Htl]; subst; [| exact Htl].
    rewrite Hy in Hhd. discriminate Hhd.
  - rewrite Hx. reflexivity.
Qed.

Lemma to_datetime_cell_outcome (parse_str : string -> option Datetime) (c : Cell) :
  (exists d, to_datetime_cell parse_str c = Ok d) \/
  to_datetime_cell parse_str c = Raise ValueError.
Proof.
  destruct c as [| n | s | d]; cbn; try (left; eexists; reflexivity).
  destruct (parse_str s); [left; eexists; reflexivity | right; reflexivity].
Qed.

Lemma to_datetime_unparseable (parse_str : string -> option Datetime)
      (cells : list Cell) (s : string) :
  In (CStr s) cells -> parse_str s = None ->
  to_datetime parse_str cells = Raise ValueError.
Proof.
  intros Hin Hs. unfold to_datetime. apply mapM_Raise.
  - apply Forall_forall. intros c _.
    destruct (to_datetime_cell_outcome parse_str c) as [[d Hd] | Hd]; rewrite Hd; cbn.
    + left. eexists. reflexivity.
    + right. reflexivity.
  - apply Exists_exists. exists (CStr s). split; [exact Hin |]. cbn. rewrite Hs. reflexivity.
Qed.

(** X6: a frame without the arrival column makes the call raise KeyError
    with the frame untouched; a frame with the arrival column and without
    the departure column makes it raise KeyError after the arrival column
    was replaced by its converted values. *)
Theorem expand_missing_column (parse_str : string -> option Datetime) (df : DataFrame)
        (arrival_col departure_col : string) :
  (mem arrival_col (columns df) = false ->
   expand_reservations_to_daily parse_str df arrival_col departure_col
   = (df, Raise KeyError)) /\
  (forall arrivals,
      mem departure_col (columns df) = false ->
      (c <- getitem df arrival_col ;; to_datetime parse_str c) = Ok arrivals ->
      expand_reservations_to_daily parse_str df arrival_col departure_col
      = (setitem df arrival_col arrivals, Raise KeyError)).
Proof.
  split.
  - intros Hm. unfold expand_reservations_to_daily, getitem. rewrite Hm. reflexivity.
  - intros arrivals Hmd Harr. unfold expand_reservations_to_daily. rewrite Harr.
    apply bind_Ok_inv in Harr. destruct Harr as [raw [Hget _]].
    apply getitem_Ok_inv in Hget. destruct Hget as [Hma _].
    unfold getitem at 1. rewrite (setitem_columns _ _ _ Hma), Hmd. reflexivity.
Qed.

Lemma expand_missing_column_witness :
  expand_reservations_to_daily parse_two_dates (DataFrame_of_records [])
                               default_arrival_col default_departure_col
  = (DataFrame_of_records [], Raise KeyError) /\
  expand_reservations_to_daily parse_two_dates arrival_only
                               default_arrival_col default_departure_col
  = (setitem arrival_only default_arrival_col [midnight_cell day_2024_01_01],
     Raise KeyError).
Proof.
  split.
  - apply (proj1 (expand_missing_column
                    parse_two_dates (DataFrame_of_records [])
                    default_arrival_col default_departure_col)).
    reflexivity.
  - apply (proj2 (expand_missing_column
                    parse_two_dates arrival_only
                    default_arrival_col default_departure_col));
      reflexivity.
Defined.

(** X7: a string that [pd.to_datetime] cannot read makes the call raise
    ValueError: in the arrival column with the frame untouched, in the
    departure column after the arrival column was replaced by its converted
    values. *)
Theorem expand_unparseable_date (parse_str : string -> option Datetime) (df : DataFrame)
        (arrival_col departure_col : string) (r : Z * Series) (s : string) :
  In r (rows df) ->
  parse_str s = None ->
  (mem arrival_col (columns df) = true ->
   cell_at arrival_col (snd r) = CStr s ->
   expand_reservations_to_daily parse_str df arrival_col departure_col
   = (df, Raise ValueError)) /\
  (forall arrivals,
      mem departure_col (columns df) = true ->
      cell_at departure_col (snd r) = CStr s ->
      (c <- getitem df arrival_col ;; to_datetime parse_str c) = Ok arrivals ->
      expand_reservations_to_daily parse_str df arrival_col departure_col
      = (setitem df arrival_col arrivals, Raise ValueError)).
Proof.
  intros Hin Hs. split.
  - intros Hma Hcell. unfold expand_reservations_to_daily, getitem. rewrite Hma.
    cbn [Py.bind]. rewrite (to_datetime_unparseable parse_str _ s); [reflexivity | | exact Hs].
    rewrite <- Hcell. apply (in_map (fun r => cell_at arrival_col (snd r))). exact Hin.
  - intros arrivals Hmd Hcell Harr. unfold expand_reservations_to_daily. rewrite Harr.
    pose proof Harr as Harr'.
    apply bind_Ok_inv in Harr'. destruct Harr' as [raw [Hget Hconv]].
    apply getitem_Ok_inv in Hget. destruct Hget as [Hma ->].
    assert (Hne : departure_col <> arrival_col).
    { intros ->. rewrite (to_datetime_unparseable parse_str _ s) in Hconv;
        [discriminate | | exact Hs].
      rewrite <- Hcell. apply (in_map (fun r => cell_at arrival_col (snd r))). exact Hin. }
    unfold getitem at 1. rewrite (setitem_columns _ _ _ Hma), Hmd. cbn [Py.bind].
    rewrite (to_datetime_unparseable parse_str _ s); [reflexivity | | exact Hs].
    replace (map (fun r0 => cell_at departure_col (snd r0))
                 (rows (setitem df arrival_col arrivals)))
      with (map (fun r0 => cell_at departure_col (snd r0)) (rows df)).
    + rewrite <- Hcell. apply (in_map (fun r => cell_at departure_col (snd r))). exact Hin.
    + pose proof (set_cells_other (rows df) arrival_col departure_col arrivals Hne) as Hsame.
      cbn [rows setitem]. unfold cell_at.
      rewrite <- (map_map (fun r0 => series_lookup departure_col (snd r0))
                          (fun o => match o with Some v => v | None => CNone end)).
      rewrite <- (map_map (fun r0 => series_lookup departure_col (snd r0))
                          (fun o => match o with Some v => v | None => CNone end)
                          (set_cells (rows df) arrival_col arrivals)).
      rewrite Hsame. reflexivity.
Qed.

Lemma expand_unparseable_date_witness :
  expand_reservations_to_daily parse_two_dates unparseable_reservation
                               default_arrival_col default_departure_col
  = (unparseable_reservation, Raise ValueError).
Proof.
  apply (proj1 (expand_unparseable_date
                  parse_two_dates unparseable_reservation
                  default_arrival_col default_departure_col
                  (0, [(default_arrival_col, CStr "soon");
                       (default_departure_col, CStr "2024-01-03")])
                  "soon"
                  (or_introl eq_refl) eq_refl)).
  - reflexivity.
  - reflexivity.
Defined.

(** X8: when both columns convert and some reservation has a missing
    arrival or departure (None or NaT), the call raises ValueError: no
    record is returned for any reservation. *)
Theorem expand_missing_date (parse_str : string -> option Datetime) (df : DataFrame)
        (arrival_col departure_col : string) :
  mem arrival_col (columns df) = true ->
  mem departure_col (columns df) = true ->
  Forall (converts parse_str arrival_col departure_col) (rows df) ->
  Exists (fun r =>
            to_datetime_cell parse_str (cell_at arrival_col (snd r)) = Ok NaT \/
            to_datetime_cell parse_str (cell_at departure_col (snd r)) = Ok NaT) (rows df) ->
  snd (expand_reservations_to_daily parse_str df arrival_col departure_col)
  = Raise ValueError.
Proof.
  intros Hma Hmd Hconv Hmissing.
  destruct (expand_conversion _ _ _ _ Hma Hmd Hconv) as [rows2 [Hrows2 ->]].
  cbn [snd].
  rewrite (mapM_Raise _ ValueError); [reflexivity | |].
  - clear -Hrows2. induction Hrows2 as [| r r2 rs rs2 Hr _ IH]; constructor; [| exact IH].
    destruct (converted_row_lookup _ _ _ _ _ Hr) as [da [dd [_ [_ [_ [Ha [Hd _]]]]]]].
    destruct r2 as [idx row]. cbn [snd] in Ha, Hd.
    unfold expand_row, series_getitem. rewrite Ha, Hd. cbn [Py.bind].
    destruct da as [| s]; [right; reflexivity |].
    destruct dd as [| e]; [right; reflexivity |].
    left. eexists. reflexivity.
  - clear -Hrows2 Hmissing. induction Hrows2 as [| r r2 rs rs2 Hr _ IH];
      inversion Hmissing as [? ? Hhd | ? ? Htl]; subst.
    + apply Exists_cons_hd.
      destruct (converted_row_lookup _ _ _ _ _ Hr) as [da [dd [Hca [Hcd [_ [Ha [Hd _]]]]]]].
      destruct r2 as [idx row]. cbn [snd] in Ha, Hd.
      unfold expand_row, series_getitem. rewrite Ha, Hd. cbn [Py.bind].
      destruct Hhd as [H | H].
      * rewrite Hca in H. injection H as ->. reflexivity.
      * rewrite Hcd in H. injection H as ->. destruct da; reflexivity.
    + apply Exists_cons_tl. apply IH. exact Htl.
Qed.

Lemma expand_missing_date_witness :
  snd (expand_reservations_to_daily parse_two_dates missing_date_reservation
                                    default_arrival_col default_departure_col)
  = Raise ValueError.
Proof.
  apply (expand_missing_date
           parse_two_dates missing_date_reservation
           default_arrival_col default_departure_col).
  - reflexivity.
  - reflexivity.
  - repeat constructor. eexists. eexists. split; reflexivity.
  - apply Exists_cons_hd. right. reflexivity.
Defined.

(** ** The frame left behind and the fields of the records *)

Lemma convert_datetime_column (parse_str : string -> option Datetime) (df : DataFrame)
      (col : string) :
  datetime_column df col ->
  (c <- getitem df col ;; to_datetime parse_str c)
  = Ok (map (fun r => cell_at col (snd r)) (rows df)).
Proof.
  intros Hdt. unfold getitem. rewrite (proj1 Hdt). cbn [Py.bind].
  apply to_datetime_datetimes, datetime_column_cells. exact Hdt.
Qed.

Lemma datetime_column_after_convert (parse_str : string -> option Datetime)
      (df : DataFrame) (col c : string) (cells : list Cell) :
  (x <- getitem df col ;; to_datetime parse_str x) = Ok cells ->
  c = col \/ datetime_column df c ->
  datetime_column (setitem df col cells) c.
Proof.
  intros Hconv Hc.
  destruct (setitem_to_datetime_effect _ _ _ _ Hconv) as [Hcols [_ [Hother [Hsame [Hcells _]]]]].
  pose proof Hconv as Hconv'. apply bind_Ok_inv in Hconv'.
  destruct Hconv' as [raw [Hget _]]. apply getitem_Ok_inv in Hget. destruct Hget as [Hm _].
  destruct (String.eqb_spec c col) as [-> | Hne].
  - split; [rewrite Hcols; exact Hm |].
    assert (Hdt : Forall (fun o => exists d, o = Some (CDatetime d)) (map Some cells)).
    { clear -Hcells. induction Hcells as [| r o rs os [d [_ ->]] _ IH]; simpl; constructor.
      - eexists. reflexivity.
      - exact IH. }
    rewrite <- Hsame in Hdt. rewrite Forall_map in Hdt. exact Hdt.
  - destruct Hc as [Hc | [Hmc Hrows]]; [contradiction |].
    split; [rewrite Hcols; exact Hmc |].
    specialize (Hother c Hne).
    assert (Hdt : Forall (fun o => exists d, o = Some (CDatetime d))
                         (map (fun r => series_lookup c (snd r)) (rows df))).
    { rewrite Forall_map. exact Hrows. }
    rewrite <- Hother in Hdt. rewrite Forall_map in Hdt. exact Hdt.
Qed.

(** X5: calling the function a second time, on the frame the first call
    left behind, has the outcome of the first call: the same frame is left
    and the same records or the same exception are returned. *)
Theorem expand_again (parse_str : string -> option Datetime) (df : DataFrame)
        (arrival_col departure_col : string) :
  expand_reservations_to_daily
    parse_str
    (fst (expand_reservations_to_daily parse_str df arrival_col departure_col))
    arrival_col departure_col
  = expand_reservations_to_daily parse_str df arrival_col departure_col.
Proof.
  unfold expand_reservations_to_daily at 2 3.
  destruct (c <- getitem df arrival_col ;; to_datetime parse_str c)
    as [arrivals | e] eqn:E1; cbn [fst].
  2: { unfold expand_reservations_to_daily. rewrite E1. reflexivity. }
  pose proof (datetime_column_after_convert _ _ _ arrival_col _ E1 (or_introl eq_refl)) as Ha1.
  set (df1 := setitem df arrival_col arrivals) in *.
  destruct (c <- getitem df1 departure_col ;; to_datetime parse_str c)
    as [departures | e] eqn:E2; cbn [fst].
  - pose proof (datetime_column_after_convert _ _ _ arrival_col _ E2 (or_intror Ha1)) as Ha2.
    pose proof (datetime_column_after_convert _ _ _ departure_col _ E2 (or_introl eq_refl))
      as Hd2.
    set (df2 := setitem df1 departure_col departures) in *.
    unfold expand_reservations_to_daily.
    rewrite (convert_datetime_column _ _ _ Ha2), (setitem_datetime_column _ _ Ha2).
    rewrite (convert_datetime_column _ _ _ Hd2), (setitem_datetime_column _ _ Hd2).
    reflexivity.
  - unfold expand_reservations_to_daily.
    rewrite (convert_datetime_column _ _ _ Ha1), (setitem_datetime_column _ _ Ha1).
    rewrite E2. reflexivity.
Qed.

(** X3: every returned record is a copy of a row of the frame the call
    leaves behind: it has that row's index label, a timestamp under 'date',
    and under every other label the cell the row has there. *)
Theorem expand_records_keep_fields (parse_str : string -> option Datetime) (df : DataFrame)
        (arrival_col departure_col : string) (daily_df : DataFrame) :
  snd (expand_reservations_to_daily parse_str df arrival_col departure_col) = Ok daily_df ->
  Forall (fun rec =>
            exists row t,
              In row (rows (fst (expand_reservations_to_daily
                                   parse_str df arrival_col departure_col))) /\
              fst rec = fst row /\
              series_lookup "date" (snd rec) = Some (CDatetime (Timestamp t)) /\
              forall c, c <> "date"%string ->
                        series_lookup c (snd rec) = series_lookup c (snd row))
         (rows daily_df).
Proof.
  intros Hrun. apply expand_Ok_inv in Hrun. destruct Hrun as [recs [Hrecs ->]].
  cbn [rows DataFrame_of_records].
  apply mapM_Forall2 in Hrecs.
  induction Hrecs as [| row rs recs1 recs' Hrow _ IH]; cbn [concat]; [constructor |].
  apply Forall_app. split.
  - destruct row as [idx s]. unfold expand_row in Hrow.
    apply bind_Ok_inv in Hrow. destruct Hrow as [start [_ Hrow]].
    apply bind_Ok_inv in Hrow. destruct Hrow as [end_ [_ Hrow]].
    apply bind_Ok_inv in Hrow. destruct Hrow as [dates [Hdates Hrow]].
    injection Hrow as <-.
    unfold date_range in Hdates.
    destruct start as [| | | [| s0]]; try discriminate.
    destruct end_ as [| | | [| e0]]; try discriminate.
    injection Hdates as <-.
    unfold daily_records_of_row. rewrite map_map. apply Forall_map, Forall_forall.
    intros t _. exists (idx, s), t. cbn [fst snd].
    split; [left; reflexivity |]. split; [reflexivity |].
    split; [apply series_lookup_setitem_same |].
    intros c Hc. apply series_lookup_setitem_other. exact Hc.
  - eapply Forall_impl; [| exact IH].
    intros rec [row' [t [Hin H]]]. exists row', t. split; [right; exact Hin | exact H].
Qed.

Lemma expand_records_keep_fields_witness :
  Forall (fun rec =>
            exists row t,
              In row (rows (fst (expand_reservations_to_daily
                                   parse_two_dates scenario_reservations
                                   default_arrival_col default_departure_col))) /\
              fst rec = fst row /\
              series_lookup "date" (snd rec) = Some (CDatetime (Timestamp t)) /\
              forall c, c <> "date"%string ->
                        series_lookup c (snd rec) = series_lookup c (snd row))
         (rows scenario_daily).
Proof.
  apply (expand_records_keep_fields
           parse_two_dates scenario_reservations
           default_arrival_col default_departure_col scenario_daily).
  reflexivity.
Defined.

(** ** The records of one reservation *)

Lemma Forall2_combine_fst {A B : Type} (R : A -> B -> Prop) (l : list A) (l' : list B) :
  Forall2 R l l' -> map fst (combine l l') = l.
Proof. intros H. induction H; simpl; [reflexivity | f_equal; assumption]. Qed.

Lemma filter_index_stay (i : Z) (p : Z * Series * (Z * Z)) :
  filter (fun q : Z * option Cell => fst q =? i)
         (map (fun t => (fst (fst p), Some (CDatetime (Timestamp t))))
              (stay_dates (fst (snd p)) (snd (snd p))))
  = if fst (fst p) =? i
    then map (fun t => (fst (fst p), Some (CDatetime (Timestamp t))))
             (stay_dates (fst (snd p)) (snd (snd p)))
    else [].
Proof.
  induction (stay_dates (fst (snd p)) (snd (snd p))) as [| t ts IH]; cbn [map filter fst].
  - destruct (fst (fst p) =? i); reflexivity.
  - rewrite IH. destruct (fst (fst p) =? i); reflexivity.
Qed.

(** X1: when the index labels of the reservations are distinct and the
    arrivals and departures are dates, the records returned under the label
    of a reservation carry exactly the dates of its stay, in order: the days
    from the arrival day up to the day before the departure day, none when
    the departure is not after the arrival. *)
Theorem expand_dates_of_reservation (parse_str : string -> option Datetime) (df : DataFrame)
        (arrival_col departure_col : string) (stays : list (Z * Z))
        (r : Z * Series) (stay : Z * Z) :
  mem arrival_col (columns df) = true ->
  mem departure_col (columns df) = true ->
  Forall2 (reads_as_stay parse_str arrival_col departure_col) (rows df) stays ->
  NoDup (map fst (rows df)) ->
  In (r, stay) (combine (rows df) stays) ->
  exists daily_df,
    snd (expand_reservations_to_daily parse_str df arrival_col departure_col) = Ok daily_df /\
    dates_of_index (fst r) daily_df
    = map (fun t => Some (CDatetime (Timestamp t))) (stay_dates (fst stay) (snd stay)).
Proof.
  intros Hma Hmd Hstays Hnd Hin.
  destruct (expand_midnight_stays _ _ _ _ _ Hma Hmd Hstays) as [daily_df [Hrun Hpairs]].
  exists daily_df. split; [exact Hrun |].
  unfold dates_of_index. rewrite Hpairs.
  assert (Hnd' : NoDup (map (fun p : Z * Series * (Z * Z) => fst (fst p))
                            (combine (rows df) stays))).
  { rewrite <- (map_map fst fst), (Forall2_combine_fst _ _ _ Hstays). exact Hnd. }
  clear -Hnd' Hin. induction (combine (rows df) stays) as [| p ps IH]; [destruct Hin |].
  cbn [flat_map map] in *. rewrite filter_app, map_app, filter_index_stay.
  inversion Hnd' as [| ? ? Hnotin Hnd'']; subst.
  destruct Hin as [-> | Hin].
  - cbn [fst snd]. rewrite Z.eqb_refl, map_map. cbn [snd].
    assert (Hrest : filter (fun q : Z * option Cell => fst q =? fst r)
                      (flat_map (fun p => map (fun t => (fst (fst p), Some (CDatetime (Timestamp t))))
                                              (stay_dates (fst (snd p)) (snd (snd p)))) ps) = []).
    { clear -Hnotin. cbn [fst] in Hnotin. induction ps as [| q qs IH]; [reflexivity |].
      cbn [flat_map]. rewrite filter_app, filter_index_stay.
      destruct (Z.eqb_spec (fst (fst q)) (fst r)) as [Heq | _].
      - exfalso. apply Hnotin. left. exact Heq.
      - apply IH. intros H. apply Hnotin. right. exact H. }
    rewrite Hrest. apply app_nil_r.
  - destruct (Z.eqb_spec (fst (fst p)) (fst r)) as [Heq | _].
    + exfalso. apply Hnotin. rewrite Heq.
      apply (in_map (fun p : Z * Series * (Z * Z) => fst (fst p)) _ _ Hin).
    + cbn [map app]. apply IH; assumption.
Qed.

Lemma expand_dates_of_reservation_witness :
  exists daily_df,
    snd (expand_reservations_to_daily parse_two_dates scenario_reservations
                                      default_arrival_col default_departure_col)
    = Ok daily_df /\
    dates_of_index 0 daily_df
    = map (fun t => Some (CDatetime (Timestamp t))) (stay_dates 19723 19725).
Proof.
  apply (expand_dates_of_reservation
           parse_two_dates scenario_reservations
           default_arrival_col default_departure_col scenario_stays
           (0, [(default_arrival_col, midnight_cell 19723);
                (default_departure_col, midnight_cell 19725)])
           (19723, 19725)).
  - reflexivity.
  - reflexivity.
  - repeat constructor.
  - repeat constructor; simpl; intuition discriminate.
  - left. reflexivity.
Defined.

(** X9: when every reservation departs before it arrives, the call
    returns a frame without rows and without columns, and
    [aggregate_daily_occupancy] on that frame raises KeyError. *)
Theorem expand_reversed_stays (parse_str : string -> option Datetime) (df : DataFrame)
        (arrival_col departure_col : string) (stays : list (Z * Z)) :
  mem arrival_col (columns df) = true ->
  mem departure_col (columns df) = true ->
  Forall2 (reads_as_stay parse_str arrival_col departure_col) (rows df) stays ->
  Forall (fun st => snd st < fst st) stays ->
  snd (expand_reservations_to_daily parse_str df arrival_col departure_col)
  = Ok (DataFrame_of_records []) /\
  (daily_df <- snd (expand_reservations_to_daily parse_str df arrival_col departure_col) ;;
   aggregate_daily_occupancy daily_df) = Raise KeyError.
Proof.
  intros Hma Hmd Hstays Hrev.
  destruct (expand_midnight_stays _ _ _ _ _ Hma Hmd Hstays) as [daily_df [Hrun Hpairs]].
  assert (Hnil : rows daily_df = []).
  { apply (map_eq_nil (fun rec => (fst rec, series_lookup "date" (snd rec)))).
    fold (index_and_date daily_df). rewrite Hpairs.
    clear -Hstays Hrev. revert Hrev.
    induction Hstays as [| r st rs sts _ _ IH]; intros Hrev; [reflexivity |].
    inversion Hrev as [| ? ? Hst Hrest]; subst. cbn [combine flat_map fst snd].
    rewrite (IH Hrest), app_nil_r. unfold stay_dates.
    replace (Z.to_nat (snd st - fst st)) with 0%nat by lia. reflexivity. }
  pose proof Hrun as Hinv. apply expand_Ok_inv in Hinv. destruct Hinv as [recs [_ Hdf]].
  rewrite Hdf in Hnil. cbn [rows DataFrame_of_records] in Hnil.
  rewrite Hnil in Hdf. subst daily_df. rewrite Hrun. split; reflexivity.
Qed.

Lemma expand_reversed_stays_witness :
  snd (expand_reservations_to_daily parse_two_dates reversed_reservation
                                    default_arrival_col default_departure_col)
  = Ok (DataFrame_of_records []) /\
  (daily_df <- snd (expand_reservations_to_daily
                      parse_two_dates reversed_reservation
                      default_arrival_col default_departure_col) ;;
   aggregate_daily_occupancy daily_df) = Raise KeyError.
Proof.
  apply (expand_reversed_stays
           parse_two_dates reversed_reservation
           default_arrival_col default_departure_col
           [(day_2024_01_03, day_2024_01_01)]).
  - reflexivity.
  - reflexivity.
  - repeat constructor.
  - repeat constructor.
Defined.

(** ** The columns of the returned frame *)

Lemma labels_setitem (s : Series) (col : string) (v : Cell) :
  labels (series_setitem s col v)
  = if mem col (labels s) then labels s else (labels s ++ [col])%list.
Proof.
  unfold labels, mem. induction s as [| [c w] rest IH]; cbn [series_setitem map fst existsb].
  - reflexivity.
  - destruct (String.eqb col c) eqn:E; cbn [orb map fst].
    + reflexivity.
    + rewrite IH. destruct (existsb (String.eqb col) (map fst rest)); reflexivity.
Qed.

Lemma set_cells_labels (rs : list (Z * Series)) (col : string) (vals : list Cell)
      (L : list string) :
  mem col L = true ->
  Forall (fun r => labels (snd r) = L) rs ->
  Forall (fun r => labels (snd r) = L) (set_cells rs col vals).
Proof.
  intros Hm H. revert vals. induction H as [| [i s] rest Hs Hrest IH]; intros [| v vals];
    cbn [set_cells]; try (constructor; assumption).
  constructor; [| apply IH]. cbn [snd] in *. rewrite labels_setitem, Hs, Hm. reflexivity.
Qed.

Lemma expand_frame_labels (parse_str : string -> option Datetime) (df : DataFrame)
      (arrival_col departure_col : string) :
  Forall (fun r => labels (snd r) = columns df) (rows df) ->
  Forall (fun r => labels (snd r) = columns df)
         (rows (fst (expand_reservations_to_daily parse_str df arrival_col departure_col))).
Proof.
  intros Hwf. unfold expand_reservations_to_daily.
  destruct (c <- getitem df arrival_col ;; to_datetime parse_str c)
    as [arrivals | e] eqn:E1; cbn [fst]; [| exact Hwf].
  apply bind_Ok_inv in E1. destruct E1 as [raw1 [Hget1 _]].
  apply getitem_Ok_inv in Hget1. destruct Hget1 as [Hma _].
  pose proof (set_cells_labels _ arrival_col arrivals _ Hma Hwf) as Hwf1.
  destruct (c <- getitem (setitem df arrival_col arrivals) departure_col ;;
            to_datetime parse_str c) as [departures | e] eqn:E2; cbn [fst rows setitem];
    [| exact Hwf1].
  apply bind_Ok_inv in E2. destruct E2 as [raw2 [Hget2 _]].
  apply getitem_Ok_inv in Hget2. destruct Hget2 as [Hmd _].
  rewrite (setitem_columns _ _ _ Hma) in Hmd.
  apply set_cells_labels; assumption.
Qed.

Lemma add_labels_fresh (acc ls : list string) :
  NoDup (acc ++ ls) -> add_labels acc ls = (acc ++ ls)%list.
Proof.
  unfold add_labels. revert acc. induction ls as [| l rest IH]; intros acc Hnd;
    cbn [fold_left].
  - rewrite app_nil_r. reflexivity.
  - assert (Hnot : mem l acc = false).
    { apply not_true_iff_false. intros Hm. apply mem_In in Hm.
      apply NoDup_remove_2 in Hnd. apply Hnd. apply in_or_app. left. exact Hm. }
    rewrite Hnot, IH; rewrite <- app_assoc; [reflexivity | exact Hnd].
Qed.

Lemma add_labels_known (acc ls : list string) :
  (forall l, In l ls -> In l acc) -> add_labels acc ls = acc.
Proof.
  unfold add_labels. induction ls as [| l rest IH]; intros Hsub; cbn [fold_left].
  - reflexivity.
  - assert (Hm : mem l acc = true) by (apply mem_In, Hsub; left; reflexivity).
    rewrite Hm. apply IH. intros l' Hl'. apply Hsub. right. exact Hl'.
Qed.

Lemma DataFrame_of_records_uniform (records : list (Z * Series)) (L : list string) :
  records <> [] -> NoDup L ->
  Forall (fun rec => labels (snd rec) = L) records ->
  columns (DataFrame_of_records records) = L.
Proof.
  intros Hne Hnd Hall. destruct records as [| rec rest]; [contradiction |].
  inversion Hall as [| ? ? Hrec Hrest]; subst.
  unfold DataFrame_of_records. cbn [columns fold_left].
  rewrite add_labels_fresh by exact Hnd. cbn [app].
  clear -Hrest. induction Hrest as [| r rs Hr _ IH]; cbn [fold_left]; [reflexivity |].
  rewrite add_labels_known; [exact IH |]. rewrite Hr. tauto.
Qed.

Lemma date_column_after_NoDup (cols : list string) :
  NoDup cols -> NoDup (date_column_after cols).
Proof.
  intros Hnd. unfold date_column_after. destruct (mem "date" cols) eqn:E; [exact Hnd |].
  apply NoDup_app; [exact Hnd | repeat constructor; intros [] |].
  intros l Hl [<- | []]. apply mem_In in Hl. rewrite Hl in E. discriminate.
Qed.

(** X4: for a frame with distinct column names whose rows carry exactly
    those columns, a returned frame with at least one record has the
    columns of the input followed by 'date', or the columns of the input
    unchanged when 'date' was already one of them. *)
Theorem expand_columns (parse_str : string -> option Datetime) (df : DataFrame)
        (arrival_col departure_col : string) (daily_df : DataFrame) :
  NoDup (columns df) ->
  Forall (fun r => labels (snd r) = columns df) (rows df) ->
  snd (expand_reservations_to_daily parse_str df arrival_col departure_col) = Ok daily_df ->
  rows daily_df <> [] ->
  columns daily_df = date_column_after (columns df).
Proof.
  intros Hnd Hwf Hrun Hne.
  pose proof (expand_frame_labels parse_str df arrival_col departure_col Hwf) as Hwf2.
  apply expand_Ok_inv in Hrun. destruct Hrun as [recs [Hrecs ->]].
  cbn [rows DataFrame_of_records] in Hne.
  apply DataFrame_of_records_uniform;
    [exact Hne | apply date_column_after_NoDup; exact Hnd |].
  apply mapM_Forall2 in Hrecs. clear Hne.
  induction Hrecs as [| row recs_row rows' recs' Hrow _ IH]; cbn [concat]; [constructor |].
  inversion Hwf2 as [| ? ? Hl Hrest]; subst.
  apply Forall_app. split; [| apply IH; exact Hrest].
  destruct row as [idx s]. unfold expand_row in Hrow.
  apply bind_Ok_inv in Hrow. destruct Hrow as [start [_ Hrow]].
  apply bind_Ok_inv in Hrow. destruct Hrow as [end_ [_ Hrow]].
  apply bind_Ok_inv in Hrow. destruct Hrow as [dates [_ Hrow]].
  injection Hrow as <-. unfold daily_records_of_row. apply Forall_map, Forall_forall.
  intros t _. cbn [snd] in *. rewrite labels_setitem, Hl. reflexivity.
Qed.

Lemma expand_columns_witness :
  columns scenario_daily = date_column_after (columns scenario_reservations).
Proof.
  apply (expand_columns
           parse_two_dates scenario_reservations
           default_arrival_col default_departure_col scenario_daily).
  - repeat constructor; simpl; intuition discriminate.
  - repeat constructor.
  - reflexivity.
  - discriminate.
Defined.

(** ** [aggregate_daily_occupancy]: order, index and missing dates *)

Lemma size_at_cons (t k n : Z) (rest : list (Z * Z)) :
  size_at t ((k, n) :: rest) = if k =? t then n + size_at t rest else size_at t rest.
Proof. reflexivity. Qed.

Lemma size_at_absent (t : Z) (sizes : list (Z * Z)) :
  ~ In t (map fst sizes) -> size_at t sizes = 0.
Proof.
  induction sizes as [| [k n] rest IH]; intros Hnot; [reflexivity |].
  rewrite size_at_cons. destruct (Z.eqb_spec k t) as [-> | _].
  - exfalso. apply Hnot. left. reflexivity.
  - apply IH. intros H. apply Hnot. right. exact H.
Qed.

Lemma count_key_positive (k : Z) (sizes : list (Z * Z)) :
  Forall (fun p => 0 < snd p) sizes -> Forall (fun p => 0 < snd p) (count_key k sizes).
Proof.
  induction sizes as [| [k' n] rest IH]; cbn [count_key]; intros H.
  - repeat constructor.
  - inversion H as [| ? ? Hn Hrest]; subst. cbn [snd] in Hn.
    destruct (k ?= k'); repeat constructor; cbn [snd]; try lia; auto.
Qed.

Lemma groupby_size_positive (keys : list Cell) :
  Forall (fun p => 0 < snd p) (groupby_size keys).
Proof.
  unfold groupby_size.
  enough (H : forall sizes, Forall (fun p => 0 < snd p) sizes ->
              Forall (fun p => 0 < snd p)
                     (fold_left (fun sizes c => match date_key c with
                                                | Some k => count_key k sizes
                                                | None => sizes
                                                end) keys sizes))
    by (apply H; constructor).
  induction keys as [| c rest IH]; intros sizes Hs; cbn [fold_left]; [exact Hs |].
  apply IH. destruct (date_key c); [apply count_key_positive |]; exact Hs.
Qed.

Lemma sizes_ext (l1 l2 : list (Z * Z)) :
  Sorted Z.lt (map fst l1) -> Sorted Z.lt (map fst l2) ->
  Forall (fun p => 0 < snd p) l1 -> Forall (fun p => 0 < snd p) l2 ->
  (forall t, size_at t l1 = size_at t l2) ->
  l1 = l2.
Proof.
  revert l2. induction l1 as [| [k1 n1] r1 IH]; intros [| [k2 n2] r2] Hs1 Hs2 Hp1 Hp2 Hext.
  - reflexivity.
  - exfalso. specialize (Hext k2). rewrite size_at_cons, Z.eqb_refl in Hext.
    inversion Hp2 as [| ? ? Hn _]; subst. cbn [snd] in Hn.
    rewrite (size_at_absent k2 r2) in Hext.
    + cbn in Hext. lia.
    + apply Sorted_lt_NoDup in Hs2. inversion Hs2; assumption.
  - exfalso. specialize (Hext k1). rewrite size_at_cons, Z.eqb_refl in Hext.
    inversion Hp1 as [| ? ? Hn _]; subst. cbn [snd] in Hn.
    rewrite (size_at_absent k1 r1) in Hext.
    + cbn in Hext. lia.
    + apply Sorted_lt_NoDup in Hs1. inversion Hs1; assumption.
  - pose proof (Sorted_lt_NoDup _ Hs1) as Hnd1. pose proof (Sorted_lt_NoDup _ Hs2) as Hnd2.
    cbn [map fst] in Hnd1, Hnd2.
    inversion Hnd1 as [| ? ? Hnot1 _]; subst. inversion Hnd2 as [| ? ? Hnot2 _]; subst.
    pose proof (Sorted_StronglySorted (fun x y z => Z.lt_trans x y z) Hs1) as Hss1.
    pose proof (Sorted_StronglySorted (fun x y z => Z.lt_trans x y z) Hs2) as Hss2.
    cbn [map fst] in Hss1, Hss2.
    inversion Hss1 as [| ? ? _ Hall1]; subst. inversion Hss2 as [| ? ? _ Hall2]; subst.
    rewrite Forall_forall in Hall1, Hall2.
    inversion Hp1 as [| ? ? Hn1 Hp1']; subst. inversion Hp2 as [| ? ? Hn2 Hp2']; subst.
    cbn [snd] in Hn1, Hn2.
    inversion Hs1 as [| ? ? Hs1' _]; subst. inversion Hs2 as [| ? ? Hs2' _]; subst.
    assert (Hk : k1 = k2).
    { destruct (Z.lt_trichotomy k1 k2) as [Hlt | [Heq | Hgt]]; [exfalso | exact Heq | exfalso].
      - pose proof (Hext k1) as H. rewrite !size_at_cons, Z.eqb_refl in H.
        rewrite (size_at_absent k1 r1 Hnot1) in H.
        destruct (Z.eqb_spec k2 k1); [lia |].
        rewrite size_at_absent in H; [lia |].
        intros Hin. specialize (Hall2 _ Hin). lia.
      - pose proof (Hext k2) as H. rewrite !size_at_cons, Z.eqb_refl in H.
        rewrite (size_at_absent k2 r2 Hnot2) in H.
        destruct (Z.eqb_spec k1 k2); [lia |].
        rewrite size_at_absent in H; [lia |].
        intros Hin. specialize (Hall1 _ Hin). lia. }
    subst k2.
    assert (Hn : n1 = n2).
    { pose proof (Hext k1) as H. rewrite !size_at_cons, Z.eqb_refl in H.
      rewrite (size_at_absent k1 r1 Hnot1), (size_at_absent k1 r2 Hnot2) in H. lia. }
    subst n2. f_equal. apply IH; try assumption.
    intros t. pose proof (Hext t) as H. rewrite !size_at_cons in H.
    destruct (Z.eqb_spec k1 t) as [Heq | _]; [| exact H].
    rewrite <- Heq.
    rewrite (size_at_absent k1 r1 Hnot1), (size_at_absent k1 r2 Hnot2). reflexivity.
Qed.

Lemma groupby_size_Permutation (keys1 keys2 : list Cell) :
  Permutation keys1 keys2 -> groupby_size keys1 = groupby_size keys2.
Proof.
  intros Hperm. apply sizes_ext;
    try apply groupby_size_Sorted; try apply groupby_size_positive.
  intros t. rewrite !size_at_groupby_size. f_equal.
  apply Permutation_count_occ. unfold keyed. apply Permutation_flat_map. exact Hperm.
Qed.

(** X12: the result does not depend on the order of the daily records:
    two frames with the same columns and the same rows in any order give
    the same occupancy table, or the same exception. *)
Theorem aggregate_row_order (df1 df2 : DataFrame) :
  columns df1 = columns df2 ->
  Permutation (rows df1) (rows df2) ->
  aggregate_daily_occupancy df1 = aggregate_daily_occupancy df2.
Proof.
  intros Hcols Hperm. unfold aggregate_daily_occupancy, getitem. rewrite Hcols.
  destruct (mem "date" (columns df2)); [| reflexivity]. cbn [Py.bind].
  rewrite (groupby_size_Permutation _ (map (fun r => cell_at "date" (snd r)) (rows df2)));
    [reflexivity |].
  apply Permutation_map. exact Hperm.
Qed.

Lemma aggregate_row_order_witness :
  aggregate_daily_occupancy scenario_daily
  = aggregate_daily_occupancy scenario_daily_swapped.
Proof.
  apply (aggregate_row_order scenario_daily scenario_daily_swapped).
  - reflexivity.
  - apply perm_swap.
Defined.

(** X13: the returned table is indexed 0, 1, 2, ... in row order,
    whatever the index labels of the daily records were. *)
Theorem aggregate_fresh_index (daily_df : DataFrame) (occ : list OccupancyRow) :
  aggregate_daily_occupancy daily_df = Ok occ ->
  map occ_index occ = map Z.of_nat (seq 0 (length occ)).
Proof.
  intros H. apply aggregate_Ok_inv in H. destruct H as [_ ->].
  unfold reset_index. rewrite length_map, length_combine, length_seq, Nat.min_id, map_map.
  cbn [occ_index].
  generalize (groupby_size (map (fun r => cell_at "date" (snd r)) (rows daily_df))) as sizes.
  intros sizes. generalize 0%nat.
  induction sizes as [| p rest IH]; intros n; cbn [length seq combine map fst];
    [reflexivity |].
  f_equal. apply IH.
Qed.

Lemma aggregate_fresh_index_witness :
  map occ_index scenario_occupancy
  = map Z.of_nat (seq 0 (length scenario_occupancy)).
Proof.
  apply (aggregate_fresh_index scenario_daily scenario_occupancy).
  reflexivity.
Defined.

Lemma dated_records_length (daily_df : DataFrame) :
  datetime_or_missing daily_df ->
  length (record_dates daily_df) = length (dated_records daily_df).
Proof.
  unfold datetime_or_missing, record_dates, dated_records.
  induction (rows daily_df) as [| r rs IH]; intros H; [reflexivity |].
  inversion H as [| ? ? Hr Hrs]; subst. cbn [flat_map filter].
  rewrite length_app, (IH Hrs).
  destruct (cell_at "date" (snd r)) as [| n | s | [| t]]; try contradiction; reflexivity.
Qed.

(** X11: on a 'date' column of datetimes, records whose date is missing
    (None or NaT) are left out: the occupancies add up to the number of
    records that have a date, and no returned row has an occupancy below
    one. *)
Theorem aggregate_skips_missing_dates (daily_df : DataFrame) (occ : list OccupancyRow) :
  datetime_or_missing daily_df ->
  aggregate_daily_occupancy daily_df = Ok occ ->
  total (map occupancy occ) = Z.of_nat (length (dated_records daily_df)) /\
  Forall (fun r => 1 <= occupancy r) occ.
Proof.
  intros Hcol H. apply aggregate_Ok_inv in H. destruct H as [_ ->]. split.
  - rewrite reset_index_occupancy, groupby_size_total, keyed_column.
    rewrite (dated_records_length _ Hcol). reflexivity.
  - assert (H : Forall (fun n => 1 <= n)
                       (map occupancy
                            (reset_index (groupby_size
                               (map (fun r => cell_at "date" (snd r)) (rows daily_df)))))).
    { rewrite reset_index_occupancy. apply Forall_map.
      eapply Forall_impl; [| apply groupby_size_positive]. intros p Hp. cbv beta in Hp. lia. }
    rewrite Forall_map in H. exact H.
Qed.

Lemma aggregate_skips_missing_dates_witness :
  total (map occupancy
             [ {| occ_index := 0; date := 19723 * day_ns; occupancy := 2 |} ])
  = Z.of_nat (length (dated_records daily_with_missing_date)) /\
  Forall (fun r => 1 <= occupancy r)
         [ {| occ_index := 0; date := 19723 * day_ns; occupancy := 2 |} ].
Proof.
  apply (aggregate_skips_missing_dates daily_with_missing_date).
  - repeat constructor.
  - reflexivity.
Defined.

(** ** Expansion followed by aggregation *)

Lemma expansion_has_date_column (parse_str : string -> option Datetime) (df : DataFrame)
      (arrival_col departure_col : string) (daily_df : DataFrame) :
  snd (expand_reservations_to_daily parse_str df arrival_col departure_col) = Ok daily_df ->
  rows daily_df <> [] ->
  mem "date" (columns daily_df) = true.
Proof.
  intros Hrun Hne. apply expand_Ok_inv in Hrun.
  destruct Hrun as [recs [Hrecs ->]]. cbn [rows DataFrame_of_records] in Hne.
  assert (Hdate : Forall (fun rec => In "date"%string (labels (snd rec))) (concat recs)).
  { apply mapM_Forall2 in Hrecs. clear -Hrecs.
    induction Hrecs as [| r rs rows' recs' Hr _ IH]; cbn [concat].
    - constructor.
    - apply Forall_app. split; [| exact IH].
      apply (expand_row_records_have_date _ _ _ _ Hr). }
  destruct (concat recs) as [| rec rest] eqn:E; [contradiction |].
  inversion Hdate as [| ? ? Hrec _]; subst.
  apply mem_In. apply (DataFrame_of_records_columns rec rest _ Hrec).
Qed.

Lemma count_occ_midnights (a day : Z) (n : nat) :
  count_occ Z.eq_dec (midnights a n) (day * day_ns)
  = if (a <=? day) && (day <? a + Z.of_nat n) then 1%nat else 0%nat.
Proof.
  induction n as [| n IH].
  - cbn [midnights seq map count_occ].
    destruct (Z.leb_spec a day), (Z.ltb_spec day (a + Z.of_nat 0)); cbn; try reflexivity; lia.
  - rewrite midnights_snoc, count_occ_app, IH. cbn [count_occ].
    destruct (Z.eq_dec ((a + Z.of_nat n) * day_ns) (day * day_ns)) as [Heq | Hne].
    + assert (day = a + Z.of_nat n) by (unfold day_ns in Heq; lia). subst day.
      destruct (Z.leb_spec a (a + Z.of_nat n)), (Z.ltb_spec (a + Z.of_nat n) (a + Z.of_nat n)),
        (Z.ltb_spec (a + Z.of_nat n) (a + Z.of_nat (S n))); cbn; try reflexivity; lia.
    + assert (day <> a + Z.of_nat n) by (intros ->; apply Hne; reflexivity).
      destruct (Z.leb_spec a day), (Z.ltb_spec day (a + Z.of_nat n)),
        (Z.ltb_spec day (a + Z.of_nat (S n))); cbn; try reflexivity; lia.
Qed.

Lemma midnights_multiple (a t : Z) (n : nat) :
  In t (midnights a n) -> exists day, t = day * day_ns.
Proof.
  unfold midnights. intros H. apply in_map_iff in H. destruct H as [k [<- _]].
  eexists. reflexivity.
Qed.

Lemma count_occ_stays (stays : list (Z * Z)) (day : Z) :
  count_occ Z.eq_dec (flat_map (fun st => stay_dates (fst st) (snd st)) stays) (day * day_ns)
  = staying stays day.
Proof.
  unfold staying. induction stays as [| [a d] rest IH]; [reflexivity |].
  cbn [flat_map filter fst snd] in *. rewrite count_occ_app, IH.
  unfold stay_dates. rewrite count_occ_midnights.
  destruct (Z.leb_spec a day), (Z.ltb_spec day (a + Z.of_nat (Z.to_nat (d - a)))),
    (Z.ltb_spec day d); cbn [andb length Nat.add]; try reflexivity; lia.
Qed.

Lemma record_dates_of_lookups (daily_df : DataFrame) (ts : list Z) :
  map (fun rec => series_lookup "date" (snd rec)) (rows daily_df)
  = map (fun t => Some (CDatetime (Timestamp t))) ts ->
  record_dates daily_df = ts.
Proof.
  unfold record_dates. generalize (rows daily_df) as rs. intros rs. revert ts.
  induction rs as [| r rest IH]; intros [| t ts] H; cbn [map] in H; try discriminate.
  - reflexivity.
  - injection H as Hr Hrest. cbn [flat_map]. unfold cell_at at 1. rewrite Hr.
    cbn [date_key app]. f_equal. apply IH. exact Hrest.
Qed.

Lemma expansion_record_dates (daily_df : DataFrame) (rs : list (Z * Series))
      (stays : list (Z * Z)) :
  length rs = length stays ->
  index_and_date daily_df
  = flat_map (fun p : Z * Series * (Z * Z) =>
                map (fun t => (fst (fst p), Some (CDatetime (Timestamp t))))
                    (stay_dates (fst (snd p)) (snd (snd p))))
             (combine rs stays) ->
  record_dates daily_df = flat_map (fun st => stay_dates (fst st) (snd st)) stays.
Proof.
  intros Hlen Hpairs. apply record_dates_of_lookups.
  apply (f_equal (map snd)) in Hpairs. unfold index_and_date in Hpairs.
  rewrite map_map in Hpairs. cbn [snd] in Hpairs. rewrite Hpairs.
  clear -Hlen. revert stays Hlen.
  induction rs as [| r rest IH]; intros [| st stays] Hlen; try discriminate; [reflexivity |].
  cbn [combine flat_map fst snd]. rewrite !map_app, map_map. cbn [snd].
  f_equal. apply IH. cbn [length] in Hlen. lia.
Qed.

(** X15: the two functions composed, for reservations whose arrivals and
    departures are dates (midnights, no time of day) and of which at least
    one departs on a later day than it arrives.  Expansion followed by
    aggregation returns a table that has a row for a day exactly when some
    reservation covers that night (arrival <= day < departure), and the
    occupancy of the row is the number of such reservations. *)
Theorem pipeline_occupancy (parse_str : string -> option Datetime) (df : DataFrame)
        (arrival_col departure_col : string) (stays : list (Z * Z)) :
  mem arrival_col (columns df) = true ->
  mem departure_col (columns df) = true ->
  Forall2 (reads_as_stay parse_str arrival_col departure_col) (rows df) stays ->
  Exists (fun st => fst st < snd st) stays ->
  exists daily_df occ,
    snd (expand_reservations_to_daily parse_str df arrival_col departure_col) = Ok daily_df /\
    aggregate_daily_occupancy daily_df = Ok occ /\
    (forall day, In (day * day_ns) (map date occ) <-> (0 < staying stays day)%nat) /\
    Forall (fun r => exists day,
                date r = day * day_ns /\ occupancy r = Z.of_nat (staying stays day)) occ.
Proof.
  intros Hma Hmd Hstays Hover.
  destruct (expand_midnight_stays _ _ _ _ _ Hma Hmd Hstays) as [daily_df [Hrun Hpairs]].
  pose proof (expansion_record_dates _ _ _ (Forall2_length Hstays) Hpairs) as Hdates.
  assert (Hrows : rows daily_df <> []).
  { intros Hnil. unfold record_dates in Hdates. rewrite Hnil in Hdates. cbn [flat_map] in Hdates.
    apply Exists_exists in Hover. destruct Hover as [[a d] [Hin Hlt]]. cbn [fst snd] in Hlt.
    assert (Hday : In (a * day_ns) (flat_map (fun st => stay_dates (fst st) (snd st)) stays)).
    { apply in_flat_map. exists (a, d). split; [exact Hin |].
      cbn [fst snd]. unfold stay_dates.
      destruct (Z.to_nat (d - a)) as [| n] eqn:En; [lia |].
      unfold midnights. cbn [seq map]. left. f_equal. lia. }
    rewrite <- Hdates in Hday. destruct Hday. }
  pose proof (expansion_has_date_column _ _ _ _ _ Hrun Hrows) as Hcol.
  set (keys := map (fun r => cell_at "date" (snd r)) (rows daily_df)).
  assert (Hagg : aggregate_daily_occupancy daily_df = Ok (reset_index (groupby_size keys))).
  { unfold aggregate_daily_occupancy, getitem. rewrite Hcol. cbn [Py.bind]. fold keys.
    rewrite sort_values_date_sorted; [reflexivity |].
    rewrite reset_index_date. apply groupby_size_Sorted. }
  exists daily_df, (reset_index (groupby_size keys)).
  split; [exact Hrun |]. split; [exact Hagg |].
  assert (Hcount : forall day,
             size_at (day * day_ns) (groupby_size keys) = Z.of_nat (staying stays day)).
  { intros day. rewrite size_at_groupby_size. unfold keys. rewrite keyed_column, Hdates.
    rewrite count_occ_stays. reflexivity. }
  split.
  - intros day. rewrite reset_index_date, groupby_size_In. unfold keys.
    rewrite keyed_column, Hdates.
    rewrite (count_occ_In Z.eq_dec), count_occ_stays. lia.
  - apply Forall_forall. intros r Hin.
    unfold reset_index in Hin. apply in_map_iff in Hin.
    destruct Hin as [[i [t n]] [<- Hin]]. cbn [date occupancy fst snd].
    apply in_combine_r in Hin.
    assert (Ht : In t (flat_map (fun st => stay_dates (fst st) (snd st)) stays)).
    { rewrite <- Hdates, <- keyed_column. fold keys. apply groupby_size_In.
      apply (in_map fst _ _ Hin). }
    apply in_flat_map in Ht. destruct Ht as [[a d] [Hst Ht]]. cbn [fst snd] in Ht.
    unfold stay_dates in Ht.
    destruct (midnights_multiple _ _ _ Ht) as [day ->].
    exists day. split; [reflexivity |].
    rewrite <- Hcount. symmetry. apply size_at_entry; [| exact Hin].
    apply Sorted_lt_NoDup, groupby_size_Sorted.
Qed.

Lemma pipeline_occupancy_witness :
  exists daily_df occ,
    snd (expand_reservations_to_daily parse_two_dates same_day_and_overnight
                                      default_arrival_col default_departure_col)
    = Ok daily_df /\
    aggregate_daily_occupancy daily_df = Ok occ /\
    (forall day, In (day * day_ns) (map date occ)
                 <-> (0 < staying same_day_and_overnight_stays day)%nat) /\
    Forall (fun r => exists day,
                date r = day * day_ns /\
                occupancy r = Z.of_nat (staying same_day_and_overnight_stays day)) occ.
Proof.
  apply (pipeline_occupancy
           parse_two_dates same_day_and_overnight
           default_arrival_col default_departure_col
           same_day_and_overnight_stays).
  - reflexivity.
  - reflexivity.
  - repeat constructor.
  - apply Exists_cons_tl, Exists_cons_hd.
    unfold day_2024_01_01, day_2024_01_03. simpl. lia.
Defined.

(** ** Signs of binary64 results *)

Lemma binary_round_aux_abs (sx : bool) (m e : Z) (l : location) :
  0 <= m -> nonneg_sf (SFabs (binary_round_aux prec emax sx m e l)).
Proof.
  intros H. unfold binary_round_aux.
  pose proof (shr_fexp_nonneg m e l H) as H1.
  destruct (shr_fexp prec emax m e l) as [mrs1 e1]. cbn [fst] in H1.
  pose proof (shr_fexp_nonneg _ e1 loc_Exact
                (round_nearest_even_nonneg _ (loc_of_shr_record mrs1) H1)) as H2.
  destruct (shr_fexp prec emax (round_nearest_even (shr_m mrs1) (loc_of_shr_record mrs1))
                     e1 loc_Exact) as [mrs2 e2].
  cbn [fst] in H2.
  destruct (shr_m mrs2) as [| p | p]; [exact I | | lia].
  destruct (e2 <=? emax - prec); exact I.
Qed.

Lemma binary_normalize_abs (z e : Z) :
  nonneg_sf (SFabs (binary_normalize prec emax z e false)).
Proof.
  destruct z as [| p | p]; cbn [binary_normalize]; [exact I | |];
    unfold binary_round; destruct (shl_align _ _ _) as [mz ez];
    apply binary_round_aux_abs; lia.
Qed.

Lemma SF64sub_abs (x y : spec_float) :
  plain_sf x -> plain_sf y -> nonneg_sf (SFabs (SF64sub x y)).
Proof.
  destruct x as [sx | sx | | sx mx ex]; try contradiction;
    destruct y as [sy | sy | | sy my ey]; try contradiction; intros _ _.
  - destruct sx, sy; exact I.
  - exact I.
  - exact I.
  - unfold SF64sub, SFsub. cbv zeta. apply binary_normalize_abs.
Qed.

Lemma nonneg_abs_not_nan (x : spec_float) : nonneg_sf (SFabs x) -> x <> S754_nan.
Proof. destruct x; cbn; intros H; try discriminate. contradiction. Qed.

Lemma SF64mul_square (x : spec_float) : x <> S754_nan -> nonneg_sf (SF64mul x x).
Proof.
  destruct x as [s | s | | s m e]; intros H; try contradiction.
  - destruct s; exact I.
  - destruct s; exact I.
  - unfold SF64mul, SFmul. replace (xorb s s) with false by (destruct s; reflexivity).
    apply binary_round_aux_nonneg. lia.
Qed.

Lemma SF64mul_nonneg_finite (x : spec_float) (m : positive) (e : Z) :
  nonneg_sf x -> nonneg_sf (SF64mul x (S754_finite false m e)).
Proof.
  destruct x as [[|] | [|] | | [|] mx ex]; try contradiction; intros _; try exact I.
  unfold SF64mul, SFmul. cbn [xorb]. apply binary_round_aux_nonneg. lia.
Qed.

Lemma SF64div_nonneg_finite (x : spec_float) (m : positive) (e : Z) :
  nonneg_sf x -> nonneg_sf (SF64div x (S754_finite false m e)).
Proof.
  destruct x as [[|] | [|] | | [|] mx ex]; try contradiction; intros _; try exact I.
  unfold SF64div, SFdiv, SFdiv_core_binary. cbv zeta.
  match goal with
  | |- context [Z.div_eucl ?a ?b] =>
      assert (Ha : 0 <= a);
      [| pose proof (Z.div_pos a b Ha ltac:(lia)) as Hq; unfold Z.div in Hq;
         destruct (Z.div_eucl a b) as [q r] ]
  end.
  - match goal with
    | |- 0 <= match ?s with _ => _ end => destruct s; try lia
    end.
    apply Z.shiftl_nonneg. lia.
  - cbn [xorb]. apply binary_round_aux_nonneg. exact Hq.
Qed.

Lemma SF64sqrt_nonneg (x : spec_float) : nonneg_sf x -> nonneg_sf (SF64sqrt x).
Proof.
  destruct x as [[|] | [|] | | [|] mx ex]; try contradiction; intros _; try exact I.
  unfold SF64sqrt, SFsqrt, SFsqrt_core_binary. cbv zeta.
  match goal with
  | |- context [Z.sqrtrem ?a] =>
      pose proof (Z.sqrt_nonneg a) as Hq; rewrite <- Z.sqrtrem_sqrt in Hq;
      destruct (Z.sqrtrem a) as [q r]
  end.
  cbn [fst] in Hq. apply binary_round_aux_nonneg. exact Hq.
Qed.

Lemma nonneg_leb (x : float) : nonneg_sf (Prim2SF x) -> (0 <=? x)%float = true.
Proof.
  rewrite leb_spec. change (Prim2SF 0) with (S754_zero false).
  destruct (Prim2SF x) as [[|] | [|] | | [|] m e]; try contradiction; reflexivity.
Qed.

(** ** The ranges of the metrics *)

Lemma is_finite_plain (x : float) : is_finite x = true -> plain_sf (Prim2SF x).
Proof.
  intros H. destruct (is_finite_cases x H) as [[s E] | [s [m [e E]]]]; rewrite E; exact I.
Qed.

Lemma np_average_nonneg (xs : FloatSeries) :
  xs <> [] -> Z.of_nat (length xs) < 2 ^ 63 ->
  Forall (fun v => nonneg_sf (Prim2SF v)) xs ->
  nonneg_sf (Prim2SF (np_average xs)).
Proof.
  intros Hne Hlen Hxs. unfold np_average.
  destruct (float_of_nat_finite (length xs)) as [m [e E]];
    [destruct xs; [contradiction | cbn; lia] | exact Hlen |].
  rewrite div_spec, E. apply SF64div_nonneg_finite.
  unfold np_sum. apply (proj1 (fold_add_nonneg xs 0%float I Hxs)).
Qed.

Lemma series_mean_nonneg_or_nan (ts : FloatSeries) :
  Z.of_nat (length ts) < 2 ^ 63 ->
  Forall (fun t => Prim2SF t = S754_nan \/ nonneg_sf (Prim2SF t)) ts ->
  series_mean ts = nan \/ nonneg_sf (Prim2SF (series_mean ts)).
Proof.
  intros Hlen Hts. unfold series_mean.
  set (kept := filter (fun x => negb (is_nan x)) ts).
  assert (Hbound : (length kept <= length ts)%nat) by apply filter_length_le.
  destruct (Nat.eqb_spec (length kept) 0) as [H0 | Hpos]; [left; reflexivity | right].
  destruct (float_of_nat_finite (length kept)) as [m [e E]]; [lia | lia |].
  rewrite div_spec, E. apply SF64div_nonneg_finite.
  unfold np_sum. apply fold_add_nonneg; [exact I |].
  apply Forall_map. eapply Forall_impl; [| exact Hts].
  intros t [Hnan | Hnn]; cbv beta.
  - apply is_nan_spec in Hnan. rewrite Hnan. exact I.
  - destruct (is_nan t); [exact I | exact Hnn].
Qed.

Lemma combine_Forall {A B : Type} (P : A -> Prop) (Q : B -> Prop) (l : list A) (l' : list B) :
  Forall P l -> Forall Q l' -> Forall (fun p => P (fst p) /\ Q (snd p)) (combine l l').
Proof.
  intros Hl. revert l'. induction Hl as [| x l Hx _ IH]; intros l' Hl'; [constructor |].
  destruct Hl' as [| y l' Hy Hl']; [constructor |].
  cbn [combine]. constructor; [split; assumption | apply IH; exact Hl'].
Qed.

Lemma forallb_finite_Forall (xs : FloatSeries) :
  forallb is_finite xs = true -> Forall (fun v => is_finite v = true) xs.
Proof. intros H. apply Forall_forall. apply forallb_forall. exact H. Qed.

(** X17: whenever metrics are returned, MAE and RMSE are numbers greater
    than or equal to zero (possibly infinite, never NaN), and MAPE is
    greater than or equal to zero or NaN. *)
Theorem evaluate_model_ranges (actual predicted : FloatSeries) (metrics : EvaluationMetrics) :
  evaluate_model actual predicted = Ok metrics ->
  Z.of_nat (length actual) < 2 ^ 63 ->
  (0 <=? MAE metrics)%float = true /\
  (0 <=? RMSE metrics)%float = true /\
  (is_nan (MAPE metrics) = true \/ (0 <=? MAPE metrics)%float = true).
Proof.
  intros Hrun Hlen. unfold evaluate_model, mean_absolute_error, mean_squared_error in Hrun.
  destruct (check_reg_targets actual predicted) as [[] | e] eqn:Hcheck; [| discriminate].
  cbn [Py.bind] in Hrun. injection Hrun as <-. cbn [MAE RMSE MAPE].
  destruct (check_reg_targets_Ok_inv _ _ Hcheck) as [Hlens [Hne [Hfa Hfp]]].
  apply forallb_finite_Forall in Hfa, Hfp.
  assert (Hlen_pa : length (combine predicted actual) = length actual)
    by (rewrite length_combine; lia).
  assert (Hlen_ap : length (combine actual predicted) = length actual)
    by (rewrite length_combine; lia).
  assert (Hpos : (0 < length actual)%nat) by (destruct actual; [contradiction | cbn; lia]).
  split; [| split].
  - apply nonneg_leb, np_average_nonneg.
    + intros H. apply (f_equal (@length _)) in H. unfold map2 in H.
      rewrite !length_map, Hlen_pa in H. cbn in H. lia.
    + unfold map2. rewrite !length_map, Hlen_pa. exact Hlen.
    + unfold map2. rewrite map_map. apply Forall_map.
      eapply Forall_impl; [| apply (combine_Forall _ _ _ _ Hfp Hfa)].
      intros [p a] [Hp Ha]. cbn [fst snd] in *. rewrite abs_spec, sub_spec.
      apply SF64sub_abs; apply is_finite_plain; assumption.
  - apply nonneg_leb. rewrite sqrt_spec. apply SF64sqrt_nonneg, np_average_nonneg.
    + intros H. apply (f_equal (@length _)) in H. unfold map2 in H.
      rewrite !length_map, Hlen_ap in H. cbn in H. lia.
    + unfold map2. rewrite !length_map, Hlen_ap. exact Hlen.
    + unfold map2. rewrite map_map. apply Forall_map.
      eapply Forall_impl; [| apply (combine_Forall _ _ _ _ Hfa Hfp)].
      intros [a p] [Ha Hp]. cbn [fst snd] in *. rewrite mul_spec, sub_spec.
      apply SF64mul_square, nonneg_abs_not_nan, SF64sub_abs;
        apply is_finite_plain; assumption.
  - rewrite mape_terms.
    destruct (series_mean_nonneg_or_nan (map mape_term (combine actual predicted)))
      as [Hnan | Hnn].
    + rewrite length_map, Hlen_ap. exact Hlen.
    + apply Forall_map, Forall_forall. intros ap _. apply abs_nonneg_or_nan.
    + left. rewrite Hnan. reflexivity.
    + right. apply nonneg_leb. rewrite mul_spec.
      change (Prim2SF 100) with (S754_finite false 7036874417766400 (-46)).
      apply SF64mul_nonneg_finite. exact Hnn.
Qed.

Lemma evaluate_model_ranges_witness :
  (0 <=? 0.5)%float = true /\
  (0 <=? RMSE {| MAE := 0.5; RMSE := 0x1.6a09e667f3bcdp-1; MAPE := 50 |})%float = true /\
  (is_nan 50 = true \/ (0 <=? 50)%float = true).
Proof.
  apply (evaluate_model_ranges
           [1; 2]%float [2; 2]%float
           {| MAE := 0.5; RMSE := 0x1.6a09e667f3bcdp-1; MAPE := 50 |}).
  - reflexivity.
  - simpl. lia.
Defined.

(** ** Exchanging the arguments of [evaluate_model] *)

Lemma binary_round_aux_opp (m e : Z) (l : location) :
  binary_round_aux prec emax true m e l = SFopp (binary_round_aux prec emax false m e l).
Proof.
  unfold binary_round_aux.
  destruct (shr_fexp prec emax m e l) as [mrs1 e1].
  destruct (shr_fexp prec emax _ e1 loc_Exact) as [mrs2 e2].
  destruct (shr_m mrs2); try reflexivity.
  destruct (e2 <=? emax - prec); reflexivity.
Qed.

Lemma binary_normalize_opp (z e : Z) :
  z <> 0 ->
  binary_normalize prec emax (- z) e false = SFopp (binary_normalize prec emax z e false).
Proof.
  intros Hz. destruct z as [| p | p]; [contradiction | |];
    cbn [Z.opp binary_normalize]; unfold binary_round;
    destruct (shl_align _ _ _) as [mz ez]; rewrite binary_round_aux_opp.
  - reflexivity.
  - destruct (binary_round_aux prec emax false (Z.pos mz) ez loc_Exact) as [[|] | [|] | | [|] ? ?];
      reflexivity.
Qed.

(** Swapping the operands of a subtraction negates the result, except
    that equal operands give +0 both ways. *)
Lemma SF64sub_swap (x y : spec_float) :
  SF64sub y x = SFopp (SF64sub x y) \/
  (SF64sub x y = S754_zero false /\ SF64sub y x = S754_zero false).
Proof.
  destruct x as [sx | sx | | sx mx ex]; destruct y as [sy | sy | | sy my ey];
    try (left; reflexivity);
    try (destruct sx, sy; cbn; auto; fail);
    try (destruct sx; cbn; auto; fail);
    try (destruct sy; cbn; auto; fail).
  unfold SF64sub, SFsub. cbv zeta. rewrite (Z.min_comm ey ex).
  set (cx := cond_Zopp sx (Z.pos (fst (shl_align mx ex (Z.min ex ey))))).
  set (cy := cond_Zopp sy (Z.pos (fst (shl_align my ey (Z.min ex ey))))).
  destruct (Z.eq_dec (cx - cy) 0) as [Hz | Hnz].
  - right. replace (cy - cx) with 0 by lia. rewrite Hz. split; reflexivity.
  - left. replace (cy - cx) with (- (cx - cy)) by lia.
    apply binary_normalize_opp. exact Hnz.
Qed.

Lemma SFabs_opp (x : spec_float) : SFabs (SFopp x) = SFabs x.
Proof. destruct x; reflexivity. Qed.

Lemma SF64mul_opp_opp (x : spec_float) : SF64mul (SFopp x) (SFopp x) = SF64mul x x.
Proof.
  destruct x as [[|] | [|] | | [|] m e]; reflexivity.
Qed.

Lemma abs_sub_swap (x y : float) : abs (y - x) = abs (x - y).
Proof.
  apply Prim2SF_inj. rewrite !abs_spec, !sub_spec.
  destruct (SF64sub_swap (Prim2SF x) (Prim2SF y)) as [-> | [-> ->]];
    [apply SFabs_opp | reflexivity].
Qed.

Lemma square_sub_swap (x y : float) : ((y - x) * (y - x) = (x - y) * (x - y))%float.
Proof.
  apply Prim2SF_inj. rewrite !mul_spec, !sub_spec.
  destruct (SF64sub_swap (Prim2SF x) (Prim2SF y)) as [-> | [-> ->]];
    [apply SF64mul_opp_opp | reflexivity].
Qed.


Lemma check_reg_targets_swap (y_true y_pred : FloatSeries) :
  check_reg_targets y_true y_pred = Ok tt -> check_reg_targets y_pred y_true = Ok tt.
Proof.
  intros H. destruct (check_reg_targets_Ok_inv _ _ H) as [Hlen [Hne [Hft Hfp]]].
  unfold check_reg_targets. rewrite <- Hlen, Nat.eqb_refl. cbn [negb].
  destruct y_true as [| v rest]; [contradiction |]. cbn [length Nat.eqb].
  rewrite Hft, Hfp. reflexivity.
Qed.

(** X18: MAE and RMSE do not depend on which series is passed as actual
    and which as predicted: when the call returns metrics, the call with
    the two arguments exchanged returns metrics too, with the same MAE and
    the same RMSE. *)
Theorem evaluate_model_swap (actual predicted : FloatSeries) (metrics : EvaluationMetrics) :
  evaluate_model actual predicted = Ok metrics ->
  exists swapped,
    evaluate_model predicted actual = Ok swapped /\
    MAE swapped = MAE metrics /\ RMSE swapped = RMSE metrics.
Proof.
  intros Hrun. unfold evaluate_model, mean_absolute_error, mean_squared_error in *.
  destruct (check_reg_targets actual predicted) as [[] | e] eqn:Hcheck; [| discriminate].
  rewrite (check_reg_targets_swap _ _ Hcheck).
  cbn [Py.bind] in *. injection Hrun as <-. eexists. split; [reflexivity |].
  cbn [MAE RMSE]. split.
  - f_equal. unfold map2. rewrite !map_map. clear Hcheck.
    generalize predicted as ps. induction actual as [| a rest IH]; intros [| p ps];
      try reflexivity.
    cbn [combine map fst snd]. rewrite abs_sub_swap. f_equal. apply IH.
  - do 2 f_equal. unfold map2. rewrite !map_map. clear Hcheck.
    generalize predicted as ps. induction actual as [| a rest IH]; intros [| p ps];
      try reflexivity.
    cbn [combine map fst snd]. rewrite square_sub_swap. f_equal. apply IH.
Qed.

Lemma evaluate_model_swap_witness :
  exists swapped,
    evaluate_model [2; 2]%float [1; 2]%float = Ok swapped /\
    MAE swapped = MAE {| MAE := 0.5; RMSE := 0x1.6a09e667f3bcdp-1; MAPE := 50 |} /\
    RMSE swapped = RMSE {| MAE := 0.5; RMSE := 0x1.6a09e667f3bcdp-1; MAPE := 50 |}.
Proof.
  apply (evaluate_model_swap [1; 2]%float [2; 2]%float).
  reflexivity.
Defined.

(** MAPE divides by the first argument and does change when the arguments
    are exchanged. *)
Lemma MAPE_depends_on_argument_order :
  evaluate_model [1; 2]%float [2; 2]%float
  = Ok {| MAE := 0.5; RMSE := 0x1.6a09e667f3bcdp-1; MAPE := 50 |} /\
  evaluate_model [2; 2]%float [1; 2]%float
  = Ok {| MAE := 0.5; RMSE := 0x1.6a09e667f3bcdp-1; MAPE := 25 |}.
Proof. split; reflexivity. Qed.

(** X16: the call returns metrics exactly when the two series have the
    same length, are not empty and hold finite numbers only; in every other
    case the exception raised is ValueError. *)
Theorem evaluate_model_outcome (actual predicted : FloatSeries) :
  ((exists metrics, evaluate_model actual predicted = Ok metrics) <->
   (length actual = length predicted /\ actual <> [] /\
    forallb is_finite actual = true /\ forallb is_finite predicted = true)) /\
  (forall e, evaluate_model actual predicted = Raise e -> e = ValueError).
Proof.
  unfold evaluate_model, mean_absolute_error, mean_squared_error.
  destruct (check_reg_targets actual predicted) as [[] | e] eqn:Hcheck; cbn [Py.bind].
  - split; [| discriminate]. split.
    + intros _. apply check_reg_targets_Ok_inv. exact Hcheck.
    + intros _. eexists. reflexivity.
  - split.
    + split; [intros [m H]; discriminate H |].
      intros [Hlen [Hne [Hfa Hfp]]]. exfalso.
      unfold check_reg_targets in Hcheck. rewrite Hlen, Nat.eqb_refl in Hcheck.
      cbn [negb] in Hcheck. rewrite <- Hlen in Hcheck.
      destruct actual as [| v rest]; [contradiction |]. cbn [length Nat.eqb] in Hcheck.
      rewrite Hfa, Hfp in Hcheck. discriminate Hcheck.
    + intros e' H. injection H as <-.
      unfold check_reg_targets in Hcheck.
      destruct (negb (length actual =? length predicted)%nat);
        [injection Hcheck as <-; reflexivity |].
      destruct (length actual =? 0)%nat; [injection Hcheck as <-; reflexivity |].
      destruct (negb (forallb is_finite actual && forallb is_finite predicted));
        [injection Hcheck as <-; reflexivity | discriminate].
Qed.

Lemma evaluate_model_outcome_witness :
  exists metrics, evaluate_model [1; 2]%float [2; 2]%float = Ok metrics.
Proof.
  apply (proj2 (proj1 (evaluate_model_outcome [1; 2]%float [2; 2]%float))).
  repeat split. discriminate.
Defined.

(** X19: a finite, non-empty series evaluated against itself has MAE 0
    and RMSE 0, also when it contains zeros (it is MAPE that zeros
    affect). *)
Theorem evaluate_model_perfect (x : FloatSeries) :
  x <> [] ->
  Z.of_nat (length x) < 2 ^ 63 ->
  forallb is_finite x = true ->
  exists mape, evaluate_model x x = Ok {| MAE := 0; RMSE := 0; MAPE := mape |}.
Proof.
  intros Hne Hlen Hfin.
  unfold evaluate_model, mean_absolute_error, mean_squared_error.
  rewrite (check_reg_targets_self x Hne Hfin). cbn [Py.bind].
  rewrite !map2_self, !map_map.
  assert (Hx : Forall (fun v => is_finite v = true) x) by (apply forallb_finite_Forall, Hfin).
  assert (Hmae : np_average (map (fun v => abs (v - v)) x) = 0%float).
  { apply np_average_zeros.
    - destruct x; [contradiction | discriminate].
    - rewrite length_map. exact Hlen.
    - apply Forall_map. eapply Forall_impl; [| exact Hx].
      intros v Hf. cbv beta. rewrite (sub_self v Hf). reflexivity. }
  assert (Hmse : np_average (map (fun v => ((v - v) * (v - v))%float) x) = 0%float).
  { apply np_average_zeros.
    - destruct x; [contradiction | discriminate].
    - rewrite length_map. exact Hlen.
    - apply Forall_map. eapply Forall_impl; [| exact Hx].
      intros v Hf. cbv beta. rewrite (sub_self v Hf). reflexivity. }
  rewrite Hmae, Hmse. eexists. reflexivity.
Qed.

Lemma evaluate_model_perfect_witness :
  exists mape,
    evaluate_model [0; 1]%float [0; 1]%float
    = Ok {| MAE := 0; RMSE := 0; MAPE := mape |}.
Proof.
  apply (evaluate_model_perfect [0; 1]%float).
  - discriminate.
  - simpl. lia.
  - reflexivity.
Defined.

(** ** Instances on the scenario *)

Lemma aggregate_counts_records_witness :
  occupancy {| occ_index := 1; date := 19724 * day_ns; occupancy := 2 |}
  = Z.of_nat (count_occ Z.eq_dec (record_dates scenario_daily)
                        (date {| occ_index := 1; date := 19724 * day_ns;
                                 occupancy := 2 |})).
Proof.
  apply (aggregate_counts_records scenario_daily scenario_occupancy).
  - reflexivity.
  - right. left. reflexivity.
Defined.

Lemma aggregate_succeeds_on_nonempty_expansion_witness :
  exists occ, aggregate_daily_occupancy scenario_daily = Ok occ.
Proof.
  apply (aggregate_succeeds_on_nonempty_expansion
           parse_two_dates scenario_reservations
           default_arrival_col default_departure_col scenario_daily).
  - reflexivity.
  - discriminate.
Defined.
